(** * Mini School API: enrollment and capacity rules

    A shallow embedding of the service layer of the school-records backend
    (ClassService, StudentService, AdminService) over an explicit model of
    its three tables, followed by the properties of the enrollment and
    capacity rules.

    Conventions of the embedding:
    - a table is the list of its rows in table order; a query without
      ORDER BY returns the matching rows in that order, so [.limit(1)]
      followed by [const [x] = ...] is the first matching row (the store
      itself promises no order: the model fixes insertion order);
    - [serial] primary keys are drawn from a per-table counter;
    - every service method is a computation [M A] over the database that
      either returns a value or throws, and a throw keeps whatever was
      written before it (the services open no transaction);
    - [new Date()] and [defaultNow()] are the parameter [now];
    - numbers are integers ([Z]); [undefined] is [None], and for a field
      typed [number | null | undefined] the value [null] is [Some None];
      the one computation on fractions, the dashboard's rate, is carried
      out on IEEE 754 doubles;
    - the tables hold any integer and any string: the store's column
      types ([integer], [serial], [varchar(n)]) are the predicates [int4]
      and [varchar], assumed where a property depends on the store
      accepting a value. *)

From Stdlib Require Import ZArith String List Bool Lia.
From Stdlib Require Import Sorting.Sorted Sorting.Permutation.
From Stdlib Require Import Floats.SpecFloat.
Import ListNotations.
Local Open Scope string_scope.
Local Open Scope Z_scope.

(** ** Schema (models/schema.ts) *)

Inductive Role := RoleAdmin | RoleTeacher | RoleStudent.

Definition role_eqb (a b : Role) : bool :=
  match a, b with
  | RoleAdmin, RoleAdmin | RoleTeacher, RoleTeacher | RoleStudent, RoleStudent => true
  | _, _ => false
  end.

Record User := mkUser {
  user_id : Z;
  user_name : string;
  user_email : string;
  user_passwordHash : string;
  user_role : Role;
  user_createdAt : Z;
  user_updatedAt : Z
}.

Record Class := mkClass {
  class_id : Z;
  class_name : string;
  class_section : string;
  class_teacherId : option Z;
  class_createdAt : Z;
  class_updatedAt : Z
}.

Record Student := mkStudent {
  student_id : Z;
  student_name : string;
  student_age : Z;
  student_classId : option Z;
  student_createdAt : Z;
  student_updatedAt : Z
}.

(** The database: the three tables and the two [serial] counters the
    services draw from. *)
Record Db := mkDb {
  users : list User;
  classes : list Class;
  students : list Student;
  classes_seq : Z;
  students_seq : Z
}.

Definition empty_db : Db := mkDb [] [] [] 1 1.

(** The values of an [integer] or [serial] column, and of a parameter
    compared with one: the store refuses a query that carries any other
    number. *)
Definition int4 (z : Z) : Prop := - 2147483648 <= z <= 2147483647.

(** The values of a [varchar(n)] column: the store refuses to write a
    longer string, and one that holds the character of code 0. *)
Fixpoint no_nul (s : string) : bool :=
  match s with
  | EmptyString => true
  | String c s' => negb (Ascii.eqb c Ascii.zero) && no_nul s'
  end.

Definition varchar (n : nat) (s : string) : Prop :=
  (String.length s <= n)%nat /\ no_nul s = true.

(** The largest offset the list query is given exactly: [(page - 1) * limit]
    is computed on doubles. *)
Definition MAX_SAFE_INTEGER : Z := 9007199254740991.

(** ** SQL and JavaScript primitives *)

(** SQL comparison of two nullable integers: unknown as soon as one side
    is NULL. *)
Definition sql_eq (a b : option Z) : option bool :=
  match a, b with
  | Some x, Some y => Some (x =? y)
  | _, _ => None
  end.

(** A WHERE clause keeps a row only when its condition is true (neither
    false nor unknown). *)
Definition sql_where (c : option bool) : bool :=
  match c with
  | Some true => true
  | _ => false
  end.

(** JavaScript truthiness of a number, of an optional number and of a
    string. *)
Definition truthy (n : Z) : bool := negb (n =? 0).

Definition truthy_opt (o : option Z) : bool :=
  match o with
  | Some n => truthy n
  | None => false
  end.

Definition truthy_str (s : string) : bool :=
  match s with
  | EmptyString => false
  | _ => true
  end.

Definition truthy_ostr (o : option string) : bool :=
  match o with
  | Some s => truthy_str s
  | None => false
  end.

(** [a === b] on [number | null]. *)
Definition strict_eq (a b : option Z) : bool :=
  match a, b with
  | Some x, Some y => x =? y
  | None, None => true
  | _, _ => false
  end.

(** ** Errors

    One constructor per message thrown by the services. *)
Inductive Error :=
| ClassAlreadyExists (name section : string)
    (* Class <name> - Section <section> already exists *)
| InvalidTeacherId
    (* Invalid teacher ID. User must exist and have teacher role. *)
| FailedToCreateClass
| ClassNotFound
| FailedToUpdateClass
| StudentNotFound
| StudentAlreadyEnrolled
    (* Student is already enrolled in this class *)
| ClassSectionFull (name section : string)
    (* Class section <name> - <section> is full. Maximum 5 students
       allowed per section. *)
| FailedToEnrollStudent
| StudentNotEnrolled
    (* Student is not enrolled in any class *)
| FailedToRemoveStudent
| TeacherNotFoundOrNotTeacher
    (* Teacher not found or user is not a teacher *)
| TeacherSectionLimit
    (* Teacher cannot be assigned to more than 5 sections *)
| FailedToAssignTeacher
| FailedToRemoveTeacher
| SpecifiedClassDoesNotExist
| FailedToUpdateStudent
| DatabaseError.
    (* raised by the store itself: negative LIMIT or OFFSET *)

(** The failure kinds of the specification. *)
Inductive ErrorKind :=
| NotFound | InvalidReference | Conflict | CapacityExceeded
| PreconditionFailed | Internal.

Definition kind (e : Error) : ErrorKind :=
  match e with
  | ClassNotFound | StudentNotFound | SpecifiedClassDoesNotExist => NotFound
  | InvalidTeacherId | TeacherNotFoundOrNotTeacher => InvalidReference
  | ClassAlreadyExists _ _ | StudentAlreadyEnrolled => Conflict
  | ClassSectionFull _ _ | TeacherSectionLimit => CapacityExceeded
  | StudentNotEnrolled => PreconditionFailed
  | FailedToCreateClass | FailedToUpdateClass | FailedToEnrollStudent
  | FailedToRemoveStudent | FailedToAssignTeacher | FailedToRemoveTeacher
  | FailedToUpdateStudent | DatabaseError => Internal
  end.

(** ** The service monad: state and exceptions, no rollback *)

Inductive Res (A : Type) :=
| Ok (a : A)
| Throw (e : Error).
Arguments Ok {A} a.
Arguments Throw {A} e.

Definition M (A : Type) : Type := Db -> Res A * Db.

Definition ret {A} (a : A) : M A := fun db => (Ok a, db).

Definition throw {A} (e : Error) : M A := fun db => (Throw e, db).

Definition bind {A B} (m : M A) (k : A -> M B) : M B :=
  fun db =>
    match m db with
    | (Ok a, db') => k a db'
    | (Throw e, db') => (Throw e, db')
    end.

Notation "x <- m ;; k" := (bind m (fun x => k))
  (at level 61, m at next level, right associativity).
Notation "m ;;; k" := (bind m (fun _ => k))
  (at level 61, right associativity).

(** [if (cond) throw new Error(...)] *)
Definition throw_if (cond : bool) (e : Error) : M unit :=
  if cond then throw e else ret tt.

(** ** Store operations (the drizzle query builder) *)

Definition select_users (where_ : User -> bool) : M (list User) :=
  fun db => (Ok (filter where_ (users db)), db).

Definition select_classes (where_ : Class -> bool) : M (list Class) :=
  fun db => (Ok (filter where_ (classes db)), db).

Definition select_students (where_ : Student -> bool) : M (list Student) :=
  fun db => (Ok (filter where_ (students db)), db).

(** [select({ count: count() })]: always exactly one result row. *)
Definition count_students (where_ : Student -> bool) : M Z :=
  fun db => (Ok (Z.of_nat (length (filter where_ (students db)))), db).

Definition count_classes (where_ : Class -> bool) : M Z :=
  fun db => (Ok (Z.of_nat (length (filter where_ (classes db)))), db).

Definition count_users (where_ : User -> bool) : M Z :=
  fun db => (Ok (Z.of_nat (length (filter where_ (users db)))), db).

(** [const [x] = await ... .limit(1)] *)
Definition first_row {A} (rows : list A) : option A := hd_error (firstn 1 rows).

(** [insert(...).values(...).returning()] *)
Definition insert_class (name section : string) (teacherId : option Z) (now : Z)
  : M (list Class) :=
  fun db =>
    let row := mkClass (classes_seq db) name section teacherId now now in
    (Ok [row],
     mkDb (users db) (classes db ++ [row]) (students db)
          (classes_seq db + 1) (students_seq db)).

(** [const [createdStudent] = await insert(...).returning()]: the inserted
    row, which [createStudent] uses without testing it. *)
Definition insert_student (name : string) (age : Z) (classId : option Z) (now : Z)
  : M Student :=
  fun db =>
    let row := mkStudent (students_seq db) name age classId now now in
    (Ok row,
     mkDb (users db) (classes db) (students db ++ [row])
          (classes_seq db) (students_seq db + 1)).

(** [update(...).set(...).where(...).returning()] *)
Definition update_classes (set : Class -> Class) (where_ : Class -> bool)
  : M (list Class) :=
  fun db =>
    (Ok (map set (filter where_ (classes db))),
     mkDb (users db)
          (map (fun c => if where_ c then set c else c) (classes db))
          (students db) (classes_seq db) (students_seq db)).

Definition update_students (set : Student -> Student) (where_ : Student -> bool)
  : M (list Student) :=
  fun db =>
    (Ok (map set (filter where_ (students db))),
     mkDb (users db) (classes db)
          (map (fun s => if where_ s then set s else s) (students db))
          (classes_seq db) (students_seq db)).

(** Column setters used by the [set] clauses. *)
Definition set_class_teacher (t : option Z) (now : Z) (c : Class) : Class :=
  mkClass (class_id c) (class_name c) (class_section c) t
          (class_createdAt c) now.

Definition set_class_fields (name section : option string) (now : Z) (c : Class)
  : Class :=
  mkClass (class_id c)
          (match name with Some n => n | None => class_name c end)
          (match section with Some s => s | None => class_section c end)
          (class_teacherId c) (class_createdAt c) now.

Definition set_student_class (cid : option Z) (now : Z) (s : Student) : Student :=
  mkStudent (student_id s) (student_name s) (student_age s) cid
            (student_createdAt s) now.

Definition set_student_fields (name : option string) (age : option Z)
    (classId : option (option Z)) (now : Z) (s : Student) : Student :=
  mkStudent (student_id s)
            (match name with Some n => n | None => student_name s end)
            (match age with Some a => a | None => student_age s end)
            (match classId with Some c => c | None => student_classId s end)
            (student_createdAt s) now.

(** The filter [eq(students.classId, classId)]. *)
Definition in_class (classId : Z) (s : Student) : bool :=
  sql_where (sql_eq (student_classId s) (Some classId)).

(** The filter [eq(classes.teacherId, teacherId)]. *)
Definition taught_by (teacherId : Z) (c : Class) : bool :=
  sql_where (sql_eq (class_teacherId c) (Some teacherId)).

(** The filter [and(eq(users.id, id), eq(users.role, "teacher"))]. *)
Definition is_teacher (id : Z) (u : User) : bool :=
  (user_id u =? id) && role_eqb (user_role u) RoleTeacher.

(** ** ClassService (services/class.service.ts) *)

Definition createClass (now : Z) (name section : string) (teacherId : option Z)
  : M Class :=
  rows <- select_classes (fun c => String.eqb (class_name c) name) ;;
  throw_if (match first_row rows with
            | Some existingClass => String.eqb (class_section existingClass) section
            | None => false
            end)
           (ClassAlreadyExists name section) ;;;
  (if truthy_opt teacherId then
     trows <- select_users
                (fun u => match teacherId with
                          | Some t => is_teacher t u
                          | None => false
                          end) ;;
     throw_if (match first_row trows with Some _ => false | None => true end)
              InvalidTeacherId
   else ret tt) ;;;
  created <- insert_class name section
               (if truthy_opt teacherId then teacherId else None) now ;;
  match first_row created with
  | Some createdClass => ret createdClass
  | None => throw FailedToCreateClass
  end.

Definition getClassById (id : Z) : M Class :=
  rows <- select_classes (fun c => class_id c =? id) ;;
  match first_row rows with
  | Some foundClass => ret foundClass
  | None => throw ClassNotFound
  end.

Definition updateClass (now : Z) (id : Z) (name section : option string)
  : M Class :=
  getClassById id ;;;
  (if truthy_ostr name || truthy_ostr section then
     rows <- select_classes (fun c => class_id c =? id) ;;
     match first_row rows with
     | None => throw FailedToUpdateClass
     | Some existingClass =>
         let newName :=
           if truthy_ostr name
           then match name with Some n => n | None => class_name existingClass end
           else class_name existingClass in
         let newSection :=
           if truthy_ostr section
           then match section with Some s => s | None => class_section existingClass end
           else class_section existingClass in
         dups <- select_classes (fun c => String.eqb (class_name c) newName) ;;
         throw_if (match hd_error (firstn 2 dups) with
                   | Some duplicateClass =>
                       negb (class_id duplicateClass =? id)
                       && String.eqb (class_section duplicateClass) newSection
                   | None => false
                   end)
                  (ClassAlreadyExists newName newSection)
     end
   else ret tt) ;;;
  updated <- update_classes (set_class_fields name section now)
                            (fun c => class_id c =? id) ;;
  match hd_error updated with
  | Some updatedClass => ret updatedClass
  | None => throw FailedToUpdateClass
  end.

Definition enrollStudent (now : Z) (classId studentId : Z) : M unit :=
  classInfo <- getClassById classId ;;
  rows <- select_students (fun s => student_id s =? studentId) ;;
  match first_row rows with
  | None => throw StudentNotFound
  | Some student =>
      throw_if (strict_eq (student_classId student) (Some classId))
               StudentAlreadyEnrolled ;;;
      studentCount <- count_students (in_class classId) ;;
      throw_if (5 <=? studentCount)
               (ClassSectionFull (class_name classInfo) (class_section classInfo)) ;;;
      updated <- update_students (set_student_class (Some classId) now)
                                 (fun s => student_id s =? studentId) ;;
      throw_if (match hd_error updated with Some _ => false | None => true end)
               FailedToEnrollStudent
  end.

Definition removeStudentFromClass (now : Z) (studentId : Z) : M unit :=
  rows <- select_students (fun s => student_id s =? studentId) ;;
  match first_row rows with
  | None => throw StudentNotFound
  | Some student =>
      throw_if (negb (truthy_opt (student_classId student))) StudentNotEnrolled ;;;
      updated <- update_students (set_student_class None now)
                                 (fun s => student_id s =? studentId) ;;
      throw_if (match hd_error updated with Some _ => false | None => true end)
               FailedToRemoveStudent
  end.

Definition assignTeacherToClass (now : Z) (classId teacherId : Z) : M Class :=
  getClassById classId ;;;
  trows <- select_users (is_teacher teacherId) ;;
  throw_if (match first_row trows with Some _ => false | None => true end)
           TeacherNotFoundOrNotTeacher ;;;
  teacherClasses <- select_classes (taught_by teacherId) ;;
  throw_if (5 <=? Z.of_nat (length teacherClasses)) TeacherSectionLimit ;;;
  updated <- update_classes (set_class_teacher (Some teacherId) now)
                            (fun c => class_id c =? classId) ;;
  match hd_error updated with
  | Some updatedClass => ret updatedClass
  | None => throw FailedToAssignTeacher
  end.

Definition removeTeacherFromClass (now : Z) (classId : Z) : M Class :=
  getClassById classId ;;;
  updated <- update_classes (set_class_teacher None now)
                            (fun c => class_id c =? classId) ;;
  match hd_error updated with
  | Some updatedClass => ret updatedClass
  | None => throw FailedToRemoveTeacher
  end.

(** ** StudentService (services/student.service.ts) *)

Record ClassSummary := mkClassSummary {
  summary_id : Z;
  summary_name : string;
  summary_section : string
}.

(** [StudentWithClass]: the student row and the nested [class] object. *)
Record StudentWithClass := mkStudentWithClass {
  sw_student : Student;
  sw_class : option ClassSummary
}.

Record PaginatedStudents := mkPaginatedStudents {
  pg_students : list StudentWithClass;
  pg_currentPage : Z;
  pg_totalPages : Z;
  pg_totalStudents : Z;
  pg_limit : Z
}.

(** [from(students).leftJoin(classes, eq(students.classId, classes.id))]:
    one joined row per matching class, and one with no class when none
    matches. *)
Definition join_on (s : Student) (c : Class) : bool :=
  sql_where (sql_eq (student_classId s) (Some (class_id c))).

Definition join_student (cs : list Class) (s : Student)
  : list (Student * option Class) :=
  match filter (join_on s) cs with
  | [] => [(s, None)]
  | matches => map (fun c => (s, Some c)) matches
  end.

Definition left_join (ss : list Student) (cs : list Class)
  : list (Student * option Class) :=
  flat_map (join_student cs) ss.

Definition select_students_with_class (where_ : Student -> bool)
  : M (list (Student * option Class)) :=
  fun db =>
    (Ok (filter (fun r => where_ (fst r)) (left_join (students db) (classes db))), db).

(** [class: student.class?.id ? student.class : null] *)
Definition with_class (r : Student * option Class) : StudentWithClass :=
  mkStudentWithClass
    (fst r)
    (match snd r with
     | Some c =>
         if truthy (class_id c)
         then Some (mkClassSummary (class_id c) (class_name c) (class_section c))
         else None
     | None => None
     end).

Definition getStudentById (id : Z) : M StudentWithClass :=
  rows <- select_students_with_class (fun s => student_id s =? id) ;;
  match first_row rows with
  | Some student => ret (with_class student)
  | None => throw StudentNotFound
  end.

(** [classId] of [createStudent] is [number | null | undefined]; the method
    only tests its truthiness, so [None] stands for both absent values. *)
Definition createStudent (now : Z) (name : string) (age : Z) (classId : option Z)
  : M StudentWithClass :=
  (match classId with
   | Some cid =>
       if truthy cid then
         rows <- select_classes (fun c => class_id c =? cid) ;;
         match first_row rows with
         | None => throw SpecifiedClassDoesNotExist
         | Some existingClass =>
             studentCount <- count_students (in_class cid) ;;
             throw_if (5 <=? studentCount)
                      (ClassSectionFull (class_name existingClass)
                                        (class_section existingClass))
         end
       else ret tt
   | None => ret tt
   end) ;;;
  created <- insert_student name age
               (if truthy_opt classId then classId else None) now ;;
  getStudentById (student_id created).

Definition updateStudent (now : Z) (id : Z) (name : option string)
    (age : option Z) (classId : option (option Z)) : M StudentWithClass :=
  existingStudent <- getStudentById id ;;
  (match classId with
   | Some (Some cid) =>
       rows <- select_classes (fun c => class_id c =? cid) ;;
       match first_row rows with
       | None => throw SpecifiedClassDoesNotExist
       | Some existingClass =>
           if negb (strict_eq (student_classId (sw_student existingStudent)) (Some cid))
           then
             studentCount <- count_students (in_class cid) ;;
             throw_if (5 <=? studentCount)
                      (ClassSectionFull (class_name existingClass)
                                        (class_section existingClass))
           else ret tt
       end
   | _ => ret tt
   end) ;;;
  updated <- update_students (set_student_fields name age classId now)
                             (fun s => student_id s =? id) ;;
  throw_if (match hd_error updated with Some _ => false | None => true end)
           FailedToUpdateStudent ;;;
  getStudentById id.

(** [options.classId ? eq(students.classId, options.classId) : undefined] *)
Definition class_filter (classId : option Z) (s : Student) : bool :=
  match classId with
  | Some c => if truthy c then in_class c s else true
  | None => true
  end.

(** [options.page || 1], [options.limit || 10] *)
Definition or_default (o : option Z) (d : Z) : Z :=
  match o with
  | Some n => if truthy n then n else d
  | None => d
  end.

(** [Math.ceil(a / b)] on integers, [b] non-zero. (The quotient is a
    double; for a count of rows of a table with an [int4] key and a divisor
    of at most 100 it is within 2^-20 of the exact one, which is an integer
    or at least 1/100 away from one, so its ceiling is the exact one.) *)
Definition ceil_div (a b : Z) : Z := - ((- a) / b).

Section Listing.

(** The collation order the store applies to [ORDER BY students.name]. *)
Variable name_le : string -> string -> bool.

Definition row_le (a b : Student * option Class) : bool :=
  name_le (student_name (fst a)) (student_name (fst b)).

Fixpoint insert_row (x : Student * option Class)
    (l : list (Student * option Class)) : list (Student * option Class) :=
  match l with
  | [] => [x]
  | y :: l' => if row_le x y then x :: l else y :: insert_row x l'
  end.

(** [orderBy(asc(students.name))] *)
Fixpoint order_by_name (l : list (Student * option Class))
  : list (Student * option Class) :=
  match l with
  | [] => []
  | x :: l' => insert_row x (order_by_name l')
  end.

(** The list query of [getStudents]. The store rejects a negative OFFSET;
    the query builder leaves a negative LIMIT out of the query, which then
    returns every row from the offset on. *)
Definition select_page (where_ : Student -> bool) (limit offset : Z)
  : M (list (Student * option Class)) :=
  fun db =>
    if offset <? 0 then (Throw DatabaseError, db)
    else
      (Ok ((if limit <? 0 then fun rows => rows else firstn (Z.to_nat limit))
             (skipn (Z.to_nat offset)
                (order_by_name
                   (filter (fun r => where_ (fst r))
                      (left_join (students db) (classes db)))))),
       db).

Definition getStudents (page limit classId : option Z) : M PaginatedStudents :=
  let page := or_default page 1 in
  let limit := or_default limit 10 in
  let offset := (page - 1) * limit in
  let whereCondition := class_filter classId in
  totalStudents <- count_students whereCondition ;;
  let totalPages := ceil_div totalStudents limit in
  studentsList <- select_page whereCondition limit offset ;;
  ret (mkPaginatedStudents (map with_class studentsList)
                           page totalPages totalStudents limit).

End Listing.

(** [StudentController.getStudents]: the query parameters after [parseInt]
    ([None] when the parameter is absent; one that does not parse is falsy
    and is treated like an absent one throughout); [inl] is the 400
    response. *)
Inductive BadQuery := BadPage | BadLimit | BadClassId.

Definition validate_query (page limit classId : option Z) : option BadQuery :=
  if truthy_opt page && match page with Some p => p <? 1 | None => false end
  then Some BadPage
  else if truthy_opt limit
          && match limit with Some l => (l <? 1) || (100 <? l) | None => false end
  then Some BadLimit
  else if truthy_opt classId
          && match classId with Some c => c <? 1 | None => false end
  then Some BadClassId
  else None.

Definition getStudents_handler (name_le : string -> string -> bool)
    (page limit classId : option Z) (db : Db)
  : BadQuery + Res PaginatedStudents * Db :=
  match validate_query page limit classId with
  | Some bad => inl bad
  | None => inr (getStudents name_le page limit classId db)
  end.

(** ** AdminService (services/admin.service.ts) *)

Record DashboardStats := mkDashboardStats {
  stats_totalStudents : Z;
  stats_activeClasses : Z;
  stats_totalTeachers : Z;
  stats_enrollmentRate : Z
}.

(** Counts are JS numbers, that is IEEE 754 doubles (53 bits of mantissa,
    exponents below 1024): the conversion of an integer, [/] and [*]. *)
Definition of_count (n : Z) : spec_float := binary_normalize 53 1024 n 0 false.

Definition js_div (x y : spec_float) : spec_float := SFdiv 53 1024 x y.

Definition js_mul (x y : spec_float) : spec_float := SFmul 53 1024 x y.

(** [Math.round] of a finite double: the nearest integer, halves upwards.
    (NaN and the infinities, which [Math.round] returns as they are, do
    not arise from a quotient of counts with a positive divisor; they are
    sent to 0 here.) *)
Definition Math_round (x : spec_float) : Z :=
  match x with
  | S754_finite s m e =>
      let n := cond_Zopp s (Zpos m) in
      if 0 <=? e then n * 2 ^ e else (2 * n + 2 ^ (- e)) / 2 ^ (1 - e)
  | _ => 0
  end.

(** [Math.round((a / b) * 100)] *)
Definition round_percent (a b : Z) : Z :=
  Math_round (js_mul (js_div (of_count a) (of_count b)) (of_count 100)).

Definition getDashboardStats : M DashboardStats :=
  totalStudents <- count_students (fun _ => true) ;;
  activeClasses <- count_classes (fun _ => true) ;;
  totalTeachers <- count_users (fun u => role_eqb (user_role u) RoleTeacher) ;;
  enrolledStudents <-
    count_students
      (fun s => sql_where (sql_eq (student_classId s) (student_classId s))) ;;
  let enrollmentRate :=
    if 0 <? totalStudents then round_percent enrolledStudents totalStudents
    else 0 in
  ret (mkDashboardStats totalStudents activeClasses totalTeachers enrollmentRate).

(** * Properties *)

(** ** Observations on a database *)

Definition find_class (id : Z) (db : Db) : option Class :=
  find (fun c => class_id c =? id) (classes db).

Definition find_student (id : Z) (db : Db) : option Student :=
  find (fun s => student_id s =? id) (students db).

Definition find_teacher (id : Z) (db : Db) : option User :=
  find (is_teacher id) (users db).

(** Number of students whose [classId] is [classId]. *)
Definition enrolled_count (classId : Z) (db : Db) : Z :=
  Z.of_nat (length (filter (in_class classId) (students db))).

(** Number of classes whose [teacherId] is [teacherId]. *)
Definition sections_of (teacherId : Z) (db : Db) : Z :=
  Z.of_nat (length (filter (taught_by teacherId) (classes db))).

(** Primary keys: [id serial primary key] on students and classes. *)
Definition students_pk (db : Db) : Prop := NoDup (map student_id (students db)).

Definition classes_pk (db : Db) : Prop := NoDup (map class_id (classes db)).

(** Every class has at most five enrolled students. *)
Definition capacity_ok (db : Db) : Prop :=
  forall c, In c (classes db) -> enrolled_count (class_id c) db <= 5.

(** The operations of the enrollment and capacity manager. *)
Inductive ManagerOp :=
| OpEnroll (now classId studentId : Z)
| OpUnenroll (now studentId : Z)
| OpAssignTeacher (now classId teacherId : Z)
| OpRemoveTeacher (now classId : Z).

Definition run_op (op : ManagerOp) : M unit :=
  match op with
  | OpEnroll now classId studentId => enrollStudent now classId studentId
  | OpUnenroll now studentId => removeStudentFromClass now studentId
  | OpAssignTeacher now classId teacherId =>
      assignTeacherToClass now classId teacherId ;;; ret tt
  | OpRemoveTeacher now classId =>
      removeTeacherFromClass now classId ;;; ret tt
  end.

(** A sequence of operations, each one run only if all before it
    succeeded. *)
Fixpoint run_ops (ops : list ManagerOp) : M unit :=
  match ops with
  | [] => ret tt
  | op :: rest => run_op op ;;; run_ops rest
  end.

(** The students table after [update ... where id = studentId]. *)
Definition with_student_class (studentId : Z) (cid : option Z) (now : Z) (db : Db)
  : Db :=
  mkDb (users db) (classes db)
       (map (fun s => if student_id s =? studentId
                      then set_student_class cid now s else s)
            (students db))
       (classes_seq db) (students_seq db).

(** The classes table after [update ... where id = classId]. *)
Definition with_class_teacher (classId : Z) (t : option Z) (now : Z) (db : Db)
  : Db :=
  mkDb (users db)
       (map (fun c => if class_id c =? classId
                      then set_class_teacher t now c else c)
            (classes db))
       (students db) (classes_seq db) (students_seq db).

(** A concrete database used by the examples: one teacher (id 7), one
    admin, classes 1 to 6, the first five taught by user 7, and class 1
    holding students 1 to 5. *)
Definition sample_classes : list Class :=
  [ mkClass 1 "Mathematics" "A" (Some 7) 0 0;
    mkClass 2 "Mathematics" "B" (Some 7) 0 0;
    mkClass 3 "Physics" "A" (Some 7) 0 0;
    mkClass 4 "Physics" "B" (Some 7) 0 0;
    mkClass 5 "Chemistry" "A" (Some 7) 0 0;
    mkClass 6 "Chemistry" "B" None 0 0 ].

Definition sample_students : list Student :=
  [ mkStudent 1 "Ava" 12 (Some 1) 0 0;
    mkStudent 2 "Ben" 13 (Some 1) 0 0;
    mkStudent 3 "Cleo" 12 (Some 1) 0 0;
    mkStudent 4 "Dan" 14 (Some 1) 0 0;
    mkStudent 5 "Eve" 13 (Some 1) 0 0;
    mkStudent 6 "Finn" 12 None 0 0;
    mkStudent 7 "Gus" 12 (Some 2) 0 0 ].

Definition sample_users : list User :=
  [ mkUser 7 "Tara" "tara@school.test" "hash" RoleTeacher 0 0;
    mkUser 8 "Adam" "adam@school.test" "hash" RoleAdmin 0 0 ].

Definition sample_db : Db := mkDb sample_users sample_classes sample_students 7 8.

Definition sample_ops : list ManagerOp :=
  [ OpUnenroll 10 5; OpEnroll 11 1 6; OpRemoveTeacher 12 1;
    OpAssignTeacher 13 6 7 ].

(** The class row that [insert_class] adds, and the database after it. *)
Definition new_class_row (name section : string) (teacherId : option Z)
    (now : Z) (db : Db) : Class :=
  mkClass (classes_seq db) name section teacherId now now.

Definition with_new_class (name section : string) (teacherId : option Z)
    (now : Z) (db : Db) : Db :=
  mkDb (users db)
       (classes db ++ [new_class_row name section teacherId now db])
       (students db) (classes_seq db + 1) (students_seq db).

(** The class a student row is joined with first, and the view of a
    student built from it. *)
Definition joined_class (db : Db) (s : Student) : option Class :=
  find (join_on s) (classes db).

Definition student_view (db : Db) (s : Student) : StudentWithClass :=
  with_class (s, joined_class db s).

(** The database after [update students ... where id = id] of
    [updateStudent], and after the insert of [createStudent]. *)
Definition with_student_fields (id : Z) (name : option string) (age : option Z)
    (classId : option (option Z)) (now : Z) (db : Db) : Db :=
  mkDb (users db) (classes db)
       (map (fun s => if student_id s =? id
                      then set_student_fields name age classId now s else s)
            (students db))
       (classes_seq db) (students_seq db).

Definition new_student_row (name : string) (age : Z) (classId : option Z)
    (now : Z) (db : Db) : Student :=
  mkStudent (students_seq db) name age classId now now.

Definition with_new_student (name : string) (age : Z) (classId : option Z)
    (now : Z) (db : Db) : Db :=
  mkDb (users db) (classes db)
       (students db ++ [new_student_row name age classId now db])
       (classes_seq db) (students_seq db + 1).

(** Foreign key [students.class_id references classes.id]. *)
Definition students_fk (db : Db) : Prop :=
  forall s c, In s (students db) -> student_classId s = Some c ->
              find_class c db <> None.

(** A student counts as enrolled when its class reference is not null. *)
Definition has_class (s : Student) : bool :=
  match student_classId s with
  | Some _ => true
  | None => false
  end.

(** A database whose only student has no class. *)
Definition unenrolled_db : Db :=
  mkDb [] [] [mkStudent 1 "Finn" 12 None 0 0] 1 2.

(** A page of students is in ascending order of name. *)
Definition names_ascending (name_le : string -> string -> bool)
    (l : list StudentWithClass) : Prop :=
  Sorted (fun v w => name_le (student_name (sw_student v))
                             (student_name (sw_student w)) = true) l.

Definition rows_ascending (name_le : string -> string -> bool)
    (l : list (Student * option Class)) : Prop :=
  Sorted (fun a b => row_le name_le a b = true) l.

(** * The remaining service methods *)

(** [orderBy(asc(column))] on any row type: a stable insertion sort. *)
Fixpoint insert_sorted {A} (le : A -> A -> bool) (x : A) (l : list A) : list A :=
  match l with
  | [] => [x]
  | y :: l' => if le x y then x :: l else y :: insert_sorted le x l'
  end.

Fixpoint sort_by {A} (le : A -> A -> bool) (l : list A) : list A :=
  match l with
  | [] => []
  | x :: l' => insert_sorted le x (sort_by le l')
  end.

(** [await Promise.all(rows.map(async (row) => ...))] over read-only
    queries: the results in the order of the rows. *)
Fixpoint mapM {A B} (f : A -> M B) (l : list A) : M (list B) :=
  match l with
  | [] => ret []
  | x :: l' => y <- f x ;; ys <- mapM f l' ;; ret (y :: ys)
  end.

(** ** ClassService, continued *)

Record ClassWithStudents := mkClassWithStudents {
  cws_class : Class;
  cws_students : list Student
}.

Definition getClassWithStudents (name_le : string -> string -> bool) (id : Z)
  : M ClassWithStudents :=
  foundClass <- getClassById id ;;
  classStudents <-
    (fun db =>
       (Ok (sort_by (fun a b => name_le (student_name a) (student_name b))
              (filter (in_class id) (students db))), db)) ;;
  ret (mkClassWithStudents foundClass classStudents).

(** The delete paths throw two messages of their own beside those of the
    methods they call. *)
Inductive DeleteError :=
| ServiceError (e : Error)
| CannotDeleteClassWithStudents
    (* Cannot delete class with enrolled students. Please move students to
       another class first. *)
| FailedToDeleteClass
| FailedToDeleteStudent.

Inductive DeleteRes :=
| Deleted
| DeleteThrow (e : DeleteError).

(** [delete(classes).where(eq(classes.id, id)).returning()] *)
Definition delete_class (id : Z) (db : Db) : list Class * Db :=
  (filter (fun c => class_id c =? id) (classes db),
   mkDb (users db)
        (filter (fun c => negb (class_id c =? id)) (classes db))
        (students db) (classes_seq db) (students_seq db)).

Definition delete_student (id : Z) (db : Db) : list Student * Db :=
  (filter (fun s => student_id s =? id) (students db),
   mkDb (users db) (classes db)
        (filter (fun s => negb (student_id s =? id)) (students db))
        (classes_seq db) (students_seq db)).

Definition deleteClass (id : Z) (db : Db) : DeleteRes * Db :=
  match getClassById id db with
  | (Throw e, db1) => (DeleteThrow (ServiceError e), db1)
  | (Ok _, db1) =>
      match count_students (in_class id) db1 with
      | (Throw e, db2) => (DeleteThrow (ServiceError e), db2)
      | (Ok studentCount, db2) =>
          if 0 <? studentCount
          then (DeleteThrow CannotDeleteClassWithStudents, db2)
          else
            let (deleted, db3) := delete_class id db2 in
            match hd_error deleted with
            | Some _ => (Deleted, db3)
            | None => (DeleteThrow FailedToDeleteClass, db3)
            end
      end
  end.

(** ** StudentService, continued *)

Definition deleteStudent (id : Z) (db : Db) : DeleteRes * Db :=
  match getStudentById id db with
  | (Throw e, db1) => (DeleteThrow (ServiceError e), db1)
  | (Ok _, db1) =>
      let (deleted, db2) := delete_student id db1 in
      match hd_error deleted with
      | Some _ => (Deleted, db2)
      | None => (DeleteThrow FailedToDeleteStudent, db2)
      end
  end.

(** [getStudents({ classId, limit: 100 })] *)
Definition getStudentsByClassId (name_le : string -> string -> bool) (classId : Z)
  : M (list StudentWithClass) :=
  result <- getStudents name_le None (Some 100) (Some classId) ;;
  ret (pg_students result).

(** ** AdminService, continued *)

Record UserDetails := mkUserDetails {
  details_id : Z;
  details_name : string;
  details_email : string;
  details_role : Role;
  details_createdAt : string;
  details_sectionCount : Z
}.

Section AvailableTeachers.

(** The collation order of [orderBy(users.name)] and the rendering of
    [createdAt.toISOString()]. *)
Variable name_le : string -> string -> bool.
Variable toISOString : Z -> string.

Definition getAvailableTeachers : M (list UserDetails) :=
  allTeachers <-
    (fun db =>
       (Ok (sort_by (fun a b => name_le (user_name a) (user_name b))
              (filter (fun u => role_eqb (user_role u) RoleTeacher) (users db))),
        db)) ;;
  teachersWithSectionCount <-
    mapM (fun teacher =>
            teacherClasses <- select_classes (taught_by (user_id teacher)) ;;
            ret (teacher, Z.of_nat (length teacherClasses)))
         allTeachers ;;
  let availableTeachers :=
    filter (fun t => snd t <? 5) teachersWithSectionCount in
  ret (map (fun t =>
              mkUserDetails (user_id (fst t)) (user_name (fst t))
                (user_email (fst t)) (user_role (fst t))
                (toISOString (user_createdAt (fst t))) (snd t))
           availableTeachers).

End AvailableTeachers.

(** ** Joins and GROUP BY *)

(** [from(a).leftJoin(b, on)]: one row per match, and one row with no
    partner when nothing matches. *)
Definition partners {B} (on : B -> bool) (r : list B) : list (option B) :=
  match filter on r with
  | [] => [None]
  | matches => map Some matches
  end.

Definition left_join_on {A B} (on : A -> B -> bool) (l : list A) (r : list B)
  : list (A * option B) :=
  flat_map (fun a => map (fun b => (a, b)) (partners (on a) r)) l.

Section GroupBy.

Context {R K : Type}.
Variable key : R -> K.
Variable key_eqb : K -> K -> bool.

(** The first row of every group, in the order the groups first appear. *)
Fixpoint distinct_by (rows : list R) : list R :=
  match rows with
  | [] => []
  | r :: rows' =>
      r :: filter (fun r' => negb (key_eqb (key r') (key r))) (distinct_by rows')
  end.

(** [groupBy(key)] with one aggregate [count(column)]: each group's first
    row and the number of its rows where the column is not null. *)
Definition group_count (counted : R -> bool) (rows : list R) : list (R * Z) :=
  map (fun r =>
         (r, Z.of_nat (length (filter (fun r' => key_eqb (key r') (key r) && counted r')
                                 rows))))
      (distinct_by rows).

End GroupBy.

Definition is_some {A} (o : option A) : bool :=
  match o with
  | Some _ => true
  | None => false
  end.

(** Equality of grouping columns; two NULLs fall into the same group. *)
Definition opt_eqb {A} (eqb : A -> A -> bool) (a b : option A) : bool :=
  match a, b with
  | Some x, Some y => eqb x y
  | None, None => true
  | _, _ => false
  end.

Definition class_eqb (a b : Class) : bool :=
  (class_id a =? class_id b)
  && String.eqb (class_name a) (class_name b)
  && String.eqb (class_section a) (class_section b)
  && opt_eqb Z.eqb (class_teacherId a) (class_teacherId b)
  && (class_createdAt a =? class_createdAt b)
  && (class_updatedAt a =? class_updatedAt b).

(** [orderBy(asc(classes.name), asc(classes.section))] under the store's
    collation order [str_le]. *)
Definition by_name_section (str_le : string -> string -> bool) (a b : Class) : bool :=
  if str_le (class_name a) (class_name b)
  then if str_le (class_name b) (class_name a)
       then str_le (class_section a) (class_section b)
       else true
  else false.

(** ** ClassService.getClasses *)

Record TeacherInfo := mkTeacherInfo {
  teacher_id : Z;
  teacher_name : string;
  teacher_email : string
}.

Record ClassWithStudentCount := mkClassWithStudentCount {
  cwc_class : Class;
  cwc_studentCount : Z;
  cwc_teacher : option TeacherInfo
}.

(** [eq(classes.id, students.classId)] and
    [eq(classes.teacherId, users.id)] *)
Definition class_has_student (c : Class) (s : Student) : bool :=
  sql_where (sql_eq (Some (class_id c)) (student_classId s)).

Definition class_has_teacher (c : Class) (u : User) : bool :=
  sql_where (sql_eq (class_teacherId c) (Some (user_id u))).

Definition teacher_columns (u : User) : TeacherInfo :=
  mkTeacherInfo (user_id u) (user_name u) (user_email u).

Definition teacher_info_eqb (a b : TeacherInfo) : bool :=
  (teacher_id a =? teacher_id b)
  && String.eqb (teacher_name a) (teacher_name b)
  && String.eqb (teacher_email a) (teacher_email b).

(** The grouping columns of [getClasses]: every class column, and the id,
    name and email of the joined user. *)
Definition getClasses_key (r : Class * option Student * option User)
  : Class * option TeacherInfo :=
  (fst (fst r), option_map teacher_columns (snd r)).

Definition getClasses_key_eqb (a b : Class * option TeacherInfo) : bool :=
  class_eqb (fst a) (fst b) && opt_eqb teacher_info_eqb (snd a) (snd b).

Definition getClasses (str_le : string -> string -> bool) (teacherId : option Z)
  : M (list ClassWithStudentCount) :=
  classList <-
    (fun db =>
       let joined :=
         left_join_on (fun cs u => class_has_teacher (fst cs) u)
           (left_join_on class_has_student (classes db) (students db))
           (users db) in
       let filtered :=
         filter (fun r =>
                   match teacherId with
                   | Some t => if truthy t then taught_by t (fst (fst r)) else true
                   | None => true
                   end)
                joined in
       let grouped :=
         group_count getClasses_key getClasses_key_eqb
           (fun r => is_some (snd (fst r))) filtered in
       (Ok (sort_by (fun a b => by_name_section str_le
                                  (fst (fst (fst a))) (fst (fst (fst b))))
              grouped),
        db)) ;;
  ret (map (fun cls =>
              mkClassWithStudentCount
                (fst (fst (fst cls)))
                (snd cls)
                (match snd (fst cls) with
                 | Some u =>
                     if truthy (user_id u) then Some (teacher_columns u) else None
                 | None => None
                 end))
           classList).

(** ** StudentService.getStudentClasses *)

Record StudentClassRow := mkStudentClassRow {
  scr_class : Class;
  scr_studentCount : Z;
  scr_teacher : option TeacherInfo
}.

(** The method returns its rows or throws the message User not found. *)
Inductive StudentClassesRes :=
| StudentClasses (rows : list StudentClassRow)
| ThrowUserNotFound.

(** [eq(students.classId, classes.id)] with the class row on the left. *)
Definition student_of_class (c : Class) (s : Student) : bool :=
  sql_where (sql_eq (student_classId s) (Some (class_id c))).

(** The grouping columns [classes.id, users.id]. *)
Definition getStudentClasses_key (r : Class * option User * option Student)
  : Z * option Z :=
  (class_id (fst (fst r)), option_map user_id (snd (fst r))).

Definition getStudentClasses_key_eqb (a b : Z * option Z) : bool :=
  (fst a =? fst b) && opt_eqb Z.eqb (snd a) (snd b).

Definition getStudentClasses (userId : Z) (db : Db) : StudentClassesRes * Db :=
  match first_row (filter (fun u => user_id u =? userId) (users db)) with
  | None => (ThrowUserNotFound, db)
  | Some user =>
      match first_row
              (sort_by (fun a b => student_id b <=? student_id a)
                 (filter (fun s => String.eqb (student_name s) (user_name user))
                    (students db))) with
      | None => (StudentClasses [], db)
      | Some studentRecord =>
          if negb (truthy_opt (student_classId studentRecord))
          then (StudentClasses [], db)
          else
            let joined :=
              left_join_on (fun cu s => student_of_class (fst cu) s)
                (left_join_on class_has_teacher (classes db) (users db))
                (students db) in
            let filtered :=
              filter (fun r =>
                        sql_where (sql_eq (Some (class_id (fst (fst r))))
                                          (student_classId studentRecord)))
                     joined in
            let grouped :=
              group_count getStudentClasses_key getStudentClasses_key_eqb
                (fun r => is_some (snd r)) filtered in
            (StudentClasses
               (map (fun g =>
                       mkStudentClassRow (fst (fst (fst g))) (snd g)
                         (option_map teacher_columns (snd (fst (fst g)))))
                    grouped),
             db)
      end
  end.

(** ** AdminService.getTeachersWithDetails *)

Record StudentBrief := mkStudentBrief {
  brief_id : Z;
  brief_name : string;
  brief_age : Z
}.

Record ClassDetails := mkClassDetails {
  cd_id : Z;
  cd_name : string;
  cd_section : string;
  cd_studentCount : Z;
  cd_students : list StudentBrief
}.

Record TeacherDetails := mkTeacherDetails {
  td_id : Z;
  td_name : string;
  td_email : string;
  td_role : Role;
  td_createdAt : string;
  td_sectionCount : Z;
  td_maxSections : Z;
  td_classes : list ClassDetails
}.

Definition getTeachersWithDetails (toISOString : Z -> string)
  : M (list TeacherDetails) :=
  teachers <- select_users (fun u => role_eqb (user_role u) RoleTeacher) ;;
  mapM (fun teacher =>
          teacherClasses <- select_classes (taught_by (user_id teacher)) ;;
          classesWithStudents <-
            mapM (fun classItem =>
                    classStudents <- select_students (in_class (class_id classItem)) ;;
                    ret (mkClassDetails (class_id classItem) (class_name classItem)
                           (class_section classItem)
                           (Z.of_nat (length classStudents))
                           (map (fun s => mkStudentBrief (student_id s)
                                            (student_name s) (student_age s))
                                classStudents)))
                 teacherClasses ;;
          ret (mkTeacherDetails (user_id teacher) (user_name teacher)
                 (user_email teacher) (user_role teacher)
                 (toISOString (user_createdAt teacher))
                 (Z.of_nat (length teacherClasses)) 5 classesWithStudents))
       teachers.

(** ** TeacherService (services/teacher.service.ts) *)

Module TeacherService.

Record TeacherDashboardStats := mkTeacherDashboardStats {
  totalClasses : Z;
  totalStudents : Z;
  pendingTasks : Z;
  completedThisWeek : Z
}.

(** [from(students).innerJoin(classes, eq(students.classId, classes.id))] *)
Definition inner_join (ss : list Student) (cs : list Class)
  : list (Student * Class) :=
  flat_map (fun s => map (fun c => (s, c)) (filter (join_on s) cs)) ss.

Definition getDashboardStats (teacherId : Z) : M TeacherDashboardStats :=
  totalClasses <- count_classes (taught_by teacherId) ;;
  totalStudents <-
    (fun db =>
       (Ok (Z.of_nat
              (length (filter (fun r => taught_by teacherId (snd r))
                         (inner_join (students db) (classes db))))),
        db)) ;;
  ret (mkTeacherDashboardStats totalClasses totalStudents 0 0).

Record TeacherClass := mkTeacherClass {
  tc_id : Z;
  tc_name : string;
  tc_section : string;
  tc_createdAt : Z;
  tc_updatedAt : Z;
  tc_studentCount : Z
}.

(** The grouping columns of [getTeacherClasses]. *)
Definition class_columns (c : Class) : Z * string * string * Z * Z :=
  (class_id c, class_name c, class_section c, class_createdAt c, class_updatedAt c).

Definition class_columns_eqb (a b : Z * string * string * Z * Z) : bool :=
  match a, b with
  | (i, n, s, c, u), (i', n', s', c', u') =>
      (i =? i') && String.eqb n n' && String.eqb s s' && (c =? c') && (u =? u')
  end.

Definition getTeacherClasses (str_le : string -> string -> bool) (teacherId : Z)
  : M (list TeacherClass) :=
  fun db =>
    let joined := left_join_on class_has_student (classes db) (students db) in
    let filtered := filter (fun r => taught_by teacherId (fst r)) joined in
    let grouped :=
      group_count (fun r => class_columns (fst r)) class_columns_eqb
        (fun r => is_some (snd r)) filtered in
    (Ok (map (fun g =>
                mkTeacherClass (class_id (fst (fst g))) (class_name (fst (fst g)))
                  (class_section (fst (fst g))) (class_createdAt (fst (fst g)))
                  (class_updatedAt (fst (fst g))) (snd g))
           (sort_by (fun a b => by_name_section str_le (fst (fst a)) (fst (fst b)))
              grouped)),
     db).

End TeacherService.

(** * Well-formed databases and the write operations *)

(** The database after the updates and deletes not named so far. *)
Definition with_class_fields (id : Z) (name section : option string) (now : Z)
    (db : Db) : Db :=
  mkDb (users db)
       (map (fun c => if class_id c =? id
                      then set_class_fields name section now c else c)
            (classes db))
       (students db) (classes_seq db) (students_seq db).

Definition without_class (id : Z) (db : Db) : Db := snd (delete_class id db).

Definition without_student (id : Z) (db : Db) : Db := snd (delete_student id db).

Definition users_pk (db : Db) : Prop := NoDup (map user_id (users db)).

(** Every id in use is below its [serial] counter. *)
Definition students_fresh (db : Db) : Prop :=
  forall s, In s (students db) -> student_id s < students_seq db.

Definition classes_fresh (db : Db) : Prop :=
  forall c, In c (classes db) -> class_id c < classes_seq db.

Record wf_db (db : Db) : Prop := mk_wf_db {
  wf_students_pk : students_pk db;
  wf_classes_pk : classes_pk db;
  wf_students_fresh : students_fresh db;
  wf_classes_fresh : classes_fresh db;
  wf_students_fk : students_fk db;
  wf_capacity : capacity_ok db
}.

(** No teacher id is carried by more than five classes. *)
Definition teacher_limit_ok (db : Db) : Prop :=
  forall t, sections_of t db <= 5.

(** The write operations of the three services. *)
Inductive ServiceOp :=
| CallCreateClass (now : Z) (name section : string) (teacherId : option Z)
| CallUpdateClass (now id : Z) (name section : option string)
| CallDeleteClass (id : Z)
| CallEnrollStudent (now classId studentId : Z)
| CallRemoveStudentFromClass (now studentId : Z)
| CallAssignTeacherToClass (now classId teacherId : Z)
| CallRemoveTeacherFromClass (now classId : Z)
| CallCreateStudent (now : Z) (name : string) (age : Z) (classId : option Z)
| CallUpdateStudent (now id : Z) (name : option string) (age : option Z)
                    (classId : option (option Z))
| CallDeleteStudent (id : Z).

(** The database a call leaves behind, whether it returned or threw. *)
Definition apply_op (op : ServiceOp) (db : Db) : Db :=
  match op with
  | CallCreateClass now name section teacherId =>
      snd (createClass now name section teacherId db)
  | CallUpdateClass now id name section => snd (updateClass now id name section db)
  | CallDeleteClass id => snd (deleteClass id db)
  | CallEnrollStudent now classId studentId =>
      snd (enrollStudent now classId studentId db)
  | CallRemoveStudentFromClass now studentId =>
      snd (removeStudentFromClass now studentId db)
  | CallAssignTeacherToClass now classId teacherId =>
      snd (assignTeacherToClass now classId teacherId db)
  | CallRemoveTeacherFromClass now classId =>
      snd (removeTeacherFromClass now classId db)
  | CallCreateStudent now name age classId =>
      snd (createStudent now name age classId db)
  | CallUpdateStudent now id name age classId =>
      snd (updateStudent now id name age classId db)
  | CallDeleteStudent id => snd (deleteStudent id db)
  end.

Definition apply_ops (ops : list ServiceOp) (db : Db) : Db :=
  fold_left (fun d op => apply_op op d) ops db.

(** The one call that sets a teacher without counting the teacher's
    classes. *)
Definition creates_class_with_teacher (op : ServiceOp) : bool :=
  match op with
  | CallCreateClass _ _ _ teacherId => truthy_opt teacherId
  | _ => false
  end.

(** Whether a call throws. *)
Definition threw {A} (r : Res A) : bool :=
  match r with
  | Ok _ => false
  | Throw _ => true
  end.

Definition call_throws (op : ServiceOp) (db : Db) : bool :=
  match op with
  | CallCreateClass now name section teacherId =>
      threw (fst (createClass now name section teacherId db))
  | CallUpdateClass now id name section =>
      threw (fst (updateClass now id name section db))
  | CallDeleteClass id =>
      match fst (deleteClass id db) with Deleted => false | DeleteThrow _ => true end
  | CallEnrollStudent now classId studentId =>
      threw (fst (enrollStudent now classId studentId db))
  | CallRemoveStudentFromClass now studentId =>
      threw (fst (removeStudentFromClass now studentId db))
  | CallAssignTeacherToClass now classId teacherId =>
      threw (fst (assignTeacherToClass now classId teacherId db))
  | CallRemoveTeacherFromClass now classId =>
      threw (fst (removeTeacherFromClass now classId db))
  | CallCreateStudent now name age classId =>
      threw (fst (createStudent now name age classId db))
  | CallUpdateStudent now id name age classId =>
      threw (fst (updateStudent now id name age classId db))
  | CallDeleteStudent id =>
      match fst (deleteStudent id db) with Deleted => false | DeleteThrow _ => true end
  end.

(** Calls on the teachers of [sample_db]: the last one is refused, teacher
    7 being back at five classes. *)
Definition sample_teacher_calls : list ServiceOp :=
  [ CallRemoveTeacherFromClass 20 5;
    CallAssignTeacherToClass 21 6 7;
    CallAssignTeacherToClass 22 5 7;
    CallCreateClass 23 "Biology" "A" None ].

(** [sample_db] with two student accounts: user 9 is called Gus like the
    students 7 and 8, user 10 is called Ava like student 1. *)
Definition accounts_db : Db :=
  mkDb (sample_users
          ++ [ mkUser 9 "Gus" "gus@school.test" "hash" RoleStudent 0 0;
               mkUser 10 "Ava" "ava@school.test" "hash" RoleStudent 0 0 ])
       sample_classes
       (sample_students ++ [ mkStudent 8 "Gus" 18 None 0 0 ])
       7 9.

(** A history of calls from the empty database. *)
Definition sample_history : list ServiceOp :=
  [ CallCreateClass 1 "Mathematics" "A" None;
    CallCreateClass 2 "Physics" "A" None;
    CallCreateStudent 3 "Ava" 12 (Some 1);
    CallCreateStudent 4 "Ben" 13 (Some 1);
    CallCreateStudent 5 "Cleo" 12 None;
    CallEnrollStudent 6 2 3;
    CallUpdateStudent 7 1 None (Some 13) (Some (Some 2));
    CallDeleteClass 1;
    CallRemoveStudentFromClass 8 2;
    CallDeleteClass 1;
    CallDeleteStudent 3 ].

(** ** Proof tools *)

Ltac unfold_m :=
  unfold throw_if in *;
  unfold bind, ret, throw, select_users, select_classes,
    select_students, select_students_with_class, count_students,
    count_classes, count_users, update_classes, update_students,
    insert_class, insert_student in *.

(** Case analysis on the innermost [match] or [if] of a hypothesis. *)
Ltac break_inner H :=
  match type of H with
  | context [match ?x with _ => _ end] =>
      lazymatch x with
      | context [match _ with _ => _ end] => fail
      | _ => destruct x eqn:?
      end
  end.

Ltac break_goal :=
  match goal with
  | |- context [match ?x with _ => _ end] =>
      lazymatch x with
      | context [match _ with _ => _ end] => fail
      | _ => destruct x eqn:?
      end
  end.

Ltac inv H := inversion H; subst; clear H.

Lemma first_row_filter {A} (f : A -> bool) (l : list A) :
  first_row (filter f l) = find f l.
Proof.
  unfold first_row. induction l as [|x l IH]; cbn; [reflexivity|].
  destruct (f x); cbn; [reflexivity|exact IH].
Qed.

Lemma hd_error_filter {A} (f : A -> bool) (l : list A) :
  hd_error (filter f l) = find f l.
Proof.
  induction l as [|x l IH]; cbn; [reflexivity|].
  destruct (f x); cbn; [reflexivity|exact IH].
Qed.

Lemma hd_error_map {A B} (g : A -> B) (l : list A) :
  hd_error (map g l) = option_map g (hd_error l).
Proof. destruct l; reflexivity. Qed.

Lemma getClassById_eq id db :
  getClassById id db =
  match find_class id db with
  | Some c => (Ok c, db)
  | None => (Throw ClassNotFound, db)
  end.
Proof.
  unfold getClassById, find_class. unfold_m.
  rewrite first_row_filter. destruct (find _ _); reflexivity.
Qed.

(** *** Counting rows under an update by primary key *)

Section CountUpdate.

Variables (sid : Z) (set : Student -> Student).
Hypothesis set_id : forall s, student_id (set s) = student_id s.

Local Abbreviation upd := (map (fun s => if student_id s =? sid then set s else s)).

Lemma upd_ids l : map student_id (upd l) = map student_id l.
Proof.
  induction l as [|x l IH]; cbn; [reflexivity|].
  rewrite IH. destruct (student_id x =? sid); [rewrite set_id|]; reflexivity.
Qed.

Lemma upd_absent l : ~ In sid (map student_id l) -> upd l = l.
Proof.
  induction l as [|x l IH]; cbn; intros H; [reflexivity|].
  destruct (Z.eqb_spec (student_id x) sid) as [E|E].
  - exfalso. apply H. left. exact E.
  - rewrite IH; [reflexivity|]. intros HI. apply H. right. exact HI.
Qed.

(** A row filter that rejects every updated row loses rows at most. *)
Lemma count_upd_out (f : Student -> bool) l :
  (forall s, f (set s) = false) ->
  (length (filter f (upd l)) <= length (filter f l))%nat.
Proof.
  intros Hf. induction l as [|x l IH]; cbn; [lia|].
  destruct (student_id x =? sid).
  - rewrite Hf. destruct (f x); cbn; lia.
  - destruct (f x); cbn; lia.
Qed.

(** With unique ids at most one row is rewritten, so any filter gains
    one row at most. *)
Lemma count_upd_in (f : Student -> bool) l :
  NoDup (map student_id l) ->
  (length (filter f (upd l)) <= S (length (filter f l)))%nat.
Proof.
  induction l as [|x l IH]; cbn; intros Hnd; [lia|].
  inversion Hnd as [|? ? Hnotin Hnd']; subst.
  destruct (Z.eqb_spec (student_id x) sid) as [E|E].
  - rewrite upd_absent by (rewrite <- E; exact Hnotin).
    destruct (f (set x)), (f x); cbn; lia.
  - specialize (IH Hnd'). destruct (f x); cbn; lia.
Qed.

End CountUpdate.

(** ** The four manager operations, case by case *)

Lemma enrollStudent_cases now classId studentId db r db' :
  enrollStudent now classId studentId db = (r, db') ->
  (db' = db /\ exists e, r = Throw e)
  \/ (r = Ok tt
      /\ find_class classId db <> None
      /\ enrolled_count classId db < 5
      /\ db' = with_student_class studentId (Some classId) now db).
Proof.
  unfold enrollStudent. unfold bind at 1. rewrite getClassById_eq.
  destruct (find_class classId db) as [cl|] eqn:Hc.
  2:{ intros H0; inv H0. left. eauto. }
  unfold_m. rewrite first_row_filter.
  destruct (find _ (students db)) as [st|] eqn:Hs.
  2:{ intros H0; inv H0. left. eauto. }
  destruct (strict_eq _ _).
  { intros H0; inv H0. left. eauto. }
  fold (enrolled_count classId db).
  destruct (Z.leb_spec 5 (enrolled_count classId db)) as [Hfull|Hroom].
  { intros H0; inv H0. left. eauto. }
  rewrite hd_error_map, hd_error_filter, Hs. cbn.
  intros H0; inv H0. right. repeat split; [congruence|assumption].
Qed.

Lemma removeStudentFromClass_cases now studentId db r db' :
  removeStudentFromClass now studentId db = (r, db') ->
  (db' = db /\ exists e, r = Throw e)
  \/ (r = Ok tt /\ db' = with_student_class studentId None now db).
Proof.
  unfold removeStudentFromClass. unfold_m. rewrite first_row_filter.
  destruct (find _ (students db)) as [st|] eqn:Hs.
  2:{ intros H0; inv H0. left. eauto. }
  destruct (truthy_opt _); cbn.
  2:{ intros H0; inv H0. left. eauto. }
  rewrite hd_error_map, hd_error_filter, Hs. cbn.
  intros H0; inv H0. right. split; reflexivity.
Qed.

Lemma assignTeacherToClass_cases now classId teacherId db r db' :
  assignTeacherToClass now classId teacherId db = (r, db') ->
  (db' = db /\ exists e, r = Throw e)
  \/ (sections_of teacherId db < 5
      /\ db' = with_class_teacher classId (Some teacherId) now db).
Proof.
  unfold assignTeacherToClass. unfold bind at 1. rewrite getClassById_eq.
  unfold find_class.
  destruct (find _ (classes db)) as [cl|] eqn:Hc.
  2:{ intros H0; inv H0. left. eauto. }
  unfold_m. rewrite first_row_filter.
  destruct (find _ (users db)) as [t|]; cbn.
  2:{ intros H0; inv H0. left. eauto. }
  fold (sections_of teacherId db).
  destruct (Z.leb_spec 5 (sections_of teacherId db)) as [Hfull|Hroom].
  { intros H0; inv H0. left. eauto. }
  rewrite hd_error_map, hd_error_filter, Hc. cbn.
  intros H0; inv H0. right. split; [assumption|reflexivity].
Qed.

Lemma removeTeacherFromClass_cases now classId db r db' :
  removeTeacherFromClass now classId db = (r, db') ->
  (db' = db /\ exists e, r = Throw e)
  \/ db' = with_class_teacher classId None now db.
Proof.
  unfold removeTeacherFromClass. unfold bind at 1. rewrite getClassById_eq.
  unfold find_class.
  destruct (find _ (classes db)) as [cl|] eqn:Hc.
  2:{ intros H0; inv H0. left. eauto. }
  unfold_m. rewrite hd_error_map, hd_error_filter, Hc. cbn.
  intros H0; inv H0. right. reflexivity.
Qed.

(** ** Invariants of the manager operations *)

Lemma set_student_class_id cid now s :
  student_id (set_student_class cid now s) = student_id s.
Proof. reflexivity. Qed.

Lemma in_class_set c cid now s :
  in_class c (set_student_class cid now s) = strict_eq cid (Some c).
Proof.
  unfold in_class. destruct cid as [z|]; cbn; [|reflexivity].
  destruct (z =? c); reflexivity.
Qed.

Lemma with_student_class_pk sid cid now db :
  students_pk db -> students_pk (with_student_class sid cid now db).
Proof.
  unfold students_pk, with_student_class. cbn.
  rewrite upd_ids by apply set_student_class_id. trivial.
Qed.

(** Moving one student: the target gains one seat at most, every other
    class gains none. *)
Lemma with_student_class_count sid cid now db c :
  students_pk db ->
  enrolled_count c (with_student_class sid cid now db)
  <= enrolled_count c db + (if strict_eq cid (Some c) then 1 else 0).
Proof.
  intros Hpk. unfold enrolled_count, with_student_class. cbn.
  destruct (strict_eq cid (Some c)) eqn:E.
  - pose proof (count_upd_in sid (set_student_class cid now) (in_class c)
                  (students db) Hpk). lia.
  - pose proof (count_upd_out sid (set_student_class cid now) (in_class c)
                  (students db)) as H.
    specialize (H (fun s => eq_trans (in_class_set c cid now s) E)). lia.
Qed.

Lemma with_class_teacher_ids classId t now db c :
  In c (classes (with_class_teacher classId t now db)) ->
  exists c0, In c0 (classes db) /\ class_id c0 = class_id c.
Proof.
  unfold with_class_teacher. cbn. rewrite in_map_iff.
  intros [c0 [E Hin]]. exists c0. split; [exact Hin|].
  destruct (class_id c0 =? classId); subst; reflexivity.
Qed.

Lemma run_op_invariant op db r db' :
  students_pk db -> capacity_ok db ->
  run_op op db = (r, db') ->
  students_pk db' /\ capacity_ok db'.
Proof.
  intros Hpk Hcap.
  destruct op as [now c s|now s|now c t|now c]; cbn [run_op].
  - intros H. apply enrollStudent_cases in H.
    destruct H as [[-> _]|(_ & Hex & Hroom & ->)]; [auto|].
    split; [apply with_student_class_pk; exact Hpk|].
    intros cl Hin.
    pose proof (with_student_class_count s (Some c) now db (class_id cl) Hpk) as Hc.
    specialize (Hcap cl Hin). cbn [strict_eq] in Hc.
    destruct (Z.eqb_spec c (class_id cl)) as [E|E]; [rewrite <- E in *|]; lia.
  - intros H. apply removeStudentFromClass_cases in H.
    destruct H as [[-> _]|(_ & ->)]; [auto|].
    split; [apply with_student_class_pk; exact Hpk|].
    intros cl Hin.
    pose proof (with_student_class_count s None now db (class_id cl) Hpk) as Hc.
    specialize (Hcap cl Hin). cbn [strict_eq] in Hc. lia.
  - unfold bind.
    destruct (assignTeacherToClass now c t db) as [r0 db0] eqn:H.
    apply assignTeacherToClass_cases in H.
    intros H0. assert (db' = db0) by (destruct r0; inv H0; reflexivity). subst db0.
    destruct H as [[-> _]|(_ & ->)]; [auto|].
    split; [exact Hpk|]. intros cl Hin.
    apply with_class_teacher_ids in Hin. destruct Hin as [c0 [Hin <-]].
    exact (Hcap c0 Hin).
  - unfold bind.
    destruct (removeTeacherFromClass now c db) as [r0 db0] eqn:H.
    apply removeTeacherFromClass_cases in H.
    intros H0. assert (db' = db0) by (destruct r0; inv H0; reflexivity). subst db0.
    destruct H as [[-> _]| ->]; [auto|].
    split; [exact Hpk|]. intros cl Hin.
    apply with_class_teacher_ids in Hin. destruct Hin as [c0 [Hin <-]].
    exact (Hcap c0 Hin).
Qed.

Lemma run_ops_invariant ops : forall db r db',
  students_pk db -> capacity_ok db ->
  run_ops ops db = (r, db') ->
  students_pk db' /\ capacity_ok db'.
Proof.
  induction ops as [|op rest IH]; intros db r db' Hpk Hcap; cbn [run_ops].
  - intros H. inv H. auto.
  - unfold bind. destruct (run_op op db) as [r0 db0] eqn:Hop.
    destruct (run_op_invariant _ _ _ _ Hpk Hcap Hop) as [Hpk0 Hcap0].
    destruct r0.
    + apply IH; assumption.
    + intros H. inv H. auto.
Qed.

(** C1: starting from a state with unique student ids in which every class
    has at most five enrolled students, every successful sequence of
    enrollStudent, removeStudentFromClass, assignTeacherToClass and
    removeTeacherFromClass ends in a state where every class still has at
    most five enrolled students. *)
Theorem manager_ops_preserve_capacity ops db db' :
  students_pk db ->
  capacity_ok db ->
  run_ops ops db = (Ok tt, db') ->
  capacity_ok db'.
Proof.
  intros Hpk Hcap Hrun.
  exact (proj2 (run_ops_invariant ops db (Ok tt) db' Hpk Hcap Hrun)).
Qed.

Lemma sample_db_students_pk : students_pk sample_db.
Proof.
  unfold students_pk. cbn.
  repeat (constructor; [cbn; intros H; intuition discriminate|]).
  constructor.
Defined.

Lemma sample_db_capacity_ok : capacity_ok sample_db.
Proof.
  intros c Hin. cbn in Hin.
  repeat (destruct Hin as [<-|Hin]; [vm_compute; discriminate|]).
  contradiction.
Defined.

Lemma manager_ops_preserve_capacity_witness :
  students_pk sample_db /\ capacity_ok sample_db
  /\ fst (run_ops sample_ops sample_db) = Ok tt
  /\ capacity_ok (snd (run_ops sample_ops sample_db)).
Proof.
  split; [exact sample_db_students_pk|].
  split; [exact sample_db_capacity_ok|].
  split; [reflexivity|].
  apply (manager_ops_preserve_capacity sample_ops sample_db).
  - exact sample_db_students_pk.
  - exact sample_db_capacity_ok.
  - reflexivity.
Defined.

(** ** enrollStudent: order of the checks *)

Lemma find_with_student_class k sid cid now db :
  find_student k (with_student_class sid cid now db) =
  option_map (fun s => if student_id s =? sid
                       then set_student_class cid now s else s)
             (find_student k db).
Proof.
  unfold find_student, with_student_class. cbn.
  induction (students db) as [|x l IH]; cbn; [reflexivity|].
  replace (student_id (if student_id x =? sid
                       then set_student_class cid now x else x))
    with (student_id x) by (destruct (student_id x =? sid); reflexivity).
  destruct (student_id x =? k); [reflexivity|exact IH].
Qed.

Lemma find_student_id k db s : find_student k db = Some s -> student_id s = k.
Proof.
  unfold find_student. intros H. apply find_some in H.
  destruct H as [_ H]. apply Z.eqb_eq. exact H.
Qed.

(** [enrollStudent] in direct style. *)
Lemma enrollStudent_eval now classId studentId db :
  enrollStudent now classId studentId db =
  match find_class classId db with
  | None => (Throw ClassNotFound, db)
  | Some cl =>
      match find_student studentId db with
      | None => (Throw StudentNotFound, db)
      | Some st =>
          if strict_eq (student_classId st) (Some classId)
          then (Throw StudentAlreadyEnrolled, db)
          else if 5 <=? enrolled_count classId db
          then (Throw (ClassSectionFull (class_name cl) (class_section cl)), db)
          else (Ok tt, with_student_class studentId (Some classId) now db)
      end
  end.
Proof.
  unfold enrollStudent. unfold bind at 1. rewrite getClassById_eq.
  destruct (find_class classId db) as [cl|] eqn:Hc; [|reflexivity].
  unfold_m. rewrite first_row_filter. fold (find_student studentId db).
  destruct (find_student studentId db) as [st|] eqn:Hs; [|reflexivity].
  destruct (strict_eq _ _); [reflexivity|].
  fold (enrolled_count classId db).
  destruct (5 <=? enrolled_count classId db); [reflexivity|].
  rewrite hd_error_map, hd_error_filter.
  fold (find_student studentId db). rewrite Hs. reflexivity.
Qed.

(** C2: for ids the store can compare with its integer keys, enrollStudent
    fails NotFound when the class or the student is absent; otherwise
    Conflict when the student's class reference already equals classId;
    otherwise CapacityExceeded when the class already has five enrolled
    students; otherwise it succeeds, the student's class reference becomes
    classId and its timestamp the current time, and no other row changes.
    A failure leaves the database as it was. *)
Theorem enrollStudent_precedence now classId studentId db :
  int4 classId ->
  int4 studentId ->
  match find_class classId db, find_student studentId db with
  | Some cl, Some st =>
      if strict_eq (student_classId st) (Some classId) then
        exists e, enrollStudent now classId studentId db = (Throw e, db)
                  /\ kind e = Conflict
      else if 5 <=? enrolled_count classId db then
        exists e, enrollStudent now classId studentId db = (Throw e, db)
                  /\ kind e = CapacityExceeded
      else
        exists db' st',
          enrollStudent now classId studentId db = (Ok tt, db')
          /\ find_student studentId db' = Some st'
          /\ student_classId st' = Some classId
          /\ student_updatedAt st' = now
          /\ student_name st' = student_name st
          /\ student_age st' = student_age st
          /\ student_createdAt st' = student_createdAt st
          /\ (forall k, k <> studentId -> find_student k db' = find_student k db)
          /\ classes db' = classes db
          /\ users db' = users db
  | _, _ =>
      exists e, enrollStudent now classId studentId db = (Throw e, db)
                /\ kind e = NotFound
  end.
Proof.
  intros _ _. rewrite enrollStudent_eval.
  destruct (find_class classId db) as [cl|] eqn:Hc.
  2:{ eexists. split; reflexivity. }
  destruct (find_student studentId db) as [st|] eqn:Hs.
  2:{ eexists. split; reflexivity. }
  destruct (strict_eq _ _).
  { eexists. split; reflexivity. }
  destruct (5 <=? enrolled_count classId db).
  { eexists. split; reflexivity. }
  exists (with_student_class studentId (Some classId) now db).
  exists (set_student_class (Some classId) now st).
  split; [reflexivity|].
  split.
  { rewrite find_with_student_class, Hs. cbn.
    rewrite (find_student_id _ _ _ Hs), Z.eqb_refl. reflexivity. }
  repeat (split; [reflexivity|]).
  split; [|split; reflexivity].
  intros k Hk. rewrite find_with_student_class.
  destruct (find_student k db) as [s|] eqn:Hk'; [|reflexivity].
  cbn. rewrite (find_student_id _ _ _ Hk').
  destruct (Z.eqb_spec k studentId); [contradiction|reflexivity].
Qed.

Lemma enrollStudent_precedence_witness :
  (exists e, enrollStudent 20 99 1 sample_db = (Throw e, sample_db)
             /\ kind e = NotFound)
  /\ (exists e, enrollStudent 20 1 99 sample_db = (Throw e, sample_db)
                /\ kind e = NotFound)
  /\ (exists e, enrollStudent 20 1 1 sample_db = (Throw e, sample_db)
                /\ kind e = Conflict)
  /\ (exists e, enrollStudent 20 1 6 sample_db = (Throw e, sample_db)
                /\ kind e = CapacityExceeded).
Proof.
  assert (H1 : int4 1) by (unfold int4; lia).
  assert (H6 : int4 6) by (unfold int4; lia).
  assert (H99 : int4 99) by (unfold int4; lia).
  split; [exact (enrollStudent_precedence 20 99 1 sample_db H99 H1)|].
  split; [exact (enrollStudent_precedence 20 1 99 sample_db H1 H99)|].
  split; [exact (enrollStudent_precedence 20 1 1 sample_db H1 H1)|].
  exact (enrollStudent_precedence 20 1 6 sample_db H1 H6).
Defined.

Example enrollStudent_full_class :
  enrollStudent 20 1 6 sample_db
  = (Throw (ClassSectionFull "Mathematics" "A"), sample_db).
Proof. reflexivity. Qed.

Example enrollStudent_existence_first :
  fst (enrollStudent 20 99 1 sample_db) = Throw ClassNotFound
  /\ fst (enrollStudent 20 1 99 sample_db) = Throw StudentNotFound
  /\ fst (enrollStudent 20 1 1 sample_db) = Throw StudentAlreadyEnrolled.
Proof. repeat split. Qed.

(** ** Teacher assignment *)

Lemma assignTeacherToClass_eval now classId teacherId db :
  assignTeacherToClass now classId teacherId db =
  match find_class classId db with
  | None => (Throw ClassNotFound, db)
  | Some cl =>
      match find_teacher teacherId db with
      | None => (Throw TeacherNotFoundOrNotTeacher, db)
      | Some _ =>
          if 5 <=? sections_of teacherId db
          then (Throw TeacherSectionLimit, db)
          else (Ok (set_class_teacher (Some teacherId) now cl),
                with_class_teacher classId (Some teacherId) now db)
      end
  end.
Proof.
  unfold assignTeacherToClass. unfold bind at 1. rewrite getClassById_eq.
  destruct (find_class classId db) as [cl|] eqn:Hc; [|reflexivity].
  unfold_m. rewrite first_row_filter. fold (find_teacher teacherId db).
  destruct (find_teacher teacherId db) as [t|]; [|reflexivity].
  fold (sections_of teacherId db).
  destruct (5 <=? sections_of teacherId db); [reflexivity|].
  rewrite hd_error_map, hd_error_filter.
  fold (find_class classId db). rewrite Hc. reflexivity.
Qed.

(** C4, as the code has it: for a teacher who owns exactly five classes,
    assignTeacher fails with CapacityExceeded on every existing class,
    whether that class is already assigned to the teacher or not, and the
    database is left as it was (the teacher still owns five classes). *)
Theorem assignTeacher_at_limit_rejected now classId teacherId db cl t :
  find_class classId db = Some cl ->
  find_teacher teacherId db = Some t ->
  sections_of teacherId db = 5 ->
  assignTeacherToClass now classId teacherId db = (Throw TeacherSectionLimit, db)
  /\ kind TeacherSectionLimit = CapacityExceeded.
Proof.
  intros Hc Ht Hn. split; [|reflexivity].
  rewrite assignTeacherToClass_eval, Hc, Ht, Hn. reflexivity.
Qed.

Lemma assignTeacher_at_limit_rejected_witness :
  find_class 1 sample_db = Some (mkClass 1 "Mathematics" "A" (Some 7) 0 0)
  /\ sections_of 7 sample_db = 5
  /\ assignTeacherToClass 20 1 7 sample_db = (Throw TeacherSectionLimit, sample_db)
  /\ kind TeacherSectionLimit = CapacityExceeded.
Proof.
  split; [reflexivity|]. split; [reflexivity|].
  apply (assignTeacher_at_limit_rejected 20 1 7 sample_db
           (mkClass 1 "Mathematics" "A" (Some 7) 0 0)
           (mkUser 7 "Tara" "tara@school.test" "hash" RoleTeacher 0 0));
    reflexivity.
Defined.

(** The re-assignment of the claim does not succeed: teacher 7 owns exactly
    the five classes 1 to 5, class 1 is already assigned to teacher 7, and
    assigning teacher 7 to class 1 again throws the section-limit error. *)
Lemma assignTeacher_reassign_counterexample :
  sections_of 7 sample_db = 5
  /\ option_map class_teacherId (find_class 1 sample_db) = Some (Some 7)
  /\ find_teacher 7 sample_db <> None
  /\ ~ (exists c db', assignTeacherToClass 20 1 7 sample_db = (Ok c, db')).
Proof.
  split; [reflexivity|]. split; [reflexivity|]. split; [discriminate|].
  intros [c [db' H]]. vm_compute in H. discriminate H.
Qed.

(** Below the limit a re-assignment does succeed and changes no count. *)
Example assignTeacher_reassign_below_limit :
  let db := snd (removeTeacherFromClass 20 5 sample_db) in
  sections_of 7 db = 4
  /\ fst (assignTeacherToClass 21 1 7 db)
     = Ok (mkClass 1 "Mathematics" "A" (Some 7) 0 21)
  /\ sections_of 7 (snd (assignTeacherToClass 21 1 7 db)) = 4.
Proof. repeat split. Qed.

(** ** createClass *)

Lemma createClass_eval now name section teacherId db :
  createClass now name section teacherId db =
  if match find (fun c => String.eqb (class_name c) name) (classes db) with
     | Some existingClass => String.eqb (class_section existingClass) section
     | None => false
     end
  then (Throw (ClassAlreadyExists name section), db)
  else if match teacherId with
          | Some t =>
              truthy t
              && match find_teacher t db with Some _ => false | None => true end
          | None => false
          end
  then (Throw InvalidTeacherId, db)
  else
    let t := if truthy_opt teacherId then teacherId else None in
    (Ok (new_class_row name section t now db),
     with_new_class name section t now db).
Proof.
  unfold createClass. unfold_m. rewrite first_row_filter.
  destruct (find _ (classes db)) as [ex|]; [destruct (String.eqb _ _)|];
    try reflexivity.
  - destruct teacherId as [t|]; [|reflexivity]. cbn [truthy_opt].
    destruct (truthy t); [|reflexivity].
    rewrite first_row_filter.
    change (find (fun u => is_teacher t u) (users db)) with (find_teacher t db).
    destruct (find_teacher t db); reflexivity.
  - destruct teacherId as [t|]; [|reflexivity]. cbn [truthy_opt].
    destruct (truthy t); [|reflexivity].
    rewrite first_row_filter.
    change (find (fun u => is_teacher t u) (users db)) with (find_teacher t db).
    destruct (find_teacher t db); reflexivity.
Qed.

(** C3, the code at the failing input: teacher 7 already owns five classes,
    yet createClass with teacherId 7 succeeds and gives teacher 7 a sixth
    class. *)
Theorem createClass_skips_teacher_limit :
  find_teacher 7 sample_db <> None
  /\ sections_of 7 sample_db = 5
  /\ exists c db',
       createClass 20 "Biology" "A" (Some 7) sample_db = (Ok c, db')
       /\ class_teacherId c = Some 7
       /\ sections_of 7 db' = 6.
Proof.
  split; [discriminate|]. split; [reflexivity|].
  eexists. eexists. split; [reflexivity|]. split; reflexivity.
Qed.

(** The same from a database with one teacher and no class: six
    createClass calls in a row all succeed. *)
Example createClass_six_for_one_teacher :
  let db0 := mkDb [mkUser 7 "Tara" "tara@school.test" "hash" RoleTeacher 0 0]
                  [] [] 1 1 in
  let db1 := snd (createClass 1 "Mathematics" "A" (Some 7) db0) in
  let db2 := snd (createClass 2 "Mathematics" "B" (Some 7) db1) in
  let db3 := snd (createClass 3 "Physics" "A" (Some 7) db2) in
  let db4 := snd (createClass 4 "Physics" "B" (Some 7) db3) in
  let db5 := snd (createClass 5 "Chemistry" "A" (Some 7) db4) in
  sections_of 7 db5 = 5
  /\ fst (createClass 6 "Chemistry" "B" (Some 7) db5)
     = Ok (mkClass 6 "Chemistry" "B" (Some 7) 6 6)
  /\ sections_of 7 (snd (createClass 6 "Chemistry" "B" (Some 7) db5)) = 6.
Proof. repeat split. Qed.

(** A teacherId of 0 is falsy: it is not looked up and the class is created
    without a teacher. *)
Example createClass_zero_teacher_ignored :
  fst (createClass 20 "Biology" "A" (Some 0) sample_db)
  = Ok (mkClass 7 "Biology" "A" None 20 20).
Proof. reflexivity. Qed.

(** The teacher reference itself is checked: with no conflicting class, a
    non-zero teacherId that names no teacher account is rejected. *)
Lemma createClass_invalid_teacher now name section t db :
  createClass now name section (Some t) db <> (Throw (ClassAlreadyExists name section), db) ->
  truthy t = true ->
  find_teacher t db = None ->
  createClass now name section (Some t) db = (Throw InvalidTeacherId, db).
Proof.
  rewrite createClass_eval. intros Hno Ht Hf.
  destruct (match find _ (classes db) with Some _ => _ | None => _ end);
    [contradiction|].
  rewrite Ht, Hf. reflexivity.
Qed.

(** No bound on the teacher's classes is checked: whenever the name check
    and the teacher check pass, the class is inserted. *)
Lemma createClass_with_teacher_succeeds now name section t u db :
  find (fun c => String.eqb (class_name c) name) (classes db) = None ->
  truthy t = true ->
  find_teacher t db = Some u ->
  createClass now name section (Some t) db
  = (Ok (new_class_row name section (Some t) now db),
     with_new_class name section (Some t) now db).
Proof.
  intros Hn Ht Hf. rewrite createClass_eval, Hn. cbn [truthy_opt].
  rewrite Ht, Hf. reflexivity.
Qed.

(** C5, the code at the failing input: starting from the empty database,
    Science/A and Science/B are created, and a second Science/B is then
    accepted, because only the first row named Science (section A) is
    compared. *)
Theorem createClass_accepts_duplicate_pair :
  exists c1 db1 c2 db2 c3 db3,
    createClass 1 "Science" "A" None empty_db = (Ok c1, db1)
    /\ createClass 2 "Science" "B" None db1 = (Ok c2, db2)
    /\ createClass 3 "Science" "B" None db2 = (Ok c3, db3)
    /\ In c2 (classes db3) /\ In c3 (classes db3)
    /\ class_id c2 <> class_id c3
    /\ class_name c2 = class_name c3
    /\ class_section c2 = class_section c3.
Proof.
  do 6 eexists.
  split; [reflexivity|]. split; [reflexivity|]. split; [reflexivity|].
  cbn. repeat split; try discriminate; auto.
Qed.

(** The immediate repetition of the specification's scenario is rejected. *)
Example createClass_immediate_repeat :
  let db1 := snd (createClass 1 "Science" "A" None empty_db) in
  fst (createClass 2 "Science" "A" None db1)
  = Throw (ClassAlreadyExists "Science" "A")
  /\ fst (createClass 2 "Science" "B" None db1)
     = Ok (mkClass 2 "Science" "B" None 2 2).
Proof. split; reflexivity. Qed.

(** updateClass compares the first row of the new name only, too. *)
Example updateClass_accepts_duplicate_pair :
  let db := mkDb [] [ mkClass 1 "Science" "A" None 0 0;
                      mkClass 2 "Science" "B" None 0 0;
                      mkClass 3 "Art" "B" None 0 0 ] [] 4 1 in
  fst (updateClass 5 3 (Some "Science") None db)
  = Ok (mkClass 3 "Science" "B" None 0 5).
Proof. reflexivity. Qed.

(** What createClass does guarantee: a pair is rejected exactly when the
    first class of that name carries that section, and a name that no class
    carries is always accepted. *)
Lemma createClass_conflict_iff now name section db :
  (exists db', createClass now name section None db
               = (Throw (ClassAlreadyExists name section), db'))
  <-> option_map class_section
        (find (fun c => String.eqb (class_name c) name) (classes db))
      = Some section.
Proof.
  rewrite createClass_eval.
  destruct (find _ (classes db)) as [ex|]; cbn.
  - destruct (String.eqb_spec (class_section ex) section) as [E|E].
    + split; [intros _; congruence|intros _; eauto].
    + split; [intros [db' H]; discriminate H|intros H; congruence].
  - split; [intros [db' H]; discriminate H|discriminate].
Qed.

(** ** The student join *)

Lemma join_student_hd cs s :
  hd_error (join_student cs s) = Some (s, find (join_on s) cs).
Proof.
  unfold join_student. rewrite <- hd_error_filter.
  destruct (filter (join_on s) cs); reflexivity.
Qed.

Lemma join_student_filter (w : Student -> bool) cs s :
  filter (fun r => w (fst r)) (join_student cs s)
  = if w s then join_student cs s else [].
Proof.
  assert (Hmap : forall l : list Class,
             filter (fun r => w (fst r)) (map (fun c => (s, Some c)) l)
             = if w s then map (fun c => (s, Some c)) l else []).
  { induction l as [|x l IH]; cbn; [destruct (w s); reflexivity|].
    rewrite IH. destruct (w s); reflexivity. }
  unfold join_student.
  destruct (filter (join_on s) cs) as [|c l]; [|apply Hmap].
  cbn. destruct (w s); reflexivity.
Qed.

(** A WHERE clause on student columns can be applied before the join. *)
Lemma filter_left_join (w : Student -> bool) ss cs :
  filter (fun r => w (fst r)) (left_join ss cs) = left_join (filter w ss) cs.
Proof.
  unfold left_join. induction ss as [|x ss IH]; cbn; [reflexivity|].
  rewrite filter_app, join_student_filter, IH.
  destruct (w x); reflexivity.
Qed.

Lemma first_row_left_join ss cs :
  first_row (left_join ss cs)
  = option_map (fun s => (s, find (join_on s) cs)) (hd_error ss).
Proof.
  unfold first_row, left_join. destruct ss as [|x ss]; cbn; [reflexivity|].
  pose proof (join_student_hd cs x) as H.
  destruct (join_student cs x) as [|r l]; cbn in *; [discriminate|].
  exact H.
Qed.

Lemma getStudentById_eval id db :
  getStudentById id db =
  match find_student id db with
  | Some s => (Ok (student_view db s), db)
  | None => (Throw StudentNotFound, db)
  end.
Proof.
  unfold getStudentById. unfold_m.
  rewrite (filter_left_join (fun s => student_id s =? id)).
  rewrite first_row_left_join, hd_error_filter.
  fold (find_student id db).
  destruct (find_student id db); reflexivity.
Qed.

Lemma find_with_student_fields k id name age classId now db :
  find_student k (with_student_fields id name age classId now db) =
  option_map (fun s => if student_id s =? id
                       then set_student_fields name age classId now s else s)
             (find_student k db).
Proof.
  unfold find_student, with_student_fields. cbn.
  induction (students db) as [|x l IH]; cbn; [reflexivity|].
  replace (student_id (if student_id x =? id
                       then set_student_fields name age classId now x else x))
    with (student_id x) by (destruct (student_id x =? id); reflexivity).
  destruct (student_id x =? k); [reflexivity|exact IH].
Qed.

Lemma find_app_last {A} (f : A -> bool) l x :
  f x = true -> exists y, find f (l ++ [x]) = Some y /\ f y = true.
Proof.
  intros Hx. induction l as [|a l IH]; cbn.
  - rewrite Hx. eauto.
  - destruct (f a) eqn:E; eauto.
Qed.

(** ** createStudent *)

Lemma createStudent_eval now name age classId db :
  createStudent now name age classId db =
  let inserted :=
    getStudentById (students_seq db)
      (with_new_student name age
         (if truthy_opt classId then classId else None) now db) in
  match classId with
  | Some cid =>
      if truthy cid then
        match find_class cid db with
        | None => (Throw SpecifiedClassDoesNotExist, db)
        | Some cl =>
            if 5 <=? enrolled_count cid db
            then (Throw (ClassSectionFull (class_name cl) (class_section cl)), db)
            else inserted
        end
      else inserted
  | None => inserted
  end.
Proof.
  unfold createStudent. destruct classId as [cid|]; [|reflexivity].
  cbn [truthy_opt]. destruct (truthy cid) eqn:Ht; [|reflexivity].
  unfold bind at 1. unfold bind at 1. unfold select_classes at 1.
  rewrite first_row_filter. fold (find_class cid db).
  destruct (find_class cid db) as [cl|]; [|reflexivity].
  unfold bind at 1. unfold count_students at 1.
  fold (enrolled_count cid db). unfold throw_if.
  destruct (5 <=? enrolled_count cid db); reflexivity.
Qed.

(** Once the row is inserted, reading it back cannot fail. *)
Lemma createStudent_inserted_ok name age c now db :
  exists v,
    getStudentById (students_seq db) (with_new_student name age c now db)
    = (Ok v, with_new_student name age c now db).
Proof.
  rewrite getStudentById_eval. unfold find_student, with_new_student. cbn.
  destruct (find_app_last (fun s => student_id s =? students_seq db)
              (students db) (new_student_row name age c now db))
    as [y [Hy _]]; [apply Z.eqb_refl|].
  rewrite Hy. eauto.
Qed.

(** Whatever makes createStudent fail, the database is left as it was. *)
Lemma createStudent_throw_unchanged now name age classId db e db' :
  createStudent now name age classId db = (Throw e, db') -> db' = db.
Proof.
  rewrite createStudent_eval. cbv zeta.
  destruct (createStudent_inserted_ok name age
              (if truthy_opt classId then classId else None) now db) as [v Hv].
  rewrite Hv.
  destruct classId as [cid|]; [|discriminate].
  destruct (truthy cid); [|discriminate].
  destruct (find_class cid db); [|intros H; inv H; reflexivity].
  destruct (5 <=? enrolled_count cid db); [intros H; inv H; reflexivity|discriminate].
Qed.

(** C7: when the class of createStudent does not exist, or already has five
    enrolled students, createStudent fails and the database after the call
    is the database before it: no student row is inserted. *)
Theorem createStudent_failed_check_inserts_nothing now name age cid db :
  truthy cid = true ->
  find_class cid db = None \/ 5 <= enrolled_count cid db ->
  exists e, createStudent now name age (Some cid) db = (Throw e, db).
Proof.
  intros Ht Hfail. rewrite createStudent_eval. cbv zeta. rewrite Ht.
  destruct (find_class cid db) as [cl|] eqn:Hc.
  - destruct Hfail as [Hf|Hf]; [discriminate|].
    apply Z.leb_le in Hf. rewrite Hf. eauto.
  - eauto.
Qed.

Lemma createStudent_failed_check_inserts_nothing_witness :
  (exists e, createStudent 20 "Hana" 12 (Some 1) sample_db = (Throw e, sample_db))
  /\ (exists e, createStudent 20 "Hana" 12 (Some 99) sample_db = (Throw e, sample_db)).
Proof.
  split.
  - apply (createStudent_failed_check_inserts_nothing 20 "Hana" 12 1 sample_db).
    + reflexivity.
    + right. vm_compute. discriminate.
  - apply (createStudent_failed_check_inserts_nothing 20 "Hana" 12 99 sample_db).
    + reflexivity.
    + left. reflexivity.
Defined.

Example createStudent_with_room :
  createStudent 20 "Hana" 12 (Some 2) sample_db
  = (Ok (mkStudentWithClass (mkStudent 8 "Hana" 12 (Some 2) 20 20)
           (Some (mkClassSummary 2 "Mathematics" "B"))),
     with_new_student "Hana" 12 (Some 2) 20 sample_db).
Proof. reflexivity. Qed.

(** ** updateStudent *)

Lemma strict_eq_true a b : strict_eq a b = true <-> a = b.
Proof.
  destruct a as [x|], b as [y|]; cbn; split; try congruence.
  - intros H. apply Z.eqb_eq in H. congruence.
  - intros H. inv H. apply Z.eqb_refl.
Qed.

Lemma updateStudent_eval now id name age classId db :
  updateStudent now id name age classId db =
  match find_student id db with
  | None => (Throw StudentNotFound, db)
  | Some st =>
      let db' := with_student_fields id name age classId now db in
      let done :=
        (Ok (student_view db' (set_student_fields name age classId now st)), db') in
      match classId with
      | Some (Some cid) =>
          match find_class cid db with
          | None => (Throw SpecifiedClassDoesNotExist, db)
          | Some cl =>
              if negb (strict_eq (student_classId st) (Some cid))
                 && (5 <=? enrolled_count cid db)
              then (Throw (ClassSectionFull (class_name cl) (class_section cl)), db)
              else done
          end
      | _ => done
      end
  end.
Proof.
  unfold updateStudent. unfold bind at 1. rewrite getStudentById_eval.
  destruct (find_student id db) as [st|] eqn:Hs; [|reflexivity].
  assert (Hdone :
    (updated <- update_students (set_student_fields name age classId now)
                  (fun s => student_id s =? id) ;;
     throw_if (match hd_error updated with Some _ => false | None => true end)
              FailedToUpdateStudent ;;;
     getStudentById id) db
    = (Ok (student_view (with_student_fields id name age classId now db)
             (set_student_fields name age classId now st)),
       with_student_fields id name age classId now db)).
  { unfold_m. rewrite hd_error_map, hd_error_filter.
    fold (find_student id db). rewrite Hs. cbn [option_map].
    fold (with_student_fields id name age classId now db).
    rewrite getStudentById_eval, find_with_student_fields, Hs. cbn [option_map].
    rewrite (find_student_id _ _ _ Hs), Z.eqb_refl. reflexivity. }
  cbv zeta. unfold bind at 1.
  destruct classId as [[cid|]|]; try (cbn [ret]; exact Hdone).
  unfold bind at 1. unfold select_classes at 1.
  rewrite first_row_filter. fold (find_class cid db).
  destruct (find_class cid db) as [cl|]; [|reflexivity].
  cbn [student_view with_class sw_student fst].
  destruct (strict_eq (student_classId st) (Some cid)); cbn [negb andb].
  - exact Hdone.
  - unfold bind at 1. unfold count_students at 1.
    fold (enrolled_count cid db). unfold throw_if at 1.
    destruct (5 <=? enrolled_count cid db); [reflexivity|exact Hdone].
Qed.

(** C6: for an existing student whose class reference is [target] (an
    existing class, as the foreign key requires), updateStudent with
    classId [target] succeeds whatever the number of students enrolled in
    [target]; when the student's class reference differs from [target], the
    update fails with the class-full error exactly when [target] already
    has five enrolled students. *)
Theorem updateStudent_same_class_no_capacity_check
    now id name age target db st cl :
  find_student id db = Some st ->
  find_class target db = Some cl ->
  (student_classId st = Some target ->
   exists v db',
     updateStudent now id name age (Some (Some target)) db = (Ok v, db')
     /\ find_student id db' = Some (sw_student v)
     /\ student_classId (sw_student v) = Some target)
  /\ (student_classId st <> Some target ->
      (5 <= enrolled_count target db ->
       updateStudent now id name age (Some (Some target)) db
       = (Throw (ClassSectionFull (class_name cl) (class_section cl)), db))
      /\ (enrolled_count target db < 5 ->
          exists v db',
            updateStudent now id name age (Some (Some target)) db = (Ok v, db')
            /\ student_classId (sw_student v) = Some target)).
Proof.
  intros Hs Hc. rewrite updateStudent_eval, Hs, Hc. cbv zeta.
  assert (Hfind :
    find_student id (with_student_fields id name age (Some (Some target)) now db)
    = Some (set_student_fields name age (Some (Some target)) now st)).
  { rewrite find_with_student_fields, Hs. cbn [option_map].
    rewrite (find_student_id _ _ _ Hs), Z.eqb_refl. reflexivity. }
  split.
  - intros Hsame. apply strict_eq_true in Hsame. rewrite Hsame. cbn [negb andb].
    eexists. eexists. split; [reflexivity|]. split; [exact Hfind|reflexivity].
  - intros Hdiff.
    destruct (strict_eq (student_classId st) (Some target)) eqn:E.
    { apply strict_eq_true in E. contradiction. }
    cbn [negb andb]. split.
    + intros Hfull. apply Z.leb_le in Hfull. rewrite Hfull. reflexivity.
    + intros Hroom. apply Z.leb_gt in Hroom. rewrite Hroom.
      eexists. eexists. split; reflexivity.
Qed.

Lemma updateStudent_same_class_no_capacity_check_witness :
  enrolled_count 1 sample_db = 5
  /\ exists v db',
       updateStudent 20 1 None None (Some (Some 1)) sample_db = (Ok v, db')
       /\ find_student 1 db' = Some (sw_student v)
       /\ student_classId (sw_student v) = Some 1.
Proof.
  split; [reflexivity|].
  apply (updateStudent_same_class_no_capacity_check 20 1 None None 1 sample_db
           (mkStudent 1 "Ava" 12 (Some 1) 0 0)
           (mkClass 1 "Mathematics" "A" (Some 7) 0 0));
    reflexivity.
Defined.

Example updateStudent_move_into_full_class :
  updateStudent 20 7 None None (Some (Some 1)) sample_db
  = (Throw (ClassSectionFull "Mathematics" "A"), sample_db).
Proof. reflexivity. Qed.

Lemma removeStudentFromClass_eval now studentId db :
  removeStudentFromClass now studentId db =
  match find_student studentId db with
  | None => (Throw StudentNotFound, db)
  | Some st =>
      if truthy_opt (student_classId st)
      then (Ok tt, with_student_class studentId None now db)
      else (Throw StudentNotEnrolled, db)
  end.
Proof.
  unfold removeStudentFromClass. unfold_m. rewrite first_row_filter.
  fold (find_student studentId db).
  destruct (find_student studentId db) as [st|] eqn:Hs; [|reflexivity].
  destruct (truthy_opt _); cbn [negb]; [|reflexivity].
  rewrite hd_error_map, hd_error_filter.
  fold (find_student studentId db). rewrite Hs. reflexivity.
Qed.

Lemma find_all_false {A} (f : A -> bool) l :
  (forall x, f x = false) -> find f l = None.
Proof.
  intros Hf. induction l as [|x l IH]; cbn; [reflexivity|].
  rewrite Hf. exact IH.
Qed.

(** C10: for an existing student, updateStudent with classId null succeeds
    and leaves the student with a null class reference, with no check on
    classes, capacity or the current reference; when the reference is
    already null, removeStudentFromClass fails with PreconditionFailed
    while updateStudent still succeeds. *)
Theorem updateStudent_null_class_always_succeeds now id name age db st :
  find_student id db = Some st ->
  (exists v db',
     updateStudent now id name age (Some None) db = (Ok v, db')
     /\ find_student id db' = Some (sw_student v)
     /\ student_classId (sw_student v) = None
     /\ sw_class v = None
     /\ classes db' = classes db)
  /\ (student_classId st = None ->
      exists e, removeStudentFromClass now id db = (Throw e, db)
                /\ kind e = PreconditionFailed).
Proof.
  intros Hs. split.
  - rewrite updateStudent_eval, Hs. cbv zeta.
    eexists. eexists. split; [reflexivity|].
    split.
    { rewrite find_with_student_fields, Hs. cbn [option_map].
      rewrite (find_student_id _ _ _ Hs), Z.eqb_refl. reflexivity. }
    split; [reflexivity|]. split; [|reflexivity].
    unfold student_view, with_class, joined_class. cbn [fst snd].
    rewrite find_all_false; [reflexivity|]. intros c. reflexivity.
  - intros Hnull. rewrite removeStudentFromClass_eval, Hs, Hnull.
    eexists. split; reflexivity.
Qed.

Lemma updateStudent_null_class_always_succeeds_witness :
  (exists v db',
     updateStudent 20 6 None None (Some None) sample_db = (Ok v, db')
     /\ find_student 6 db' = Some (sw_student v)
     /\ student_classId (sw_student v) = None
     /\ sw_class v = None
     /\ classes db' = classes sample_db)
  /\ (student_classId (mkStudent 6 "Finn" 12 None 0 0) = None ->
      exists e, removeStudentFromClass 20 6 sample_db = (Throw e, sample_db)
                /\ kind e = PreconditionFailed).
Proof.
  apply (updateStudent_null_class_always_succeeds 20 6 None None sample_db
           (mkStudent 6 "Finn" 12 None 0 0)).
  reflexivity.
Defined.

(** ** The dashboard's enrollment rate *)

Lemma self_comparison_is_not_null s :
  sql_where (sql_eq (student_classId s) (student_classId s)) = has_class s.
Proof.
  unfold has_class. destruct (student_classId s) as [c|]; cbn; [|reflexivity].
  rewrite Z.eqb_refl. reflexivity.
Qed.

Lemma getDashboardStats_eval db :
  getDashboardStats db =
  let total := Z.of_nat (length (students db)) in
  (Ok (mkDashboardStats
         total
         (Z.of_nat (length (classes db)))
         (Z.of_nat (length (filter (fun u => role_eqb (user_role u) RoleTeacher)
                              (users db))))
         (if 0 <? total
          then round_percent (Z.of_nat (length (filter has_class (students db)))) total
          else 0)),
   db).
Proof.
  unfold getDashboardStats. unfold_m. cbv zeta.
  assert (Hall : forall A (l : list A), filter (fun _ => true) l = l).
  { induction l as [|x l IH]; cbn; [reflexivity|]. rewrite IH. reflexivity. }
  rewrite !Hall.
  rewrite (filter_ext _ _ self_comparison_is_not_null). reflexivity.
Qed.

(** *** Doubles

    What the rate needs of double arithmetic: a count below 2^53 is a
    finite double, and a finite double divided by itself is 1. *)

Lemma digits2_pos_size p : digits2_pos p = Pos.size p.
Proof. induction p; cbn; congruence. Qed.

Lemma digits2_pos_iter_xO d p :
  Zpos (digits2_pos (Pos.iter xO p d)) = Zpos (digits2_pos p) + Zpos d.
Proof.
  induction d as [|d IH] using Pos.peano_ind.
  - cbn. lia.
  - rewrite Pos.iter_succ. cbn [digits2_pos]. lia.
Qed.

Lemma digits2_pos_bound p : Zpos p < 2 ^ 53 -> Zpos (digits2_pos p) <= 53.
Proof.
  intros Hp. rewrite digits2_pos_size.
  pose proof (Pos.size_le p) as Hs.
  destruct (Z_le_gt_dec (Zpos (Pos.size p)) 53) as [H|H]; [exact H|exfalso].
  assert (Hz : 2 ^ Zpos (Pos.size p) <= 2 * Zpos p).
  { rewrite <- Pos2Z.inj_pow. change (2 * Zpos p) with (Zpos p~0).
    apply Pos2Z.pos_le_pos. exact Hs. }
  assert (H54 : 2 ^ 54 <= 2 ^ Zpos (Pos.size p)).
  { apply Z.pow_le_mono_r; lia. }
  change (2 ^ 53) with 9007199254740992 in Hp.
  change (2 ^ 54) with 18014398509481984 in H54. lia.
Qed.

(** A mantissa of 53 digits with an exponent in range is stored as it is. *)
Lemma binary_round_aux_canonical s m e :
  Zpos (digits2_pos m) = 53 -> -1074 <= e <= 971 ->
  binary_round_aux 53 1024 s (Zpos m) e loc_Exact = S754_finite s m e.
Proof.
  intros Hd He.
  assert (Hf : fexp 53 1024 (Zdigits2 (Zpos m) + e) - e = 0).
  { cbn [Zdigits2]. rewrite Hd. unfold fexp, emin. lia. }
  unfold binary_round_aux, shr_fexp. cbn [shr_record_of_loc]. rewrite Hf.
  cbn [shr shr_m loc_of_shr_record round_nearest_even shr_record_of_loc].
  rewrite Hf. cbn [shr shr_m].
  destruct (Z.leb_spec e (1024 - 53)); [reflexivity|lia].
Qed.

Lemma of_count_finite n :
  0 < n < 2 ^ 53 -> exists m e, of_count n = S754_finite false m e.
Proof.
  intros [Hpos Hlt]. destruct n as [|p|p]; try lia.
  unfold of_count, binary_normalize, binary_round.
  pose proof (digits2_pos_bound p Hlt) as Hd.
  assert (Hd1 : 1 <= Zpos (digits2_pos p)) by lia.
  assert (Hf : fexp 53 1024 (Zpos (digits2_pos p) + 0) = Zpos (digits2_pos p) - 53).
  { unfold fexp, emin. lia. }
  rewrite Hf. unfold shl_align.
  destruct (Zpos (digits2_pos p) - 53 - 0) as [|d|d] eqn:Hs; try lia.
  - rewrite binary_round_aux_canonical by lia. eauto.
  - rewrite binary_round_aux_canonical; [eauto| |lia].
    rewrite digits2_pos_iter_xO. lia.
Qed.

(** A finite double divided by itself is 1. *)
Lemma js_div_self m e :
  js_div (S754_finite false m e) (S754_finite false m e) = of_count 1.
Proof.
  unfold js_div, SFdiv, SFdiv_core_binary. cbv zeta.
  replace (Zdigits2 (Zpos m) + e - (Zdigits2 (Zpos m) + e)) with 0 by lia.
  replace (e - e) with 0 by lia.
  change (Z.min (fexp 53 1024 0) 0) with (-53).
  change (0 - -53) with 53.
  rewrite Z.shiftl_mul_pow2 by lia.
  pose proof (Z.div_eucl_eq (Zpos m * 2 ^ 53) (Zpos m) ltac:(lia)) as Heq.
  pose proof (Z.mod_pos_bound (Zpos m * 2 ^ 53) (Zpos m) ltac:(lia)) as Hmod.
  unfold Z.modulo in Hmod.
  destruct (Z.div_eucl (Zpos m * 2 ^ 53) (Zpos m)) as [q r].
  assert (Hq : q = 2 ^ 53 /\ r = 0).
  { cbv beta iota in Heq, Hmod. remember (2 ^ 53) as k.
    assert (HM : 0 < Zpos m) by lia. remember (Zpos m) as M.
    assert (Hk : k - q = 0) by nia. split; nia. }
  destruct Hq as [-> ->].
  unfold new_location, new_location_even, new_location_odd.
  destruct (Z.even (Zpos m)); reflexivity.
Qed.

Lemma round_percent_all n : 0 < n < 2 ^ 53 -> round_percent n n = 100.
Proof.
  intros Hn. unfold round_percent.
  destruct (of_count_finite n Hn) as [m [e ->]].
  rewrite js_div_self. reflexivity.
Qed.

Lemma round_percent_none n : 0 < n < 2 ^ 53 -> round_percent 0 n = 0.
Proof.
  intros Hn. unfold round_percent.
  destruct (of_count_finite n Hn) as [m [e ->]]. reflexivity.
Qed.

(** The double quotient is not the exact one: 23 of 40 is 57.49999999999999
    in doubles and rounds to 57, where the exact 57.5 would round to 58. *)
Example round_percent_23_of_40 :
  round_percent 23 40 = 57
  /\ js_mul (js_div (of_count 23) (of_count 40)) (of_count 100)
     = S754_finite false 8092405580431359 (-47)
  /\ 2 * 8092405580431359 < 115 * 2 ^ 47
  /\ round_percent 1 200 = 1
  /\ round_percent 6 7 = 86.
Proof. repeat split. Qed.

(** C8, as the code has it: the self-comparison is true exactly on the rows
    whose classId is not null, so with at least one student (and fewer than
    2^53, so that the counts are exact as JS numbers) the rate is
    Math.round((enrolled / total) * 100), computed on doubles, of the
    number of students that have a class reference; it is 100 when every
    student has one and 0 when none has. *)
Theorem enrollmentRate_counts_enrolled db :
  students db <> [] ->
  Z.of_nat (length (students db)) < 2 ^ 53 ->
  exists stats,
    getDashboardStats db = (Ok stats, db)
    /\ stats_totalStudents stats = Z.of_nat (length (students db))
    /\ stats_enrollmentRate stats
       = round_percent (Z.of_nat (length (filter has_class (students db))))
                       (Z.of_nat (length (students db)))
    /\ (forallb has_class (students db) = true -> stats_enrollmentRate stats = 100)
    /\ (forallb (fun s => negb (has_class s)) (students db) = true ->
        stats_enrollmentRate stats = 0).
Proof.
  intros Hne Hsafe. rewrite getDashboardStats_eval. cbv zeta.
  assert (Hpos : 0 < Z.of_nat (length (students db))).
  { destruct (students db); [contradiction|cbn [length]; lia]. }
  apply Z.ltb_lt in Hpos. rewrite Hpos. apply Z.ltb_lt in Hpos.
  eexists. split; [reflexivity|]. cbn [stats_totalStudents stats_enrollmentRate].
  split; [reflexivity|]. split; [reflexivity|]. split.
  - intros Hall.
    replace (filter has_class (students db)) with (students db).
    + apply round_percent_all. split; assumption.
    + clear Hne Hpos Hsafe. induction (students db) as [|x l IH]; [reflexivity|].
      cbn in *. apply andb_prop in Hall. destruct Hall as [Hx Hl].
      rewrite Hx. f_equal. exact (IH Hl).
  - intros Hnone.
    replace (filter has_class (students db)) with (@nil Student).
    + apply round_percent_none. split; assumption.
    + clear Hne Hpos Hsafe. induction (students db) as [|x l IH]; [reflexivity|].
      cbn in *. apply andb_prop in Hnone. destruct Hnone as [Hx Hl].
      destruct (has_class x); [discriminate|]. exact (IH Hl).
Qed.

Lemma enrollmentRate_counts_enrolled_witness :
  exists stats,
    getDashboardStats sample_db = (Ok stats, sample_db)
    /\ stats_totalStudents stats = 7
    /\ stats_enrollmentRate stats = 86.
Proof.
  destruct (enrollmentRate_counts_enrolled sample_db) as [stats (H1 & H2 & H3 & _)].
  - discriminate.
  - reflexivity.
  - exists stats. split; [exact H1|]. split; [exact H2|exact H3].
Defined.

(** The rate is not 100 in every state with a student: with one student
    and no class reference the dashboard reports 0. *)
Lemma enrollmentRate_not_always_100 :
  students unenrolled_db <> []
  /\ getDashboardStats unenrolled_db = (Ok (mkDashboardStats 1 0 0 0), unenrolled_db).
Proof. split; [discriminate|reflexivity]. Qed.

(** ** Listing students *)

Lemma ceil_div_bounds a b : 0 < b -> a <= ceil_div a b * b < a + b.
Proof.
  intros Hb. unfold ceil_div.
  pose proof (Z.div_mod (- a) b ltac:(lia)) as Hdm.
  pose proof (Z.mod_pos_bound (- a) b Hb) as Hm.
  nia.
Qed.

Lemma Sorted_skipn {A} (R : A -> A -> Prop) n : forall l,
  Sorted R l -> Sorted R (skipn n l).
Proof.
  induction n as [|n IH]; intros l Hl; [exact Hl|].
  destruct l as [|x l]; [exact Hl|].
  cbn. apply IH. inversion Hl; assumption.
Qed.

Lemma Sorted_firstn {A} (R : A -> A -> Prop) n : forall l,
  Sorted R l -> Sorted R (firstn n l).
Proof.
  induction n as [|n IH]; intros l Hl; [constructor|].
  destruct l as [|x l]; [constructor|].
  cbn. inversion Hl as [|? ? Hs Hh]; subst. constructor.
  - apply IH. exact Hs.
  - destruct n; [constructor|].
    destruct l as [|y l]; [constructor|].
    cbn. constructor. inversion Hh; assumption.
Qed.

Lemma In_page {A} (x : A) n m l : In x (firstn n (skipn m l)) -> In x l.
Proof.
  intros H. rewrite <- (firstn_skipn m l). apply in_or_app. right.
  rewrite <- (firstn_skipn n (skipn m l)). apply in_or_app. left. exact H.
Qed.

Lemma Sorted_map {A B} (R : A -> A -> Prop) (R' : B -> B -> Prop) (f : A -> B) l :
  (forall a b, R a b -> R' (f a) (f b)) ->
  Sorted R l -> Sorted R' (map f l).
Proof.
  intros Hf. induction 1 as [|x l Hs IH Hh]; cbn; constructor.
  - exact IH.
  - destruct Hh; cbn; constructor. apply Hf. assumption.
Qed.

Section Ordering.

Variable name_le : string -> string -> bool.
Hypothesis name_le_total : forall a b, name_le a b = true \/ name_le b a = true.

Lemma insert_row_perm x l : Permutation (insert_row name_le x l) (x :: l).
Proof.
  induction l as [|y l IH]; cbn; [reflexivity|].
  destruct (row_le name_le x y); [reflexivity|].
  rewrite IH. apply perm_swap.
Qed.

Lemma order_by_name_perm l : Permutation (order_by_name name_le l) l.
Proof.
  induction l as [|x l IH]; cbn; [reflexivity|].
  rewrite insert_row_perm. constructor. exact IH.
Qed.

Lemma insert_row_sorted x l :
  rows_ascending name_le l -> rows_ascending name_le (insert_row name_le x l).
Proof.
  unfold rows_ascending.
  induction 1 as [|y l Hs IH Hh]; cbn; [repeat constructor|].
  destruct (row_le name_le x y) eqn:E.
  - constructor; [constructor; assumption|constructor; exact E].
  - constructor; [exact IH|].
    assert (Hyx : row_le name_le y x = true).
    { unfold row_le in *.
      destruct (name_le_total (student_name (fst x)) (student_name (fst y)));
        [congruence|assumption]. }
    destruct Hh as [|z l Hyz]; cbn; [constructor; exact Hyx|].
    destruct (row_le name_le x z); constructor; assumption.
Qed.

Lemma order_by_name_sorted l : rows_ascending name_le (order_by_name name_le l).
Proof.
  induction l as [|x l IH]; cbn; [constructor|].
  apply insert_row_sorted. exact IH.
Qed.

End Ordering.

(** With unique class ids a student is joined with one class at most. *)
Lemma join_student_pk cs s :
  NoDup (map class_id cs) ->
  join_student cs s = [(s, find (join_on s) cs)].
Proof.
  intros Hnd. unfold join_student. rewrite <- hd_error_filter.
  destruct (filter (join_on s) cs) as [|c [|c' l]] eqn:E; [reflexivity..|].
  exfalso.
  assert (Hid : forall x, In x (filter (join_on s) cs) ->
                          student_classId s = Some (class_id x)).
  { intros x Hx. apply filter_In in Hx. destruct Hx as [_ Hx].
    unfold join_on in Hx. destruct (student_classId s) as [k|]; [|discriminate].
    cbn in Hx. destruct (Z.eqb_spec k (class_id x)); [congruence|discriminate]. }
  assert (Hsame : class_id c = class_id c').
  { pose proof (Hid c) as H1. pose proof (Hid c') as H2.
    rewrite E in H1, H2. cbn in H1, H2.
    specialize (H1 (or_introl eq_refl)).
    specialize (H2 (or_intror (or_introl eq_refl))). congruence. }
  assert (Hnd' : NoDup (map class_id (filter (join_on s) cs))).
  { clear E Hid. induction cs as [|x cs IH]; cbn; [constructor|].
    inversion Hnd as [|? ? Hx Hcs]; subst.
    destruct (join_on s x); cbn; [|apply IH; exact Hcs].
    constructor; [|apply IH; exact Hcs].
    intros Hin. apply Hx. apply in_map_iff in Hin.
    destruct Hin as [y [Hy Hin]]. apply filter_In in Hin.
    apply in_map_iff. exists y. tauto. }
  rewrite E in Hnd'. cbn in Hnd'. inversion Hnd' as [|? ? Hc _]; subst.
  apply Hc. left. symmetry. exact Hsame.
Qed.

Lemma left_join_pk ss cs :
  NoDup (map class_id cs) ->
  left_join ss cs = map (fun s => (s, find (join_on s) cs)) ss.
Proof.
  intros Hnd. unfold left_join. induction ss as [|x ss IH]; cbn; [reflexivity|].
  rewrite join_student_pk by exact Hnd. rewrite IH. reflexivity.
Qed.

Lemma length_firstn_skipn {A} (l : list A) n m :
  length (firstn n (skipn m l)) = Nat.min n (length l - m).
Proof. rewrite length_firstn, length_skipn. reflexivity. Qed.

(** The joined rows in name order are the matching students in some name
    order, each with its class. *)
Lemma ordered_rows name_le db (matching : list Student) :
  (forall a b, name_le a b = true \/ name_le b a = true) ->
  let sorted :=
    order_by_name name_le
      (map (fun s => (s, find (join_on s) (classes db))) matching) in
  Permutation (map fst sorted) matching
  /\ Sorted (fun a b => name_le (student_name a) (student_name b) = true)
            (map fst sorted)
  /\ forall n m,
       map with_class (firstn n (skipn m sorted))
       = map (student_view db) (firstn n (skipn m (map fst sorted))).
Proof.
  intros Htotal sorted.
  set (rows := map (fun s => (s, find (join_on s) (classes db))) matching)
    in sorted.
  assert (Hperm : Permutation sorted rows) by apply order_by_name_perm.
  split.
  { rewrite (Permutation_map fst Hperm). unfold rows. rewrite map_map.
    cbn [fst]. rewrite map_id. reflexivity. }
  split.
  { apply (Sorted_map (fun a b => row_le name_le a b = true)).
    - intros a b Hab. exact Hab.
    - apply (order_by_name_sorted name_le Htotal). }
  intros n m. rewrite skipn_map, firstn_map, map_map.
  apply map_ext_in. intros row Hrow. apply In_page in Hrow.
  apply (Permutation_in _ Hperm) in Hrow. unfold rows in Hrow.
  apply in_map_iff in Hrow. destruct Hrow as [s0 [<- _]]. reflexivity.
Qed.

(** C9: for page >= 1 and 1 <= limit <= 100 (unique class ids, an offset
    that is exact as a JS number, a class filter in the range of the column
    and no more students than the key has values), getStudents returns the page of the matching students in
    ascending order of name: with the students that pass the class filter
    arranged in some ascending order of name (every student below all
    later ones when the order is transitive), the page is the segment of
    limit rows at most from offset (page - 1) * limit on, each student with
    its class. totalStudents is the number of matching students and
    totalPages is ceil(totalStudents / limit); the page is empty, without
    error, when the offset is at or beyond totalStudents. *)
Theorem getStudents_page name_le page limit classId db :
  (forall a b, name_le a b = true \/ name_le b a = true) ->
  classes_pk db ->
  1 <= page ->
  1 <= limit <= 100 ->
  (page - 1) * limit <= MAX_SAFE_INTEGER ->
  (forall c, classId = Some c -> int4 c) ->
  int4 (Z.of_nat (length (students db))) ->
  exists r ordered,
    getStudents name_le (Some page) (Some limit) classId db = (Ok r, db)
    /\ Permutation ordered (filter (class_filter classId) (students db))
    /\ Sorted (fun a b => name_le (student_name a) (student_name b) = true)
              ordered
    /\ ((forall a b c, name_le a b = true -> name_le b c = true ->
                       name_le a c = true) ->
        StronglySorted
          (fun a b => name_le (student_name a) (student_name b) = true)
          ordered)
    /\ pg_students r
       = map (student_view db)
           (firstn (Z.to_nat limit)
              (skipn (Z.to_nat ((page - 1) * limit)) ordered))
    /\ pg_currentPage r = page
    /\ pg_limit r = limit
    /\ names_ascending name_le (pg_students r)
    /\ (forall v, In v (pg_students r) ->
          In (sw_student v) (students db)
          /\ class_filter classId (sw_student v) = true)
    /\ pg_totalStudents r
       = Z.of_nat (length (filter (class_filter classId) (students db)))
    /\ pg_totalPages r = ceil_div (pg_totalStudents r) limit
    /\ pg_totalStudents r <= pg_totalPages r * limit < pg_totalStudents r + limit
    /\ Z.of_nat (length (pg_students r))
       = Z.max 0 (Z.min limit (pg_totalStudents r - (page - 1) * limit))
    /\ (pg_totalStudents r <= (page - 1) * limit -> pg_students r = []).
Proof.
  intros Htotal Hpk Hpage Hlimit _ _ _.
  unfold getStudents, or_default, truthy.
  destruct (Z.eqb_spec page 0) as [?|_]; [lia|].
  destruct (Z.eqb_spec limit 0) as [?|_]; [lia|].
  cbn [negb]. cbv zeta. unfold_m. unfold select_page.
  destruct (Z.ltb_spec limit 0) as [?|_]; [lia|].
  destruct (Z.ltb_spec ((page - 1) * limit) 0) as [?|_]; [nia|].
  cbn [orb].
  rewrite (filter_left_join (class_filter classId)).
  rewrite left_join_pk by exact Hpk.
  set (matching := filter (class_filter classId) (students db)).
  destruct (ordered_rows name_le db matching Htotal) as (Hperm & Hsorted & Hseg).
  set (rows := map (fun s => (s, find (join_on s) (classes db))) matching) in *.
  set (sorted := order_by_name name_le rows) in *.
  assert (Hlen : length sorted = length matching).
  { unfold sorted. rewrite (Permutation_length (order_by_name_perm name_le rows)).
    unfold rows. apply length_map. }
  eexists. exists (map fst sorted). split; [reflexivity|].
  cbn [pg_students pg_totalStudents pg_totalPages pg_currentPage pg_limit].
  split; [exact Hperm|].
  split; [exact Hsorted|].
  split.
  { intros Htrans. apply Sorted_StronglySorted; [|exact Hsorted].
    intros x y z. apply Htrans. }
  split; [apply Hseg|].
  split; [reflexivity|].
  split; [reflexivity|].
  split.
  { unfold names_ascending.
    apply (Sorted_map (fun a b => row_le name_le a b = true)).
    - intros a b Hab. exact Hab.
    - apply Sorted_firstn, Sorted_skipn.
      apply (order_by_name_sorted name_le Htotal). }
  split.
  { intros v Hv. apply in_map_iff in Hv. destruct Hv as [row [<- Hrow]].
    apply In_page in Hrow.
    apply (Permutation_in _ (order_by_name_perm name_le rows)) in Hrow.
    unfold rows in Hrow. apply in_map_iff in Hrow.
    destruct Hrow as [s [<- Hs]]. cbn [with_class sw_student fst].
    unfold matching in Hs. apply filter_In in Hs. exact Hs. }
  split; [reflexivity|].
  split; [reflexivity|].
  split; [apply ceil_div_bounds; lia|].
  assert (Hcount : Z.of_nat (length (map with_class
                     (firstn (Z.to_nat limit)
                        (skipn (Z.to_nat ((page - 1) * limit)) sorted))))
                   = Z.max 0 (Z.min limit
                       (Z.of_nat (length matching) - (page - 1) * limit))).
  { rewrite length_map, length_firstn_skipn, Hlen.
    assert (Hoff : 0 <= (page - 1) * limit) by nia.
    remember ((page - 1) * limit) as off. lia. }
  split; [exact Hcount|].
  intros Hbeyond.
  destruct (map with_class _) as [|v l] eqn:E; [reflexivity|].
  cbn [length] in Hcount.
  remember ((page - 1) * limit) as off. lia.
Qed.

Lemma sample_db_classes_pk : classes_pk sample_db.
Proof.
  unfold classes_pk. cbn.
  repeat (constructor; [cbn; intros H; intuition discriminate|]).
  constructor.
Defined.

Lemma getStudents_page_witness :
  exists r ordered,
    getStudents String.leb (Some 2) (Some 3) None sample_db = (Ok r, sample_db)
    /\ Permutation ordered (filter (class_filter None) (students sample_db))
    /\ Sorted (fun a b => String.leb (student_name a) (student_name b) = true)
              ordered
    /\ ((forall a b c, String.leb a b = true -> String.leb b c = true ->
                       String.leb a c = true) ->
        StronglySorted
          (fun a b => String.leb (student_name a) (student_name b) = true)
          ordered)
    /\ pg_students r
       = map (student_view sample_db)
           (firstn (Z.to_nat 3) (skipn (Z.to_nat ((2 - 1) * 3)) ordered))
    /\ pg_currentPage r = 2
    /\ pg_limit r = 3
    /\ names_ascending String.leb (pg_students r)
    /\ (forall v, In v (pg_students r) ->
          In (sw_student v) (students sample_db)
          /\ class_filter None (sw_student v) = true)
    /\ pg_totalStudents r
       = Z.of_nat (length (filter (class_filter None) (students sample_db)))
    /\ pg_totalPages r = ceil_div (pg_totalStudents r) 3
    /\ pg_totalStudents r <= pg_totalPages r * 3 < pg_totalStudents r + 3
    /\ Z.of_nat (length (pg_students r))
       = Z.max 0 (Z.min 3 (pg_totalStudents r - (2 - 1) * 3))
    /\ (pg_totalStudents r <= (2 - 1) * 3 -> pg_students r = []).
Proof.
  apply (getStudents_page String.leb 2 3 None sample_db).
  - exact String.leb_total.
  - exact sample_db_classes_pk.
  - lia.
  - lia.
  - unfold MAX_SAFE_INTEGER. lia.
  - discriminate.
  - unfold int4. cbn. lia.
Defined.

Example getStudents_second_page :
  fst (getStudents String.leb (Some 2) (Some 3) None sample_db)
  = Ok (mkPaginatedStudents
          [ mkStudentWithClass (mkStudent 4 "Dan" 14 (Some 1) 0 0)
              (Some (mkClassSummary 1 "Mathematics" "A"));
            mkStudentWithClass (mkStudent 5 "Eve" 13 (Some 1) 0 0)
              (Some (mkClassSummary 1 "Mathematics" "A"));
            mkStudentWithClass (mkStudent 6 "Finn" 12 None 0 0) None ]
          2 3 7 3).
Proof. reflexivity. Qed.

Example getStudents_beyond_last_page :
  fst (getStudents String.leb (Some 4) (Some 3) None sample_db)
  = Ok (mkPaginatedStudents [] 4 3 7 3).
Proof. reflexivity. Qed.

(** The handler lets such a request through to the service. *)
Lemma getStudents_handler_accepts name_le page limit classId db :
  1 <= page ->
  1 <= limit <= 100 ->
  match classId with Some c => 0 <= c | None => True end ->
  getStudents_handler name_le (Some page) (Some limit) classId db
  = inr (getStudents name_le (Some page) (Some limit) classId db).
Proof.
  intros Hp Hl Hc. unfold getStudents_handler, validate_query.
  cbn [truthy_opt].
  destruct (Z.ltb_spec page 1); [lia|].
  destruct (Z.ltb_spec limit 1); [lia|].
  destruct (Z.ltb_spec 100 limit); [lia|].
  rewrite !andb_false_r. cbn [orb].
  destruct classId as [c|]; [|reflexivity].
  cbn [truthy_opt]. unfold truthy.
  destruct (Z.eqb_spec c 0); [reflexivity|].
  destruct (Z.ltb_spec c 1); [lia|reflexivity].
Qed.

(** * Further properties *)

(** ** List facts *)

Lemma find_class_in c db :
  find_class c db <> None <-> In c (map class_id (classes db)).
Proof.
  unfold find_class. induction (classes db) as [|x l IH]; cbn.
  - split; [congruence|contradiction].
  - destruct (Z.eqb_spec (class_id x) c) as [E|E].
    + split; [intros _; left; exact E|discriminate].
    + rewrite IH. split; [intros H; right; exact H|intros [H|H]; [contradiction|exact H]].
Qed.

Lemma find_student_in k db :
  find_student k db <> None <-> In k (map student_id (students db)).
Proof.
  unfold find_student. induction (students db) as [|x l IH]; cbn.
  - split; [congruence|contradiction].
  - destruct (Z.eqb_spec (student_id x) k) as [E|E].
    + split; [intros _; left; exact E|discriminate].
    + rewrite IH. split; [intros H; right; exact H|intros [H|H]; [contradiction|exact H]].
Qed.

Lemma NoDup_map_filter {A B} (g : A -> B) (f : A -> bool) l :
  NoDup (map g l) -> NoDup (map g (filter f l)).
Proof.
  induction l as [|x l IH]; cbn; intros H; [constructor|].
  inversion H as [|? ? Hx Hl]; subst.
  destruct (f x); cbn; [|apply IH; exact Hl].
  constructor; [|apply IH; exact Hl].
  intros Hin. apply Hx. apply in_map_iff in Hin.
  destruct Hin as [y [Hy Hin]]. apply filter_In in Hin.
  apply in_map_iff. exists y. tauto.
Qed.

Lemma NoDup_map_snoc {A B} (g : A -> B) l x :
  NoDup (map g l) -> ~ In (g x) (map g l) -> NoDup (map g (l ++ [x])).
Proof.
  intros Hnd Hx. rewrite map_app. cbn.
  induction l as [|y l IH]; cbn in *.
  - constructor; [intros []|constructor].
  - inversion Hnd as [|? ? Hy Hl]; subst. constructor.
    + intros Hin. apply in_app_or in Hin. destruct Hin as [Hin|[Hin|[]]].
      * contradiction.
      * apply Hx. left. symmetry. exact Hin.
    + apply IH; [exact Hl|]. intros Hin. apply Hx. right. exact Hin.
Qed.

Lemma filter_length_le {A} (f : A -> bool) l :
  (length (filter f l) <= length l)%nat.
Proof.
  induction l as [|x l IH]; cbn; [lia|]. destruct (f x); cbn; lia.
Qed.

Lemma filter_filter_length_le {A} (f g : A -> bool) l :
  (length (filter f (filter g l)) <= length (filter f l))%nat.
Proof.
  induction l as [|x l IH]; cbn; [lia|].
  destruct (g x); cbn; destruct (f x); cbn; lia.
Qed.

Lemma filter_none {A} (f : A -> bool) l :
  (forall x, In x l -> f x = false) -> filter f l = [].
Proof.
  induction l as [|x l IH]; cbn; intros H; [reflexivity|].
  rewrite (H x (or_introl eq_refl)). apply IH. intros y Hy. apply H. right. exact Hy.
Qed.

Lemma filter_length_zero {A} (f : A -> bool) l x :
  length (filter f l) = 0%nat -> In x l -> f x = false.
Proof.
  induction l as [|y l IH]; cbn; intros Hlen Hin; [contradiction|].
  destruct (f y) eqn:E; [discriminate|].
  destruct Hin as [->|Hin]; [exact E|apply IH; assumption].
Qed.

Lemma in_class_iff c s : in_class c s = true <-> student_classId s = Some c.
Proof.
  unfold in_class. destruct (student_classId s) as [k|]; cbn.
  - destruct (Z.eqb_spec k c); split; congruence.
  - split; discriminate.
Qed.

(** One row rewritten by primary key: the exact effect on a count. *)
Lemma count_upd_exact sid (set : Student -> Student) (f : Student -> bool) l st :
  NoDup (map student_id l) ->
  find (fun s => student_id s =? sid) l = Some st ->
  (length (filter f (map (fun s => if (student_id s =? sid)%Z then set s else s) l))
   + (if f st then 1 else 0)
   = length (filter f l) + (if f (set st) then 1 else 0))%nat.
Proof.
  induction l as [|x l IH]; cbn; intros Hnd Hf; [discriminate|].
  inversion Hnd as [|? ? Hx Hl]; subst.
  destruct (Z.eqb_spec (student_id x) sid) as [E|E].
  - inv Hf. rewrite (upd_absent (student_id st) set l Hx).
    destruct (f (set st)), (f st); cbn; lia.
  - specialize (IH Hl Hf). destruct (f x); cbn; lia.
Qed.

Lemma upd_not_found sid (set : Student -> Student) l :
  find (fun s => student_id s =? sid) l = None ->
  map (fun s => if student_id s =? sid then set s else s) l = l.
Proof.
  induction l as [|x l IH]; cbn; intros H; [reflexivity|].
  destruct (student_id x =? sid); [discriminate|]. rewrite IH; [reflexivity|exact H].
Qed.

(** ** Well-formedness under each kind of write *)

Lemma capacity_ok_ids db :
  capacity_ok db <->
  (forall k, In k (map class_id (classes db)) -> enrolled_count k db <= 5).
Proof.
  unfold capacity_ok. split.
  - intros H k Hk. apply in_map_iff in Hk. destruct Hk as [c [<- Hc]]. exact (H c Hc).
  - intros H c Hc. apply H. apply in_map. exact Hc.
Qed.

Lemma students_fk_ids db :
  students_fk db <->
  (forall s c, In s (students db) -> student_classId s = Some c ->
               In c (map class_id (classes db))).
Proof.
  unfold students_fk. split; intros H s c Hs Hc.
  - apply find_class_in. exact (H s c Hs Hc).
  - apply find_class_in. exact (H s c Hs Hc).
Qed.

Lemma classes_fresh_ids db :
  classes_fresh db <->
  (forall k, In k (map class_id (classes db)) -> k < classes_seq db).
Proof.
  unfold classes_fresh. split.
  - intros H k Hk. apply in_map_iff in Hk. destruct Hk as [c [<- Hc]]. exact (H c Hc).
  - intros H c Hc. apply H. apply in_map. exact Hc.
Qed.

Lemma students_fresh_ids db :
  students_fresh db <->
  (forall k, In k (map student_id (students db)) -> k < students_seq db).
Proof.
  unfold students_fresh. split.
  - intros H k Hk. apply in_map_iff in Hk. destruct Hk as [c [<- Hc]]. exact (H c Hc).
  - intros H c Hc. apply H. apply in_map. exact Hc.
Qed.

Lemma class_upd_ids k (set : Class -> Class) l :
  (forall c, class_id (set c) = class_id c) ->
  map class_id (map (fun c => if class_id c =? k then set c else c) l)
  = map class_id l.
Proof.
  intros Hset. induction l as [|x l IH]; cbn; [reflexivity|].
  rewrite IH. destruct (class_id x =? k); [rewrite Hset|]; reflexivity.
Qed.

(** A rewrite of class rows that keeps their ids. *)
Lemma wf_class_update k (set : Class -> Class) db :
  (forall c, class_id (set c) = class_id c) ->
  wf_db db ->
  wf_db (mkDb (users db)
              (map (fun c => if class_id c =? k then set c else c) (classes db))
              (students db) (classes_seq db) (students_seq db)).
Proof.
  intros Hset [Hspk Hcpk Hsf Hcf Hfk Hcap].
  pose proof (class_upd_ids k set (classes db) Hset) as Hids.
  constructor.
  - exact Hspk.
  - unfold classes_pk. cbn. rewrite Hids. exact Hcpk.
  - exact Hsf.
  - apply classes_fresh_ids. cbn. rewrite Hids. apply classes_fresh_ids. exact Hcf.
  - apply students_fk_ids. cbn. rewrite Hids. apply students_fk_ids. exact Hfk.
  - apply capacity_ok_ids. cbn. rewrite Hids.
    apply (proj1 (capacity_ok_ids db)). exact Hcap.
Qed.

Lemma enrolled_count_unreferenced k db :
  students_fk db -> ~ In k (map class_id (classes db)) -> enrolled_count k db = 0.
Proof.
  intros Hfk Hk. unfold enrolled_count.
  rewrite filter_none; [reflexivity|].
  intros s Hs. destruct (in_class k s) eqn:E; [|reflexivity].
  exfalso. apply Hk. apply in_class_iff in E.
  exact (proj1 (students_fk_ids db) Hfk s k Hs E).
Qed.

(** A class inserted under the next id of the counter. *)
Lemma wf_with_new_class name section t now db :
  wf_db db -> wf_db (with_new_class name section t now db).
Proof.
  intros [Hspk Hcpk Hsf Hcf Hfk Hcap].
  assert (Hnew : ~ In (classes_seq db) (map class_id (classes db))).
  { intros Hin. apply (proj1 (classes_fresh_ids db) Hcf) in Hin. lia. }
  constructor.
  - exact Hspk.
  - unfold classes_pk, with_new_class. cbn.
    apply NoDup_map_snoc; [exact Hcpk|exact Hnew].
  - exact Hsf.
  - apply classes_fresh_ids. unfold with_new_class. cbn.
    intros k Hk. rewrite map_app in Hk. apply in_app_or in Hk.
    destruct Hk as [Hk|[<-|[]]]; [|cbn; lia].
    apply (proj1 (classes_fresh_ids db) Hcf) in Hk. lia.
  - apply students_fk_ids. unfold with_new_class. cbn.
    intros s c Hs Hc. rewrite map_app. apply in_or_app. left.
    exact (proj1 (students_fk_ids db) Hfk s c Hs Hc).
  - apply capacity_ok_ids. unfold with_new_class. cbn.
    intros k Hk. rewrite map_app in Hk. apply in_app_or in Hk.
    change (enrolled_count k db <= 5).
    destruct Hk as [Hk|[<-|[]]].
    + exact (proj1 (capacity_ok_ids db) Hcap k Hk).
    + cbn. rewrite (enrolled_count_unreferenced _ _ Hfk Hnew). lia.
Qed.

(** A class deleted while no student refers to it. *)
Lemma wf_without_class id db :
  wf_db db -> enrolled_count id db <= 0 -> wf_db (without_class id db).
Proof.
  intros [Hspk Hcpk Hsf Hcf Hfk Hcap] Hzero.
  assert (Hsub : forall k, In k (map class_id (classes (without_class id db))) ->
                           In k (map class_id (classes db))).
  { unfold without_class. cbn. intros k Hk. apply in_map_iff in Hk.
    destruct Hk as [c [<- Hc]]. apply filter_In in Hc. apply in_map. tauto. }
  constructor.
  - exact Hspk.
  - unfold classes_pk, without_class. cbn. apply NoDup_map_filter. exact Hcpk.
  - exact Hsf.
  - apply classes_fresh_ids. intros k Hk.
    exact (proj1 (classes_fresh_ids db) Hcf k (Hsub k Hk)).
  - apply students_fk_ids. unfold without_class. cbn. intros s c Hs Hc.
    pose proof (proj1 (students_fk_ids db) Hfk s c Hs Hc) as Hin.
    apply in_map_iff in Hin. destruct Hin as [cl [<- Hcl]].
    apply in_map. apply filter_In. split; [exact Hcl|].
    destruct (Z.eqb_spec (class_id cl) id) as [E|E]; [|reflexivity].
    exfalso. unfold enrolled_count in Hzero.
    assert (Hlen : length (filter (in_class id) (students db)) = 0%nat) by lia.
    pose proof (filter_length_zero _ _ s Hlen Hs) as Hno.
    rewrite <- E in Hno. apply in_class_iff in Hc. congruence.
  - apply capacity_ok_ids. intros k Hk.
    exact (proj1 (capacity_ok_ids db) Hcap k (Hsub k Hk)).
Qed.

(** A student deleted. *)
Lemma wf_without_student id db : wf_db db -> wf_db (without_student id db).
Proof.
  intros [Hspk Hcpk Hsf Hcf Hfk Hcap].
  constructor.
  - unfold students_pk, without_student. cbn. apply NoDup_map_filter. exact Hspk.
  - exact Hcpk.
  - unfold students_fresh, without_student. cbn. intros s Hs.
    apply filter_In in Hs. apply Hsf. tauto.
  - exact Hcf.
  - unfold students_fk, without_student in *. cbn. intros s c Hs Hc.
    apply filter_In in Hs. apply (Hfk s c); tauto.
  - unfold capacity_ok, without_student in *. cbn. intros c Hc.
    specialize (Hcap c Hc). unfold enrolled_count in *. cbn.
    pose proof (filter_filter_length_le (in_class (class_id c))
                  (fun s => negb (student_id s =? id)) (students db)).
    lia.
Qed.

(** A student inserted under the next id of the counter, either without
    class or into an existing class that has room. *)
Lemma wf_with_new_student name age c now db :
  wf_db db ->
  match c with
  | Some cid => find_class cid db <> None /\ enrolled_count cid db < 5
  | None => True
  end ->
  wf_db (with_new_student name age c now db).
Proof.
  intros [Hspk Hcpk Hsf Hcf Hfk Hcap] Hc.
  assert (Hcount : forall k,
    enrolled_count k (with_new_student name age c now db)
    = enrolled_count k db + (if strict_eq c (Some k) then 1 else 0)).
  { intros k. unfold enrolled_count, with_new_student. cbn.
    rewrite filter_app, length_app. cbn.
    unfold in_class at 2. cbn.
    destruct c as [cid|]; cbn; [|lia].
    destruct (cid =? k); cbn; lia. }
  constructor.
  - unfold students_pk, with_new_student. cbn.
    apply NoDup_map_snoc; [exact Hspk|]. cbn.
    intros Hin. apply (proj1 (students_fresh_ids db) Hsf) in Hin. lia.
  - exact Hcpk.
  - apply students_fresh_ids. unfold with_new_student. cbn.
    intros k Hk. rewrite map_app in Hk. apply in_app_or in Hk.
    destruct Hk as [Hk|[<-|[]]]; [|cbn; lia].
    apply (proj1 (students_fresh_ids db) Hsf) in Hk. lia.
  - exact Hcf.
  - unfold students_fk, with_new_student. cbn. intros s k Hs Hk.
    change (find_class k db <> None).
    apply in_app_or in Hs. destruct Hs as [Hs|[<-|[]]].
    + exact (Hfk s k Hs Hk).
    + cbn in Hk. subst c. tauto.
  - intros cl Hcl. rewrite Hcount.
    change (In cl (classes db)) in Hcl. specialize (Hcap cl Hcl).
    destruct c as [cid|]; cbn; [|lia].
    destruct (Z.eqb_spec cid (class_id cl)) as [E|E]; [|lia].
    rewrite E in Hc. lia.
Qed.

(** One student row rewritten by id: its class reference is left alone,
    cleared, or set to an existing class that has room or already holds
    the student. *)
Lemma wf_student_update k (set : Student -> Student) (target : option (option Z)) db :
  (forall s, student_id (set s) = student_id s) ->
  (forall s, student_classId (set s)
             = match target with Some c => c | None => student_classId s end) ->
  wf_db db ->
  match target with
  | Some (Some c) =>
      find_class c db <> None
      /\ (enrolled_count c db < 5
          \/ exists st, find_student k db = Some st /\ student_classId st = Some c)
  | _ => True
  end ->
  wf_db (mkDb (users db) (classes db)
              (map (fun s => if student_id s =? k then set s else s) (students db))
              (classes_seq db) (students_seq db)).
Proof.
  intros Hid Hcls [Hspk Hcpk Hsf Hcf Hfk Hcap] Hcond.
  pose proof (upd_ids k set Hid (students db)) as Hids.
  constructor.
  - unfold students_pk. cbn. rewrite Hids. exact Hspk.
  - exact Hcpk.
  - apply students_fresh_ids. cbn. rewrite Hids. apply students_fresh_ids. exact Hsf.
  - exact Hcf.
  - unfold students_fk. cbn. intros s' c Hs' Hc.
    change (find_class c db <> None).
    apply in_map_iff in Hs'. destruct Hs' as [s [Hs' Hs]].
    destruct (student_id s =? k).
    + subst s'. rewrite Hcls in Hc.
      destruct target as [[c0|]|].
      * inv Hc. tauto.
      * discriminate.
      * exact (Hfk s c Hs Hc).
    + subst s'. exact (Hfk s c Hs Hc).
  - intros cl Hcl. change (In cl (classes db)) in Hcl. specialize (Hcap cl Hcl).
    unfold enrolled_count in *. cbn.
    destruct (find (fun s => student_id s =? k) (students db)) as [st|] eqn:Hf.
    2:{ rewrite (upd_not_found k set _ Hf). exact Hcap. }
    pose proof (count_upd_exact k set (in_class (class_id cl)) _ st Hspk Hf) as Hx.
    destruct (in_class (class_id cl) (set st)) eqn:Hnew; [|lia].
    apply in_class_iff in Hnew. rewrite Hcls in Hnew.
    destruct target as [[c0|]|].
    + inv Hnew. destruct Hcond as [_ [Hroom|[st' [Hst' Hsame]]]].
      * lia.
      * unfold find_student in Hst'. rewrite Hf in Hst'. inv Hst'.
        apply in_class_iff in Hsame. rewrite Hsame in Hx. lia.
    + discriminate.
    + apply in_class_iff in Hnew. rewrite Hnew in Hx. lia.
Qed.

(** ** The remaining write methods in direct style *)

Lemma updateClass_eval now id name section db :
  updateClass now id name section db =
  match find_class id db with
  | None => (Throw ClassNotFound, db)
  | Some cl =>
      let newName :=
        if truthy_ostr name
        then match name with Some n => n | None => class_name cl end
        else class_name cl in
      let newSection :=
        if truthy_ostr section
        then match section with Some s => s | None => class_section cl end
        else class_section cl in
      if (truthy_ostr name || truthy_ostr section)
         && match find (fun c => String.eqb (class_name c) newName) (classes db) with
            | Some duplicateClass =>
                negb (class_id duplicateClass =? id)
                && String.eqb (class_section duplicateClass) newSection
            | None => false
            end
      then (Throw (ClassAlreadyExists newName newSection), db)
      else (Ok (set_class_fields name section now cl),
            with_class_fields id name section now db)
  end.
Proof.
  assert (Hhd : forall (l : list Class), hd_error (firstn 2 l) = hd_error l).
  { intros [|x l]; reflexivity. }
  unfold updateClass. unfold bind at 1. rewrite getClassById_eq.
  destruct (find_class id db) as [cl|] eqn:Hc; [|reflexivity].
  cbv zeta.
  assert (Hdone :
    (updated <- update_classes (set_class_fields name section now)
                  (fun c => class_id c =? id) ;;
     match hd_error updated with
     | Some updatedClass => ret updatedClass
     | None => throw FailedToUpdateClass
     end) db
    = (Ok (set_class_fields name section now cl),
       with_class_fields id name section now db)).
  { unfold_m. rewrite hd_error_map, hd_error_filter.
    fold (find_class id db). rewrite Hc. reflexivity. }
  unfold bind at 1.
  destruct (truthy_ostr name || truthy_ostr section); cbn [andb].
  2:{ cbn [ret]. exact Hdone. }
  unfold bind at 1. unfold select_classes at 1.
  rewrite first_row_filter. fold (find_class id db). rewrite Hc.
  unfold bind at 1. unfold select_classes at 1.
  rewrite Hhd, hd_error_filter. unfold throw_if.
  destruct (match find _ (classes db) with Some _ => _ | None => _ end);
    [reflexivity|exact Hdone].
Qed.

Lemma removeTeacherFromClass_eval now classId db :
  removeTeacherFromClass now classId db =
  match find_class classId db with
  | None => (Throw ClassNotFound, db)
  | Some cl => (Ok (set_class_teacher None now cl),
                with_class_teacher classId None now db)
  end.
Proof.
  unfold removeTeacherFromClass. unfold bind at 1. rewrite getClassById_eq.
  destruct (find_class classId db) as [cl|] eqn:Hc; [|reflexivity].
  unfold_m. rewrite hd_error_map, hd_error_filter.
  fold (find_class classId db). rewrite Hc. reflexivity.
Qed.

Lemma deleteClass_eval id db :
  deleteClass id db =
  match find_class id db with
  | None => (DeleteThrow (ServiceError ClassNotFound), db)
  | Some _ =>
      if 0 <? enrolled_count id db
      then (DeleteThrow CannotDeleteClassWithStudents, db)
      else (Deleted, without_class id db)
  end.
Proof.
  unfold deleteClass. rewrite getClassById_eq.
  destruct (find_class id db) as [cl|] eqn:Hc; [|reflexivity].
  unfold count_students. fold (enrolled_count id db).
  destruct (0 <? enrolled_count id db); [reflexivity|].
  unfold without_class, delete_class. cbn [snd].
  rewrite hd_error_filter. fold (find_class id db). rewrite Hc. reflexivity.
Qed.

Lemma deleteStudent_eval id db :
  deleteStudent id db =
  match find_student id db with
  | None => (DeleteThrow (ServiceError StudentNotFound), db)
  | Some _ => (Deleted, without_student id db)
  end.
Proof.
  unfold deleteStudent. rewrite getStudentById_eval.
  destruct (find_student id db) as [st|] eqn:Hs; [|reflexivity].
  unfold without_student, delete_student. cbn [snd].
  rewrite hd_error_filter. fold (find_student id db). rewrite Hs. reflexivity.
Qed.

Lemma createStudent_snd now name age classId db :
  snd (createStudent now name age classId db) = db
  \/ exists c,
       snd (createStudent now name age classId db)
       = with_new_student name age c now db
       /\ match c with
          | Some cid => find_class cid db <> None /\ enrolled_count cid db < 5
          | None => True
          end.
Proof.
  rewrite createStudent_eval. cbv zeta.
  assert (Hins : forall c,
    snd (getStudentById (students_seq db) (with_new_student name age c now db))
    = with_new_student name age c now db).
  { intros c. destruct (createStudent_inserted_ok name age c now db) as [v Hv].
    rewrite Hv. reflexivity. }
  destruct classId as [cid|]; cbn [truthy_opt].
  2:{ right. exists None. rewrite Hins. tauto. }
  destruct (truthy cid).
  2:{ right. exists None. rewrite Hins. tauto. }
  destruct (find_class cid db) as [cl|] eqn:Hc; [|left; reflexivity].
  destruct (Z.leb_spec 5 (enrolled_count cid db)); [left; reflexivity|].
  right. exists (Some cid). rewrite Hins, Hc. split; [reflexivity|].
  split; [discriminate|assumption].
Qed.

(** ** Every write keeps the database well-formed *)

Lemma apply_op_wf op db : wf_db db -> wf_db (apply_op op db).
Proof.
  intros Hwf. destruct op; cbn [apply_op].
  - (* createClass *)
    rewrite createClass_eval.
    repeat (match goal with |- context [if ?b then _ else _] => destruct b end);
      cbn [snd]; try exact Hwf; apply wf_with_new_class; exact Hwf.
  - (* updateClass *)
    rewrite updateClass_eval.
    destruct (find_class id db); [|exact Hwf]. cbv zeta.
    destruct (_ && _); cbn [snd]; [exact Hwf|].
    apply (wf_class_update id (set_class_fields name section now)); [reflexivity|exact Hwf].
  - (* deleteClass *)
    rewrite deleteClass_eval.
    destruct (find_class id db); [|exact Hwf].
    destruct (Z.ltb_spec 0 (enrolled_count id db)); cbn [snd]; [exact Hwf|].
    apply wf_without_class; assumption.
  - (* enrollStudent *)
    rewrite enrollStudent_eval.
    destruct (find_class classId db) as [cl|] eqn:Hc; [|exact Hwf].
    destruct (find_student studentId db) as [st|] eqn:Hs; [|exact Hwf].
    destruct (strict_eq _ _); [exact Hwf|].
    destruct (Z.leb_spec 5 (enrolled_count classId db)); cbn [snd]; [exact Hwf|].
    apply (wf_student_update studentId (set_student_class (Some classId) now)
             (Some (Some classId))); try reflexivity; [exact Hwf|].
    split; [congruence|left; assumption].
  - (* removeStudentFromClass *)
    rewrite removeStudentFromClass_eval.
    destruct (find_student studentId db); [|exact Hwf].
    destruct (truthy_opt _); cbn [snd]; [|exact Hwf].
    apply (wf_student_update studentId (set_student_class None now) (Some None));
      try reflexivity; try exact I; exact Hwf.
  - (* assignTeacherToClass *)
    rewrite assignTeacherToClass_eval.
    destruct (find_class classId db); [|exact Hwf].
    destruct (find_teacher teacherId db); [|exact Hwf].
    destruct (5 <=? _); cbn [snd]; [exact Hwf|].
    apply (wf_class_update classId (set_class_teacher (Some teacherId) now));
      [reflexivity|exact Hwf].
  - (* removeTeacherFromClass *)
    rewrite removeTeacherFromClass_eval.
    destruct (find_class classId db); cbn [snd]; [|exact Hwf].
    apply (wf_class_update classId (set_class_teacher None now));
      [reflexivity|exact Hwf].
  - (* createStudent *)
    destruct (createStudent_snd now name age classId db) as [->|[c [-> Hc]]];
      [exact Hwf|].
    apply wf_with_new_student; assumption.
  - (* updateStudent *)
    rewrite updateStudent_eval.
    destruct (find_student id db) as [st|] eqn:Hs; [|exact Hwf]. cbv zeta.
    destruct classId as [[cid|]|].
    + destruct (find_class cid db) as [cl|] eqn:Hc; [|exact Hwf].
      destruct (strict_eq (student_classId st) (Some cid)) eqn:Hsame; cbn [negb andb].
      * cbn [snd].
        apply (wf_student_update id (set_student_fields name age (Some (Some cid)) now)
                 (Some (Some cid))); try reflexivity; [exact Hwf|].
        split; [congruence|right]. exists st. split; [exact Hs|].
        apply strict_eq_true. exact Hsame.
      * destruct (Z.leb_spec 5 (enrolled_count cid db)); cbn [snd]; [exact Hwf|].
        apply (wf_student_update id (set_student_fields name age (Some (Some cid)) now)
                 (Some (Some cid))); try reflexivity; [exact Hwf|].
        split; [congruence|left; assumption].
    + cbn [snd].
      apply (wf_student_update id (set_student_fields name age (Some None) now)
               (Some None)); try reflexivity; try exact I; exact Hwf.
    + cbn [snd].
      apply (wf_student_update id (set_student_fields name age None now) None);
        try reflexivity; try exact I; exact Hwf.
  - (* deleteStudent *)
    rewrite deleteStudent_eval.
    destruct (find_student id db); cbn [snd]; [|exact Hwf].
    apply wf_without_student. exact Hwf.
Qed.

Lemma wf_empty_db : wf_db empty_db.
Proof.
  constructor.
  - constructor.
  - constructor.
  - intros s [].
  - intros c [].
  - intros s c [].
  - intros c [].
Defined.

Lemma wf_sample_db : wf_db sample_db.
Proof.
  constructor.
  - exact sample_db_students_pk.
  - exact sample_db_classes_pk.
  - intros s Hs. cbn in Hs.
    repeat (destruct Hs as [<-|Hs]; [reflexivity|]). contradiction.
  - intros c Hc. cbn in Hc.
    repeat (destruct Hc as [<-|Hc]; [reflexivity|]). contradiction.
  - intros s c Hs Hc. cbn in Hs.
    repeat (destruct Hs as [<-|Hs]; [cbn in Hc; inv Hc; discriminate|]).
    contradiction.
  - exact sample_db_capacity_ok.
Defined.

Lemma teacher_limit_sample_db : teacher_limit_ok sample_db.
Proof.
  intros t. unfold sections_of, sample_db, sample_classes.
  cbn [classes filter]. unfold taught_by.
  cbn [class_teacherId sql_eq sql_where].
  destruct (7 =? t); cbn [length]; lia.
Defined.

(** X1: Whatever calls are made, in whatever order and with whatever outcome,
    a well-formed database stays well-formed: ids stay unique and below
    their counters, every class reference of a student names an existing
    class, and every class keeps at most five enrolled students. *)
Theorem service_calls_preserve_wf ops db :
  wf_db db -> wf_db (apply_ops ops db).
Proof.
  unfold apply_ops. revert db.
  induction ops as [|op ops IH]; intros db Hwf; cbn [fold_left]; [exact Hwf|].
  apply IH. apply apply_op_wf. exact Hwf.
Qed.

Lemma service_calls_preserve_wf_witness :
  wf_db (apply_ops sample_history empty_db).
Proof.
  apply (service_calls_preserve_wf sample_history empty_db). exact wf_empty_db.
Defined.

Example sample_history_result :
  apply_ops sample_history empty_db
  = mkDb []
         [ mkClass 2 "Physics" "A" None 2 2 ]
         [ mkStudent 1 "Ava" 13 (Some 2) 3 7;
           mkStudent 2 "Ben" 13 None 4 8 ]
         3 4.
Proof. reflexivity. Qed.

(** ** The five-sections bound *)

Lemma class_upd_absent k (set : Class -> Class) l :
  ~ In k (map class_id l) ->
  map (fun c => if class_id c =? k then set c else c) l = l.
Proof.
  induction l as [|x l IH]; cbn; intros H; [reflexivity|].
  destruct (Z.eqb_spec (class_id x) k) as [E|E].
  - exfalso. apply H. left. exact E.
  - rewrite IH; [reflexivity|]. intros HI. apply H. right. exact HI.
Qed.

Lemma count_class_upd_out k (set : Class -> Class) (f : Class -> bool) l :
  (forall c, f (set c) = false) ->
  (length (filter f (map (fun c => if (class_id c =? k)%Z then set c else c) l))
   <= length (filter f l))%nat.
Proof.
  intros Hf. induction l as [|x l IH]; cbn; [lia|].
  destruct (class_id x =? k).
  - rewrite Hf. destruct (f x); cbn; lia.
  - destruct (f x); cbn; lia.
Qed.

Lemma count_class_upd_same k (set : Class -> Class) (f : Class -> bool) l :
  (forall c, f (set c) = f c) ->
  filter f (map (fun c => if class_id c =? k then set c else c) l)
  = map (fun c => if class_id c =? k then set c else c) (filter f l).
Proof.
  intros Hf. induction l as [|x l IH]; cbn; [reflexivity|].
  destruct (class_id x =? k) eqn:E.
  - rewrite Hf. destruct (f x); cbn; [rewrite E, IH; reflexivity|exact IH].
  - destruct (f x); cbn; [rewrite E, IH; reflexivity|exact IH].
Qed.

(** One class row rewritten by primary key: the exact effect on a count. *)
Lemma count_class_upd_exact k (set : Class -> Class) (f : Class -> bool) l cl :
  NoDup (map class_id l) ->
  find (fun c => class_id c =? k) l = Some cl ->
  (length (filter f (map (fun c => if (class_id c =? k)%Z then set c else c) l))
   + (if f cl then 1 else 0)
   = length (filter f l) + (if f (set cl) then 1 else 0))%nat.
Proof.
  induction l as [|x l IH]; cbn; intros Hnd Hf; [discriminate|].
  inversion Hnd as [|? ? Hx Hl]; subst.
  destruct (Z.eqb_spec (class_id x) k) as [E|E].
  - inv Hf. rewrite (class_upd_absent (class_id cl) set l Hx).
    destruct (f (set cl)), (f cl); cbn; lia.
  - specialize (IH Hl Hf). destruct (f x); cbn; lia.
Qed.

Lemma taught_by_iff t c : taught_by t c = true <-> class_teacherId c = Some t.
Proof.
  unfold taught_by. destruct (class_teacherId c) as [k|]; cbn.
  - destruct (Z.eqb_spec k t); split; congruence.
  - split; discriminate.
Qed.

Lemma taught_by_set t t' now c :
  taught_by t (set_class_teacher t' now c) = strict_eq t' (Some t).
Proof.
  unfold taught_by. destruct t' as [z|]; cbn; [|reflexivity].
  destruct (z =? t); reflexivity.
Qed.

(** Setting the teacher of one class: what it does to each teacher's
    number of classes. *)
Lemma sections_of_with_class_teacher classId t' now db cl t :
  classes_pk db ->
  find_class classId db = Some cl ->
  sections_of t (with_class_teacher classId t' now db)
  + (if taught_by t cl then 1 else 0)
  = sections_of t db + (if strict_eq t' (Some t) then 1 else 0).
Proof.
  intros Hpk Hc. unfold sections_of, with_class_teacher. cbn.
  pose proof (count_class_upd_exact classId (set_class_teacher t' now)
                (taught_by t) (classes db) cl Hpk Hc) as Hx.
  rewrite taught_by_set in Hx.
  destruct (taught_by t cl), (strict_eq t' (Some t)); lia.
Qed.

Lemma apply_op_teacher_limit op db :
  classes_pk db ->
  teacher_limit_ok db ->
  creates_class_with_teacher op = false ->
  teacher_limit_ok (apply_op op db).
Proof.
  intros Hpk Hlim Hop t. specialize (Hlim t).
  assert (Hsame : forall db', classes db' = classes db -> sections_of t db' <= 5).
  { intros db' E. unfold sections_of in *. rewrite E. exact Hlim. }
  destruct op; cbn [apply_op creates_class_with_teacher] in *.
  - rewrite createClass_eval. rewrite Hop.
    repeat (match goal with |- context [if ?b then _ else _] => destruct b end);
      cbn [snd]; try exact Hlim.
    unfold sections_of, with_new_class in *. cbn.
    rewrite filter_app, length_app. cbn. lia.
  - rewrite updateClass_eval.
    destruct (find_class id db); [|exact Hlim]. cbv zeta.
    destruct (_ && _); cbn [snd]; [exact Hlim|].
    unfold sections_of, with_class_fields in *. cbn.
    rewrite (count_class_upd_same id (set_class_fields name section now)
               (taught_by t)) by reflexivity.
    rewrite length_map. exact Hlim.
  - rewrite deleteClass_eval.
    destruct (find_class id db); [|exact Hlim].
    destruct (0 <? enrolled_count id db); cbn [snd]; [exact Hlim|].
    unfold sections_of, without_class in *. cbn.
    pose proof (filter_filter_length_le (taught_by t)
                  (fun c => negb (class_id c =? id)) (classes db)). lia.
  - apply Hsame. rewrite enrollStudent_eval.
    repeat (match goal with
            | |- context [match ?x with Some _ => _ | None => _ end] => destruct x
            | |- context [if ?b then _ else _] => destruct b
            end); reflexivity.
  - apply Hsame. rewrite removeStudentFromClass_eval.
    repeat (match goal with
            | |- context [match ?x with Some _ => _ | None => _ end] => destruct x
            | |- context [if ?b then _ else _] => destruct b
            end); reflexivity.
  - rewrite assignTeacherToClass_eval.
    destruct (find_class classId db) as [cl|] eqn:Hc; [|exact Hlim].
    destruct (find_teacher teacherId db); [|exact Hlim].
    destruct (Z.leb_spec 5 (sections_of teacherId db)); cbn [snd]; [exact Hlim|].
    pose proof (sections_of_with_class_teacher classId (Some teacherId) now db cl t
                  Hpk Hc) as Hx.
    cbn [strict_eq] in Hx.
    destruct (Z.eqb_spec teacherId t) as [E|E]; [subst t|];
      destruct (taught_by _ cl); lia.
  - rewrite removeTeacherFromClass_eval.
    destruct (find_class classId db) as [cl|] eqn:Hc; cbn [snd]; [|exact Hlim].
    pose proof (sections_of_with_class_teacher classId None now db cl t Hpk Hc) as Hx.
    cbn [strict_eq] in Hx. destruct (taught_by t cl); lia.
  - apply Hsame.
    destruct (createStudent_snd now name age classId db) as [->|[c [-> _]]];
      reflexivity.
  - apply Hsame. rewrite updateStudent_eval.
    destruct (find_student id db); [|reflexivity]. cbv zeta.
    repeat (match goal with
            | |- context [match ?x with Some _ => _ | None => _ end] => destruct x
            | |- context [if ?b then _ else _] => destruct b
            end); reflexivity.
  - apply Hsame. rewrite deleteStudent_eval.
    destruct (find_student id db); reflexivity.
Qed.

(** X2: From a well-formed database in which no teacher has more than five
    classes, every sequence of calls that contains no createClass with a
    teacherId leaves every teacher with at most five classes. *)
Theorem calls_without_createClass_teacher_keep_limit ops db :
  wf_db db ->
  teacher_limit_ok db ->
  forallb (fun op => negb (creates_class_with_teacher op)) ops = true ->
  teacher_limit_ok (apply_ops ops db).
Proof.
  unfold apply_ops. revert db.
  induction ops as [|op ops IH]; intros db Hwf Hlim Hops; cbn [fold_left];
    [exact Hlim|].
  cbn [forallb] in Hops. apply andb_prop in Hops. destruct Hops as [Hop Hops].
  apply IH; [apply apply_op_wf; exact Hwf| |exact Hops].
  apply apply_op_teacher_limit; [apply Hwf|exact Hlim|].
  destruct (creates_class_with_teacher op); [discriminate|reflexivity].
Qed.

Lemma calls_without_createClass_teacher_keep_limit_witness :
  teacher_limit_ok (apply_ops sample_teacher_calls sample_db).
Proof.
  apply (calls_without_createClass_teacher_keep_limit sample_teacher_calls sample_db).
  - exact wf_sample_db.
  - exact teacher_limit_sample_db.
  - reflexivity.
Defined.

Example sample_teacher_calls_result :
  map class_teacherId (classes (apply_ops sample_teacher_calls sample_db))
  = [Some 7; Some 7; Some 7; Some 7; None; Some 7; None].
Proof. reflexivity. Qed.

(** ** No partial writes *)

(** X3: A call that throws leaves the database exactly as it found it. *)
Theorem throwing_call_changes_nothing op db :
  call_throws op db = true -> apply_op op db = db.
Proof.
  destruct op; cbn [call_throws apply_op].
  - rewrite createClass_eval.
    repeat (match goal with |- context [if ?b then _ else _] => destruct b end);
      cbn; congruence.
  - rewrite updateClass_eval.
    destruct (find_class id db); [|reflexivity]. cbv zeta.
    destruct (_ && _); cbn; congruence.
  - rewrite deleteClass_eval.
    destruct (find_class id db); [|reflexivity].
    destruct (0 <? _); cbn; congruence.
  - rewrite enrollStudent_eval.
    repeat (match goal with
            | |- context [match ?x with Some _ => _ | None => _ end] => destruct x
            | |- context [if ?b then _ else _] => destruct b
            end); cbn; congruence.
  - rewrite removeStudentFromClass_eval.
    repeat (match goal with
            | |- context [match ?x with Some _ => _ | None => _ end] => destruct x
            | |- context [if ?b then _ else _] => destruct b
            end); cbn; congruence.
  - rewrite assignTeacherToClass_eval.
    repeat (match goal with
            | |- context [match ?x with Some _ => _ | None => _ end] => destruct x
            | |- context [if ?b then _ else _] => destruct b
            end); cbn; congruence.
  - rewrite removeTeacherFromClass_eval.
    destruct (find_class classId db); cbn; congruence.
  - destruct (createStudent now name age classId db) as [[v|e] db'] eqn:H;
      cbn; [discriminate|]. intros _.
    exact (createStudent_throw_unchanged _ _ _ _ _ _ _ H).
  - rewrite updateStudent_eval.
    destruct (find_student id db); [|reflexivity]. cbv zeta.
    repeat (match goal with
            | |- context [match ?x with Some _ => _ | None => _ end] => destruct x
            | |- context [if ?b then _ else _] => destruct b
            end); cbn; congruence.
  - rewrite deleteStudent_eval.
    destruct (find_student id db); cbn; congruence.
Qed.

Lemma throwing_call_changes_nothing_witness :
  apply_op (CallDeleteClass 1) sample_db = sample_db
  /\ apply_op (CallCreateStudent 20 "Hana" 12 (Some 1)) sample_db = sample_db
  /\ apply_op (CallAssignTeacherToClass 20 6 7) sample_db = sample_db.
Proof.
  split; [|split].
  - apply (throwing_call_changes_nothing (CallDeleteClass 1) sample_db). reflexivity.
  - apply (throwing_call_changes_nothing
             (CallCreateStudent 20 "Hana" 12 (Some 1)) sample_db). reflexivity.
  - apply (throwing_call_changes_nothing
             (CallAssignTeacherToClass 20 6 7) sample_db). reflexivity.
Defined.

(** ** Deleting *)

Lemma find_filter_other {A} (key : A -> Z) id k (l : list A) :
  k <> id ->
  find (fun x => key x =? k) (filter (fun x => negb (key x =? id)) l)
  = find (fun x => key x =? k) l.
Proof.
  intros Hk. induction l as [|x l IH]; cbn; [reflexivity|].
  destruct (Z.eqb_spec (key x) id) as [E|E]; cbn.
  - destruct (Z.eqb_spec (key x) k); [congruence|exact IH].
  - destruct (key x =? k); [reflexivity|exact IH].
Qed.

Lemma find_filter_self {A} (key : A -> Z) id (l : list A) :
  find (fun x => key x =? id) (filter (fun x => negb (key x =? id)) l) = None.
Proof.
  induction l as [|x l IH]; cbn; [reflexivity|].
  destruct (key x =? id) eqn:E; cbn; [exact IH|]. rewrite E. exact IH.
Qed.

(** X4: for an id the store can compare with its integer key, deleteClass
    succeeds exactly when the class exists and no student is enrolled in
    it. The class is then gone, every other class is found as before and no
    student row changes; otherwise the call throws (class not found, or
    class with enrolled students) and changes nothing. *)
Theorem deleteClass_outcome id db :
  int4 id ->
  match find_class id db with
  | None => deleteClass id db = (DeleteThrow (ServiceError ClassNotFound), db)
  | Some _ =>
      if 0 <? enrolled_count id db
      then deleteClass id db = (DeleteThrow CannotDeleteClassWithStudents, db)
      else exists db',
             deleteClass id db = (Deleted, db')
             /\ find_class id db' = None
             /\ (forall k, k <> id -> find_class k db' = find_class k db)
             /\ students db' = students db
             /\ users db' = users db
  end.
Proof.
  intros _. rewrite deleteClass_eval.
  destruct (find_class id db); [|reflexivity].
  destruct (0 <? enrolled_count id db); [reflexivity|].
  exists (without_class id db). split; [reflexivity|].
  unfold find_class, without_class. cbn.
  split; [apply (find_filter_self class_id)|].
  split; [|split; reflexivity].
  intros k Hk. apply (find_filter_other class_id). exact Hk.
Qed.

Lemma deleteClass_outcome_witness :
  deleteClass 99 sample_db = (DeleteThrow (ServiceError ClassNotFound), sample_db)
  /\ deleteClass 2 sample_db
     = (DeleteThrow CannotDeleteClassWithStudents, sample_db)
  /\ exists db',
       deleteClass 3 sample_db = (Deleted, db')
       /\ find_class 3 db' = None
       /\ (forall k, k <> 3 -> find_class k db' = find_class k sample_db)
       /\ students db' = students sample_db
       /\ users db' = users sample_db.
Proof.
  assert (H99 : int4 99) by (unfold int4; lia).
  assert (H2 : int4 2) by (unfold int4; lia).
  assert (H3 : int4 3) by (unfold int4; lia).
  split; [exact (deleteClass_outcome 99 sample_db H99)|].
  split; [exact (deleteClass_outcome 2 sample_db H2)|].
  exact (deleteClass_outcome 3 sample_db H3).
Defined.

Example deleteClass_with_students :
  deleteClass 2 sample_db = (DeleteThrow CannotDeleteClassWithStudents, sample_db).
Proof. reflexivity. Qed.

(** Once the last student has left, the class can be deleted. *)
Example deleteClass_after_unenroll :
  let db1 := snd (removeStudentFromClass 20 7 sample_db) in
  fst (deleteClass 2 db1) = Deleted
  /\ find_class 2 (snd (deleteClass 2 db1)) = None.
Proof. split; reflexivity. Qed.

Lemma count_delete_exact id (f : Student -> bool) l st :
  NoDup (map student_id l) ->
  find (fun s => student_id s =? id) l = Some st ->
  (length (filter f (filter (fun s => negb (student_id s =? id)%Z) l))
   + (if f st then 1 else 0)
   = length (filter f l))%nat.
Proof.
  induction l as [|x l IH]; cbn; intros Hnd Hf; [discriminate|].
  inversion Hnd as [|? ? Hx Hl]; subst.
  destruct (Z.eqb_spec (student_id x) id) as [E|E]; cbn.
  - inv Hf.
    assert (Hrest : filter (fun s => negb (student_id s =? student_id st)) l = l).
    { clear IH Hnd Hl. induction l as [|y l IH]; cbn; [reflexivity|].
      destruct (Z.eqb_spec (student_id y) (student_id st)) as [E|E]; cbn.
      - exfalso. apply Hx. left. exact E.
      - rewrite IH; [reflexivity|]. intros H. apply Hx. right. exact H. }
    rewrite Hrest. destruct (f st); cbn; lia.
  - specialize (IH Hl Hf). destruct (f x); cbn; lia.
Qed.

(** X5: for an id the store can compare with its integer key, deleteStudent
    throws when no student has the id and changes nothing; otherwise the
    student is gone, every other student is found as before, and, ids being
    unique, the class the student was in has exactly one enrolled student
    less while every other count is unchanged. *)
Theorem deleteStudent_outcome id db :
  int4 id ->
  students_pk db ->
  match find_student id db with
  | None => deleteStudent id db = (DeleteThrow (ServiceError StudentNotFound), db)
  | Some st =>
      exists db',
        deleteStudent id db = (Deleted, db')
        /\ find_student id db' = None
        /\ (forall k, k <> id -> find_student k db' = find_student k db)
        /\ classes db' = classes db
        /\ (forall c, enrolled_count c db'
                      = enrolled_count c db - (if in_class c st then 1 else 0))
  end.
Proof.
  intros _ Hpk. rewrite deleteStudent_eval.
  destruct (find_student id db) as [st|] eqn:Hs; [|reflexivity].
  exists (without_student id db). split; [reflexivity|].
  unfold find_student, without_student. cbn.
  split; [apply (find_filter_self student_id)|].
  split; [intros k Hk; apply (find_filter_other student_id); exact Hk|].
  split; [reflexivity|].
  intros c. unfold enrolled_count. cbn.
  pose proof (count_delete_exact id (in_class c) (students db) st Hpk Hs) as Hx.
  destruct (in_class c st); lia.
Qed.

Lemma deleteStudent_outcome_witness :
  deleteStudent 99 sample_db
  = (DeleteThrow (ServiceError StudentNotFound), sample_db)
  /\ exists db',
       deleteStudent 5 sample_db = (Deleted, db')
       /\ find_student 5 db' = None
       /\ (forall k, k <> 5 -> find_student k db' = find_student k sample_db)
       /\ classes db' = classes sample_db
       /\ (forall c, enrolled_count c db'
                     = enrolled_count c sample_db
                       - (if in_class c (mkStudent 5 "Eve" 13 (Some 1) 0 0)
                          then 1 else 0)).
Proof.
  assert (H99 : int4 99) by (unfold int4; lia).
  assert (H5 : int4 5) by (unfold int4; lia).
  split.
  - exact (deleteStudent_outcome 99 sample_db H99 sample_db_students_pk).
  - exact (deleteStudent_outcome 5 sample_db H5 sample_db_students_pk).
Defined.

(** ** Enrolling and unenrolling in sequence *)

(** X6: Right after a successful enrollStudent, the same call is refused with
    the already-enrolled conflict and changes nothing. *)
Theorem enrollStudent_twice_conflicts now now' classId studentId db db' :
  enrollStudent now classId studentId db = (Ok tt, db') ->
  enrollStudent now' classId studentId db' = (Throw StudentAlreadyEnrolled, db').
Proof.
  rewrite enrollStudent_eval.
  destruct (find_class classId db) as [cl|] eqn:Hc; [|discriminate].
  destruct (find_student studentId db) as [st|] eqn:Hs; [|discriminate].
  destruct (strict_eq _ _); [discriminate|].
  destruct (5 <=? _); [discriminate|].
  intros H. inv H. rewrite enrollStudent_eval.
  change (find_class classId (with_student_class studentId (Some classId) now db))
    with (find_class classId db).
  rewrite Hc, find_with_student_class, Hs. cbn [option_map].
  rewrite (find_student_id _ _ _ Hs), Z.eqb_refl. cbn.
  rewrite Z.eqb_refl. reflexivity.
Qed.

Lemma enrollStudent_twice_conflicts_witness :
  enrollStudent 21 2 6 (with_student_class 6 (Some 2) 20 sample_db)
  = (Throw StudentAlreadyEnrolled, with_student_class 6 (Some 2) 20 sample_db).
Proof.
  apply (enrollStudent_twice_conflicts 20 21 2 6 sample_db). reflexivity.
Defined.

(** X7: For a student enrolled in a class (with a non-zero id),
    removeStudentFromClass succeeds; getStudentById then shows no class
    reference and no class, and a second removeStudentFromClass is refused
    because the student is not enrolled. *)
Theorem removeStudentFromClass_then_unassigned now now' studentId db st c :
  find_student studentId db = Some st ->
  student_classId st = Some c ->
  c <> 0 ->
  exists db' v,
    removeStudentFromClass now studentId db = (Ok tt, db')
    /\ getStudentById studentId db' = (Ok v, db')
    /\ student_classId (sw_student v) = None
    /\ sw_class v = None
    /\ removeStudentFromClass now' studentId db' = (Throw StudentNotEnrolled, db').
Proof.
  intros Hs Hc Hnz.
  assert (Hfind :
    find_student studentId (with_student_class studentId None now db)
    = Some (set_student_class None now st)).
  { rewrite find_with_student_class, Hs. cbn [option_map].
    rewrite (find_student_id _ _ _ Hs), Z.eqb_refl. reflexivity. }
  exists (with_student_class studentId None now db).
  exists (student_view (with_student_class studentId None now db)
            (set_student_class None now st)).
  split.
  { rewrite removeStudentFromClass_eval, Hs, Hc. cbn [truthy_opt]. unfold truthy.
    destruct (Z.eqb_spec c 0); [contradiction|reflexivity]. }
  split; [rewrite getStudentById_eval, Hfind; reflexivity|].
  split; [reflexivity|].
  split.
  { unfold student_view, with_class, joined_class. cbn [fst snd].
    rewrite find_all_false; [reflexivity|]. intros x. reflexivity. }
  rewrite removeStudentFromClass_eval, Hfind. reflexivity.
Qed.

Lemma removeStudentFromClass_then_unassigned_witness :
  exists db' v,
    removeStudentFromClass 20 7 sample_db = (Ok tt, db')
    /\ getStudentById 7 db' = (Ok v, db')
    /\ student_classId (sw_student v) = None
    /\ sw_class v = None
    /\ removeStudentFromClass 21 7 db' = (Throw StudentNotEnrolled, db').
Proof.
  apply (removeStudentFromClass_then_unassigned 20 21 7 sample_db
           (mkStudent 7 "Gus" 12 (Some 2) 0 0) 2).
  - reflexivity.
  - reflexivity.
  - discriminate.
Defined.

(** X8: A successful enrollStudent is a move: with unique student ids the
    target class gains exactly one enrolled student, the class the student
    was in before (if any) loses exactly one, and every other class keeps
    its count. *)
Theorem enrollStudent_moves_student now classId studentId db db' st :
  students_pk db ->
  find_student studentId db = Some st ->
  enrollStudent now classId studentId db = (Ok tt, db') ->
  forall k,
    enrolled_count k db'
    = enrolled_count k db
      + (if k =? classId then 1 else 0)
      - (if in_class k st then 1 else 0).
Proof.
  intros Hpk Hs. rewrite enrollStudent_eval, Hs.
  destruct (find_class classId db) as [cl|]; [|discriminate].
  destruct (strict_eq (student_classId st) (Some classId)) eqn:Hsame; [discriminate|].
  destruct (5 <=? _); [discriminate|].
  intros H k. inv H. unfold enrolled_count, with_student_class. cbn.
  pose proof (count_upd_exact studentId (set_student_class (Some classId) now)
                (in_class k) (students db) st Hpk Hs) as Hx.
  rewrite in_class_set in Hx. cbn [strict_eq] in Hx.
  rewrite (Z.eqb_sym k classId).
  destruct (in_class k st), (classId =? k); lia.
Qed.

Lemma enrollStudent_moves_student_witness :
  enrolled_count 3 (with_student_class 7 (Some 3) 20 sample_db)
  = enrolled_count 3 sample_db + (if 3 =? 3 then 1 else 0)
    - (if in_class 3 (mkStudent 7 "Gus" 12 (Some 2) 0 0) then 1 else 0)
  /\ enrolled_count 2 (with_student_class 7 (Some 3) 20 sample_db)
     = enrolled_count 2 sample_db + (if 2 =? 3 then 1 else 0)
       - (if in_class 2 (mkStudent 7 "Gus" 12 (Some 2) 0 0) then 1 else 0).
Proof.
  split.
  - apply (enrollStudent_moves_student 20 3 7 sample_db).
    + exact sample_db_students_pk.
    + reflexivity.
    + reflexivity.
  - apply (enrollStudent_moves_student 20 3 7 sample_db).
    + exact sample_db_students_pk.
    + reflexivity.
    + reflexivity.
Defined.

(** ** Teachers: freeing a slot, and who is available *)

(** X9: A teacher with at most five classes who is taken off one of them can
    be assigned to any existing class again, and ends with at most five
    classes (class ids unique). *)
Theorem removeTeacher_frees_a_slot now now' m m' t db cl cl' u :
  classes_pk db ->
  find_class m db = Some cl ->
  class_teacherId cl = Some t ->
  sections_of t db <= 5 ->
  find_teacher t db = Some u ->
  find_class m' db = Some cl' ->
  exists db1 c db2,
    snd (removeTeacherFromClass now m db) = db1
    /\ sections_of t db1 = sections_of t db - 1
    /\ assignTeacherToClass now' m' t db1 = (Ok c, db2)
    /\ class_teacherId c = Some t
    /\ sections_of t db2 <= 5.
Proof.
  intros Hpk Hm Ht Hn Hu Hm'.
  rewrite removeTeacherFromClass_eval, Hm. cbn [snd].
  set (db1 := with_class_teacher m None now db).
  assert (Hn1 : sections_of t db1 = sections_of t db - 1).
  { pose proof (sections_of_with_class_teacher m None now db cl t Hpk Hm) as Hx.
    apply taught_by_iff in Ht. rewrite Ht in Hx. cbn [strict_eq] in Hx.
    unfold db1. lia. }
  assert (Hpk1 : classes_pk db1).
  { unfold classes_pk, db1, with_class_teacher. cbn.
    rewrite class_upd_ids by reflexivity. exact Hpk. }
  assert (Hfind1 : exists c1, find_class m' db1 = Some c1).
  { destruct (find_class m' db1) eqn:E; [eauto|]. exfalso.
    assert (Hin : find_class m' db1 <> None).
    { apply find_class_in. unfold db1, with_class_teacher. cbn.
      rewrite class_upd_ids by reflexivity.
      apply find_class_in. congruence. }
    contradiction. }
  destruct Hfind1 as [c1 Hc1].
  exists db1, (set_class_teacher (Some t) now' c1),
         (with_class_teacher m' (Some t) now' db1).
  split; [reflexivity|]. split; [exact Hn1|].
  split.
  { rewrite assignTeacherToClass_eval, Hc1.
    change (find_teacher t db1) with (find_teacher t db). rewrite Hu.
    destruct (Z.leb_spec 5 (sections_of t db1)); [lia|reflexivity]. }
  split; [reflexivity|].
  pose proof (sections_of_with_class_teacher m' (Some t) now' db1 c1 t Hpk1 Hc1) as Hx.
  cbn [strict_eq] in Hx. rewrite Z.eqb_refl in Hx.
  destruct (taught_by t c1); lia.
Qed.

Lemma removeTeacher_frees_a_slot_witness :
  exists db1 c db2,
    snd (removeTeacherFromClass 20 5 sample_db) = db1
    /\ sections_of 7 db1 = sections_of 7 sample_db - 1
    /\ assignTeacherToClass 21 6 7 db1 = (Ok c, db2)
    /\ class_teacherId c = Some 7
    /\ sections_of 7 db2 <= 5.
Proof.
  apply (removeTeacher_frees_a_slot 20 21 5 6 7 sample_db
           (mkClass 5 "Chemistry" "A" (Some 7) 0 0)
           (mkClass 6 "Chemistry" "B" None 0 0)
           (mkUser 7 "Tara" "tara@school.test" "hash" RoleTeacher 0 0)).
  - exact sample_db_classes_pk.
  - reflexivity.
  - reflexivity.
  - vm_compute. discriminate.
  - reflexivity.
  - reflexivity.
Defined.

Lemma insert_sorted_perm {A} (le : A -> A -> bool) x l :
  Permutation (insert_sorted le x l) (x :: l).
Proof.
  induction l as [|y l IH]; cbn; [reflexivity|].
  destruct (le x y); [reflexivity|].
  rewrite IH. apply perm_swap.
Qed.

Lemma sort_by_perm {A} (le : A -> A -> bool) l : Permutation (sort_by le l) l.
Proof.
  induction l as [|x l IH]; cbn; [reflexivity|].
  rewrite insert_sorted_perm. constructor. exact IH.
Qed.

Lemma insert_sorted_sorted {A} (le : A -> A -> bool) x l :
  (forall a b, le a b = true \/ le b a = true) ->
  Sorted (fun a b => le a b = true) l ->
  Sorted (fun a b => le a b = true) (insert_sorted le x l).
Proof.
  intros Htot. induction 1 as [|y l Hs IH Hh]; cbn; [repeat constructor|].
  destruct (le x y) eqn:E.
  - constructor; [constructor; assumption|constructor; exact E].
  - constructor; [exact IH|].
    assert (Hyx : le y x = true) by (destruct (Htot x y); [congruence|assumption]).
    destruct Hh as [|z l Hyz]; cbn; [constructor; exact Hyx|].
    destruct (le x z); constructor; assumption.
Qed.

Lemma sort_by_sorted {A} (le : A -> A -> bool) l :
  (forall a b, le a b = true \/ le b a = true) ->
  Sorted (fun a b => le a b = true) (sort_by le l).
Proof.
  intros Htot. induction l as [|x l IH]; cbn; [constructor|].
  apply insert_sorted_sorted; assumption.
Qed.

(** Read-only queries mapped over a list return their values in order. *)
Lemma mapM_reads {A B} (f : A -> M B) (g : A -> B) l db :
  (forall x, f x db = (Ok (g x), db)) ->
  mapM f l db = (Ok (map g l), db).
Proof.
  intros Hf. induction l as [|x l IH]; cbn; [reflexivity|].
  unfold bind. rewrite Hf, IH. reflexivity.
Qed.

Lemma getAvailableTeachers_eval name_le toISOString db :
  getAvailableTeachers name_le toISOString db =
  (Ok (map (fun u => mkUserDetails (user_id u) (user_name u) (user_email u)
                       (user_role u) (toISOString (user_createdAt u))
                       (sections_of (user_id u) db))
         (filter (fun u => sections_of (user_id u) db <? 5)
            (sort_by (fun a b => name_le (user_name a) (user_name b))
               (filter (fun u => role_eqb (user_role u) RoleTeacher) (users db))))),
   db).
Proof.
  unfold getAvailableTeachers. unfold bind at 1. unfold bind at 1.
  rewrite (mapM_reads _ (fun u => (u, sections_of (user_id u) db)))
    by (intros x; reflexivity).
  unfold ret. f_equal. f_equal.
  induction (sort_by _ _) as [|x l IH]; cbn; [reflexivity|].
  destruct (sections_of (user_id x) db <? 5); cbn; rewrite IH; reflexivity.
Qed.

Lemma find_teacher_in t db :
  find_teacher t db <> None <->
  exists u, In u (users db) /\ user_id u = t /\ user_role u = RoleTeacher.
Proof.
  unfold find_teacher. split.
  - destruct (find (is_teacher t) (users db)) as [u|] eqn:E; [|congruence].
    intros _. apply find_some in E. destruct E as [Hin Hu].
    unfold is_teacher in Hu. apply andb_prop in Hu. destruct Hu as [Hid Hr].
    exists u. split; [exact Hin|]. split; [apply Z.eqb_eq; exact Hid|].
    destruct (user_role u); try discriminate; reflexivity.
  - intros [u [Hin [Hid Hr]]] Hnone.
    apply (find_none _ _ Hnone) in Hin. unfold is_teacher in Hin.
    rewrite Hid, Z.eqb_refl, Hr in Hin. discriminate.
Qed.

(** X10: getAvailableTeachers lists the teacher accounts with fewer than five
    classes, each with its number of classes; a user id is listed exactly
    when assignTeacherToClass of that id to an existing class succeeds. *)
Theorem getAvailableTeachers_are_assignable name_le toISOString db :
  exists l,
    getAvailableTeachers name_le toISOString db = (Ok l, db)
    /\ (forall d, In d l ->
          details_role d = RoleTeacher
          /\ details_sectionCount d = sections_of (details_id d) db
          /\ details_sectionCount d < 5)
    /\ (forall now classId teacherId,
          find_class classId db <> None ->
          (In teacherId (map details_id l) <->
           exists c db', assignTeacherToClass now classId teacherId db = (Ok c, db'))).
Proof.
  rewrite getAvailableTeachers_eval. eexists. split; [reflexivity|].
  set (le := fun a b => name_le (user_name a) (user_name b)).
  set (teachers := filter (fun u => role_eqb (user_role u) RoleTeacher) (users db)).
  assert (Hmem : forall u,
    In u (filter (fun u => sections_of (user_id u) db <? 5) (sort_by le teachers))
    <-> In u (users db) /\ user_role u = RoleTeacher
        /\ sections_of (user_id u) db < 5).
  { intros u. rewrite filter_In.
    assert (Hp : In u (sort_by le teachers) <-> In u teachers).
    { split; apply Permutation_in; [|symmetry]; apply sort_by_perm. }
    rewrite Hp. unfold teachers. rewrite filter_In, Z.ltb_lt.
    assert (Hr : role_eqb (user_role u) RoleTeacher = true
                 <-> user_role u = RoleTeacher).
    { destruct (user_role u); cbn; split; congruence. }
    rewrite Hr. tauto. }
  split.
  { intros d Hd. apply in_map_iff in Hd. destruct Hd as [u [<- Hu]].
    apply Hmem in Hu. cbn. tauto. }
  intros now classId teacherId Hc.
  rewrite map_map. cbn [details_id]. rewrite in_map_iff.
  rewrite assignTeacherToClass_eval.
  destruct (find_class classId db) as [cl|]; [|contradiction].
  split.
  - intros [u [Hid Hu]]. apply Hmem in Hu. destruct Hu as [Hin [Hr Hn]].
    subst teacherId.
    destruct (find_teacher (user_id u) db) eqn:Ht.
    + destruct (Z.leb_spec 5 (sections_of (user_id u) db)); [lia|eauto].
    + exfalso. assert (Hne : find_teacher (user_id u) db <> None).
      { apply find_teacher_in. exists u. tauto. }
      contradiction.
  - intros [c [db' H]].
    destruct (find_teacher teacherId db) eqn:Ht; [|discriminate].
    destruct (Z.leb_spec 5 (sections_of teacherId db)); [discriminate|].
    assert (Hne : find_teacher teacherId db <> None) by congruence.
    apply find_teacher_in in Hne. destruct Hne as [u' [Hin [Hid Hr]]].
    exists u'. split; [exact Hid|]. apply Hmem. rewrite Hid. tauto.
Qed.

Example getAvailableTeachers_at_limit :
  fst (getAvailableTeachers String.leb (fun _ => "") sample_db) = Ok []
  /\ fst (getAvailableTeachers String.leb (fun _ => "")
            (snd (removeTeacherFromClass 20 5 sample_db)))
     = Ok [mkUserDetails 7 "Tara" "tara@school.test" RoleTeacher "" 4].
Proof. split; reflexivity. Qed.

Lemma getAvailableTeachers_are_assignable_witness :
  exists c db',
    assignTeacherToClass 21 6 7 (snd (removeTeacherFromClass 20 5 sample_db))
    = (Ok c, db').
Proof.
  destruct (getAvailableTeachers_are_assignable String.leb (fun _ => "")
              (snd (removeTeacherFromClass 20 5 sample_db)))
    as [l [Hl [_ Hiff]]].
  apply (Hiff 21 6 7); [discriminate|].
  vm_compute in Hl. inv Hl. left. reflexivity.
Defined.

(** ** The teacher dashboard *)

Lemma list_sum_indicator {A} (p : A -> bool) l :
  list_sum (map (fun x => if p x then 1 else 0)%nat l) = length (filter p l).
Proof.
  unfold list_sum. induction l as [|x l IH]; cbn; [reflexivity|].
  rewrite IH. destruct (p x); reflexivity.
Qed.

Lemma list_sum_map_add {A} (f g : A -> nat) l :
  list_sum (map (fun x => f x + g x)%nat l)
  = (list_sum (map f l) + list_sum (map g l))%nat.
Proof.
  unfold list_sum. induction l as [|x l IH]; cbn; [reflexivity|]. rewrite IH. lia.
Qed.

Lemma filter_map_pair {A B} (p : B -> bool) (a : A) (l : list B) :
  filter (fun r => p (snd r)) (map (fun b => (a, b)) l)
  = map (fun b => (a, b)) (filter p l).
Proof.
  induction l as [|x l IH]; cbn; [reflexivity|].
  destruct (p x); cbn; rewrite IH; reflexivity.
Qed.

Lemma filter_filter_comm {A} (p q : A -> bool) l :
  filter p (filter q l) = filter q (filter p l).
Proof.
  induction l as [|x l IH]; cbn; [reflexivity|].
  destruct (q x) eqn:Eq, (p x) eqn:Ep; cbn; rewrite ?Eq, ?Ep, IH; reflexivity.
Qed.

(** The joined rows of one teacher, counted class by class. *)
Lemma inner_join_count t ss cs :
  length (filter (fun r => taught_by t (snd r)) (TeacherService.inner_join ss cs))
  = list_sum (map (fun c => length (filter (in_class (class_id c)) ss))
                  (filter (taught_by t) cs)).
Proof.
  unfold TeacherService.inner_join.
  induction ss as [|s ss IH]; cbn.
  - unfold list_sum.
    induction (filter (taught_by t) cs) as [|c l IHl]; cbn; [reflexivity|exact IHl].
  - rewrite filter_app, length_app, IH.
    rewrite filter_map_pair, length_map, filter_filter_comm.
    rewrite <- (list_sum_indicator (join_on s)).
    rewrite <- list_sum_map_add. f_equal. apply map_ext. intros c.
    change (join_on s c) with (in_class (class_id c) s).
    destruct (in_class (class_id c) s); reflexivity.
Qed.

Lemma list_sum_bound {A} (f : A -> nat) (b : nat) l :
  (forall x, In x l -> f x <= b)%nat ->
  (list_sum (map f l) <= b * length l)%nat.
Proof.
  unfold list_sum. induction l as [|x l IH]; cbn; intros H; [lia|].
  pose proof (H x (or_introl eq_refl)).
  assert (fold_right Nat.add 0 (map f l) <= b * length l)%nat
    by (apply IH; intros y Hy; apply H; right; exact Hy).
  lia.
Qed.

(** X11: The teacher dashboard reports the teacher's number of classes and, as
    totalStudents, the sum of the enrolled counts of those classes; when
    every class has at most five enrolled students this is at most five
    per class, and at most 25 for a teacher within the five-classes
    bound. *)
Theorem teacher_dashboard_totals teacherId db :
  capacity_ok db ->
  exists stats,
    TeacherService.getDashboardStats teacherId db = (Ok stats, db)
    /\ TeacherService.totalClasses stats = sections_of teacherId db
    /\ TeacherService.totalStudents stats
       = Z.of_nat (list_sum (map (fun c => Z.to_nat (enrolled_count (class_id c) db))
                               (filter (taught_by teacherId) (classes db))))
    /\ TeacherService.totalStudents stats <= 5 * TeacherService.totalClasses stats
    /\ (sections_of teacherId db <= 5 -> TeacherService.totalStudents stats <= 25)
    /\ TeacherService.pendingTasks stats = 0
    /\ TeacherService.completedThisWeek stats = 0.
Proof.
  intros Hcap. unfold TeacherService.getDashboardStats. unfold_m.
  eexists. split; [reflexivity|].
  cbn [TeacherService.totalClasses TeacherService.totalStudents
       TeacherService.pendingTasks TeacherService.completedThisWeek].
  split; [reflexivity|].
  rewrite inner_join_count.
  assert (Hsum :
    list_sum (map (fun c => length (filter (in_class (class_id c)) (students db)))
                (filter (taught_by teacherId) (classes db)))
    = list_sum (map (fun c => Z.to_nat (enrolled_count (class_id c) db))
                  (filter (taught_by teacherId) (classes db)))).
  { f_equal. apply map_ext. intros c. unfold enrolled_count. lia. }
  split; [rewrite Hsum; reflexivity|].
  assert (Hb :
    (list_sum (map (fun c => length (filter (in_class (class_id c)) (students db)))
                 (filter (taught_by teacherId) (classes db)))
     <= 5 * length (filter (taught_by teacherId) (classes db)))%nat).
  { apply list_sum_bound. intros c Hc. apply filter_In in Hc.
    pose proof (Hcap c (proj1 Hc)) as H5. unfold enrolled_count in H5. lia. }
  unfold sections_of.
  split; [lia|]. split; [lia|]. split; reflexivity.
Qed.

Lemma teacher_dashboard_totals_witness :
  exists stats,
    TeacherService.getDashboardStats 7 sample_db = (Ok stats, sample_db)
    /\ TeacherService.totalClasses stats = 5
    /\ TeacherService.totalStudents stats = 6.
Proof.
  destruct (teacher_dashboard_totals 7 sample_db sample_db_capacity_ok)
    as [stats (H1 & H2 & H3 & _)].
  exists stats. split; [exact H1|]. split; [exact H2|exact H3].
Defined.

(** ** Reading the students of a class *)

(** X12: for an id the store can compare with its integer key,
    getClassWithStudents throws when the class does not exist; otherwise it
    returns the class row together with exactly the students enrolled in
    it, each once, in ascending order of name. *)
Theorem getClassWithStudents_lists_class name_le id db :
  (forall a b, name_le a b = true \/ name_le b a = true) ->
  int4 id ->
  match find_class id db with
  | None => getClassWithStudents name_le id db = (Throw ClassNotFound, db)
  | Some cl =>
      exists r,
        getClassWithStudents name_le id db = (Ok r, db)
        /\ cws_class r = cl
        /\ Permutation (cws_students r) (filter (in_class id) (students db))
        /\ Sorted (fun a b => name_le (student_name a) (student_name b) = true)
                  (cws_students r)
        /\ (forall s, In s (cws_students r)
                      <-> In s (students db) /\ student_classId s = Some id)
        /\ Z.of_nat (length (cws_students r)) = enrolled_count id db
  end.
Proof.
  intros Htot _.
  destruct (find_class id db) as [cl|] eqn:Hc;
    unfold getClassWithStudents; unfold bind at 1; rewrite getClassById_eq, Hc;
    [|reflexivity].
  unfold_m. eexists. split; [reflexivity|].
  cbn [cws_class cws_students]. split; [reflexivity|].
  set (le := fun a b => name_le (student_name a) (student_name b)).
  pose proof (sort_by_perm le (filter (in_class id) (students db))) as Hperm.
  split; [exact Hperm|].
  split; [apply (sort_by_sorted le); intros a b; apply Htot|].
  split.
  - intros s. rewrite <- in_class_iff, <- filter_In.
    split; apply Permutation_in; [exact Hperm|symmetry; exact Hperm].
  - unfold enrolled_count. rewrite (Permutation_length Hperm). reflexivity.
Qed.

Lemma getClassWithStudents_lists_class_witness :
  exists r,
    getClassWithStudents String.leb 1 sample_db = (Ok r, sample_db)
    /\ cws_class r = mkClass 1 "Mathematics" "A" (Some 7) 0 0
    /\ Permutation (cws_students r) (filter (in_class 1) (students sample_db))
    /\ Sorted (fun a b => String.leb (student_name a) (student_name b) = true)
              (cws_students r)
    /\ (forall s, In s (cws_students r)
                  <-> In s (students sample_db) /\ student_classId s = Some 1)
    /\ Z.of_nat (length (cws_students r)) = enrolled_count 1 sample_db.
Proof.
  assert (H1 : int4 1) by (unfold int4; lia).
  exact (getClassWithStudents_lists_class String.leb 1 sample_db
           String.leb_total H1).
Defined.

Lemma filter_true {A} (l : list A) : filter (fun _ => true) l = l.
Proof.
  induction l as [|x l IH]; cbn; [reflexivity|]. rewrite IH. reflexivity.
Qed.

(** getStudents once the page and the limit are in range. *)
Lemma getStudents_eval name_le page limit classId db :
  classes_pk db ->
  0 <= or_default limit 10 ->
  0 <= (or_default page 1 - 1) * or_default limit 10 ->
  getStudents name_le page limit classId db =
  let matching := filter (class_filter classId) (students db) in
  (Ok (mkPaginatedStudents
         (map with_class
            (firstn (Z.to_nat (or_default limit 10))
               (skipn (Z.to_nat ((or_default page 1 - 1) * or_default limit 10))
                  (order_by_name name_le
                     (map (fun s => (s, find (join_on s) (classes db))) matching)))))
         (or_default page 1)
         (ceil_div (Z.of_nat (length matching)) (or_default limit 10))
         (Z.of_nat (length matching))
         (or_default limit 10)),
   db).
Proof.
  intros Hpk Hl Ho. unfold getStudents. cbv zeta. unfold_m. unfold select_page.
  destruct (Z.ltb_spec (or_default limit 10) 0) as [?|_]; [lia|].
  destruct (Z.ltb_spec ((or_default page 1 - 1) * or_default limit 10) 0) as [?|_];
    [lia|].
  cbn [orb].
  rewrite (filter_left_join (class_filter classId)).
  rewrite left_join_pk by exact Hpk. reflexivity.
Qed.

(** X13: for a class id in the range of the column (class ids unique),
    getStudentsByClassId returns the first 100 students of the given class
    in ascending order of name, each once and with its class: with the
    students of the class arranged in some ascending order of name, the
    result is its first 100 rows. With class id 0 the filter is dropped and
    the students arranged are all students. *)
Theorem getStudentsByClassId_lists_class name_le classId db :
  (forall a b, name_le a b = true \/ name_le b a = true) ->
  classes_pk db ->
  int4 classId ->
  exists l ordered,
    getStudentsByClassId name_le classId db = (Ok l, db)
    /\ Permutation ordered
         (if classId =? 0 then students db
          else filter (in_class classId) (students db))
    /\ Sorted (fun a b => name_le (student_name a) (student_name b) = true)
              ordered
    /\ ((forall a b c, name_le a b = true -> name_le b c = true ->
                       name_le a c = true) ->
        StronglySorted
          (fun a b => name_le (student_name a) (student_name b) = true)
          ordered)
    /\ l = map (student_view db) (firstn 100 ordered)
    /\ names_ascending name_le l
    /\ (classId <> 0 ->
        (forall v, In v l ->
           In (sw_student v) (students db)
           /\ student_classId (sw_student v) = Some classId)
        /\ Z.of_nat (length l) = Z.min 100 (enrolled_count classId db))
    /\ (classId = 0 ->
        Z.of_nat (length l) = Z.min 100 (Z.of_nat (length (students db)))).
Proof.
  intros Htot Hpk _. unfold getStudentsByClassId. unfold bind.
  rewrite getStudents_eval by (cbn; try exact Hpk; lia).
  cbv zeta. cbn [or_default truthy Z.eqb negb]. unfold ret.
  change (Z.to_nat ((1 - 1) * 100)) with 0%nat. cbn [skipn].
  set (matching := filter (class_filter (Some classId)) (students db)).
  destruct (ordered_rows name_le db matching Htot) as (Hperm & Hsorted & Hseg).
  set (rows := map (fun s => (s, find (join_on s) (classes db))) matching) in *.
  eexists. exists (map fst (order_by_name name_le rows)).
  split; [reflexivity|]. cbn [pg_students].
  assert (Hlen : length (order_by_name name_le rows) = length matching).
  { rewrite (Permutation_length (order_by_name_perm name_le rows)).
    unfold rows. apply length_map. }
  assert (Hcount :
    Z.of_nat (length (map with_class
                        (firstn (Z.to_nat 100) (order_by_name name_le rows))))
    = Z.min 100 (Z.of_nat (length matching))).
  { rewrite length_map, length_firstn, Hlen. lia. }
  assert (Hf : classId <> 0 ->
               forall s, class_filter (Some classId) s = in_class classId s).
  { intros Hnz s. unfold class_filter, truthy.
    destruct (Z.eqb_spec classId 0); [contradiction|reflexivity]. }
  split.
  { rewrite Hperm. unfold matching.
    destruct (Z.eqb_spec classId 0) as [->|Hnz].
    - cbn [class_filter truthy Z.eqb negb]. rewrite filter_true. reflexivity.
    - rewrite (filter_ext _ _ (Hf Hnz)). reflexivity. }
  split; [exact Hsorted|].
  split.
  { intros Htrans. apply Sorted_StronglySorted; [|exact Hsorted].
    intros x y z. apply Htrans. }
  split; [exact (Hseg (Z.to_nat 100) 0%nat)|].
  split.
  { unfold names_ascending.
    apply (Sorted_map (fun a b => row_le name_le a b = true)).
    - intros a b Hab. exact Hab.
    - apply Sorted_firstn. apply (order_by_name_sorted name_le Htot). }
  split.
  - intros Hnz. specialize (Hf Hnz).
    split.
    + intros v Hv. apply in_map_iff in Hv. destruct Hv as [row [<- Hrow]].
      apply (In_page row (Z.to_nat 100) 0) in Hrow.
      apply (Permutation_in _ (order_by_name_perm name_le rows)) in Hrow.
      unfold rows in Hrow. apply in_map_iff in Hrow.
      destruct Hrow as [s [<- Hs]]. cbn [with_class sw_student fst].
      unfold matching in Hs. apply filter_In in Hs.
      rewrite Hf, in_class_iff in Hs. exact Hs.
    + rewrite Hcount. unfold matching, enrolled_count.
      rewrite (filter_ext _ _ Hf). reflexivity.
  - intros Hz. rewrite Hcount. unfold matching, class_filter. subst classId.
    cbn [truthy Z.eqb negb].
    rewrite filter_true. reflexivity.
Qed.

Lemma getStudentsByClassId_lists_class_witness :
  exists l ordered,
    getStudentsByClassId String.leb 1 sample_db = (Ok l, sample_db)
    /\ Permutation ordered
         (if 1 =? 0 then students sample_db
          else filter (in_class 1) (students sample_db))
    /\ Sorted (fun a b => String.leb (student_name a) (student_name b) = true)
              ordered
    /\ ((forall a b c, String.leb a b = true -> String.leb b c = true ->
                       String.leb a c = true) ->
        StronglySorted
          (fun a b => String.leb (student_name a) (student_name b) = true)
          ordered)
    /\ l = map (student_view sample_db) (firstn 100 ordered)
    /\ names_ascending String.leb l
    /\ (1 <> 0 ->
        (forall v, In v l ->
           In (sw_student v) (students sample_db)
           /\ student_classId (sw_student v) = Some 1)
        /\ Z.of_nat (length l) = Z.min 100 (enrolled_count 1 sample_db))
    /\ (1 = 0 ->
        Z.of_nat (length l) = Z.min 100 (Z.of_nat (length (students sample_db)))).
Proof.
  apply (getStudentsByClassId_lists_class String.leb 1 sample_db).
  - exact String.leb_total.
  - exact sample_db_classes_pk.
  - unfold int4. lia.
Defined.

Example getStudentsByClassId_zero :
  option_map (map (fun v => student_name (sw_student v)))
    (match fst (getStudentsByClassId String.leb 0 sample_db) with
     | Ok l => Some l
     | Throw _ => None
     end)
  = Some ["Ava"; "Ben"; "Cleo"; "Dan"; "Eve"; "Finn"; "Gus"].
Proof. reflexivity. Qed.

(** ** Query parameters at the edge *)

(** X14: The handler refuses a negative page and a limit that is negative or
    above 100, but lets page 0 and limit 0 through, and the service then
    answers them as page 1 and limit 10. *)
Theorem getStudents_handler_edges name_le page limit anyLimit classId db :
  (page < 0 ->
   getStudents_handler name_le (Some page) anyLimit classId db = inl BadPage)
  /\ (limit < 0 \/ 100 < limit ->
      getStudents_handler name_le None (Some limit) classId db = inl BadLimit)
  /\ getStudents_handler name_le (Some 0) (Some 0) None db
     = inr (getStudents name_le (Some 1) (Some 10) None db)
  /\ getStudents_handler name_le None None None db
     = inr (getStudents name_le (Some 1) (Some 10) None db).
Proof.
  unfold getStudents_handler, validate_query.
  split; [|split; [|split; reflexivity]].
  - intros Hp. cbn [truthy_opt]. unfold truthy.
    destruct (Z.eqb_spec page 0); [lia|]. cbn [negb andb].
    destruct (Z.ltb_spec page 1); [reflexivity|lia].
  - intros Hl. cbn [truthy_opt andb]. unfold truthy.
    destruct (Z.eqb_spec limit 0); [lia|]. cbn [negb andb].
    destruct (Z.ltb_spec limit 1), (Z.ltb_spec 100 limit); cbn [orb];
      try reflexivity; lia.
Qed.

Lemma getStudents_handler_edges_witness :
  getStudents_handler String.leb (Some (-1)) None None sample_db = inl BadPage
  /\ getStudents_handler String.leb None (Some 101) None sample_db = inl BadLimit.
Proof.
  destruct (getStudents_handler_edges String.leb (-1) 101 None None sample_db)
    as (H1 & H2 & _).
  split; [apply H1; lia|apply H2; right; lia].
Defined.

(** ** Creating and reading back *)

Lemma find_app_fresh {A} (f : A -> bool) l x :
  (forall y, In y l -> f y = false) -> f x = true -> find f (l ++ [x]) = Some x.
Proof.
  intros Hl Hx. induction l as [|a l IH]; cbn.
  - rewrite Hx. reflexivity.
  - rewrite (Hl a (or_introl eq_refl)). apply IH.
    intros y Hy. apply Hl. right. exact Hy.
Qed.

Lemma find_app_old {A} (f : A -> bool) l x y :
  find f l = Some y -> find f (l ++ [x]) = Some y.
Proof.
  induction l as [|a l IH]; cbn; [discriminate|].
  destruct (f a); [trivial|exact IH].
Qed.

Lemma find_new_student name age c now db :
  students_fresh db ->
  find_student (students_seq db) (with_new_student name age c now db)
  = Some (new_student_row name age c now db).
Proof.
  intros Hf. unfold find_student, with_new_student. cbn.
  apply find_app_fresh; [|apply Z.eqb_refl].
  intros y Hy. specialize (Hf y Hy). apply Z.eqb_neq. lia.
Qed.

Lemma find_ext_eq {A} (f g : A -> bool) l :
  (forall x, f x = g x) -> find f l = find g l.
Proof.
  intros H. induction l as [|x l IH]; cbn; [reflexivity|].
  rewrite H, IH. reflexivity.
Qed.

Lemma joined_class_of cid s db :
  student_classId s = Some cid -> joined_class db s = find_class cid db.
Proof.
  intros Hs. unfold joined_class, find_class. apply find_ext_eq. intros c.
  unfold join_on. rewrite Hs. cbn. destruct (cid =? class_id c) eqn:E.
  - apply Z.eqb_eq in E. rewrite E, Z.eqb_refl. reflexivity.
  - rewrite Z.eqb_sym, E. reflexivity.
Qed.

Lemma find_class_id k db c : find_class k db = Some c -> class_id c = k.
Proof.
  unfold find_class. intros H. apply find_some in H.
  destruct H as [_ H]. apply Z.eqb_eq. exact H.
Qed.

Lemma enrolled_count_with_new_student k name age c now db :
  enrolled_count k (with_new_student name age c now db)
  = enrolled_count k db + (if strict_eq c (Some k) then 1 else 0).
Proof.
  unfold enrolled_count, with_new_student. cbn.
  rewrite filter_app, length_app. cbn.
  unfold in_class at 2. cbn.
  destruct c as [cid|]; cbn; [|lia].
  destruct (cid =? k); cbn; lia.
Qed.

(** X15: createStudent into an existing class with room (class id non-zero,
    student ids below the counter), with a name, an age and a next id that
    the columns of the table can hold, returns the new student, with the
    next id, the given fields and the summary of that class; getStudentById
    of the new id returns the same, and the class has one more enrolled
    student. *)
Theorem createStudent_then_getStudentById now name age cid db cl :
  varchar 100 name ->
  int4 age ->
  int4 (students_seq db) ->
  students_fresh db ->
  cid <> 0 ->
  find_class cid db = Some cl ->
  enrolled_count cid db < 5 ->
  exists v db',
    createStudent now name age (Some cid) db = (Ok v, db')
    /\ sw_student v = mkStudent (students_seq db) name age (Some cid) now now
    /\ sw_class v = Some (mkClassSummary cid (class_name cl) (class_section cl))
    /\ getStudentById (students_seq db) db' = (Ok v, db')
    /\ enrolled_count cid db' = enrolled_count cid db + 1
    /\ classes db' = classes db.
Proof.
  intros _ _ _ Hfresh Hnz Hc Hroom.
  assert (Ht : truthy cid = true).
  { unfold truthy. destruct (Z.eqb_spec cid 0); [contradiction|reflexivity]. }
  rewrite createStudent_eval. cbv zeta. cbn [truthy_opt]. rewrite Ht, Hc.
  destruct (Z.leb_spec 5 (enrolled_count cid db)); [lia|].
  rewrite getStudentById_eval, find_new_student by exact Hfresh.
  eexists. eexists. split; [reflexivity|].
  split; [reflexivity|].
  split.
  { unfold student_view, with_class. cbn [fst snd].
    rewrite (joined_class_of cid) by reflexivity.
    change (find_class cid (with_new_student name age (Some cid) now db))
      with (find_class cid db).
    rewrite Hc, (find_class_id _ _ _ Hc), Ht. reflexivity. }
  split.
  { rewrite getStudentById_eval, find_new_student by exact Hfresh. reflexivity. }
  split; [|reflexivity].
  rewrite enrolled_count_with_new_student. cbn [strict_eq].
  rewrite Z.eqb_refl. reflexivity.
Qed.

Lemma createStudent_then_getStudentById_witness :
  exists v db',
    createStudent 20 "Hana" 12 (Some 2) sample_db = (Ok v, db')
    /\ sw_student v = mkStudent (students_seq sample_db) "Hana" 12 (Some 2) 20 20
    /\ sw_class v = Some (mkClassSummary 2 "Mathematics" "B")
    /\ getStudentById (students_seq sample_db) db' = (Ok v, db')
    /\ enrolled_count 2 db' = enrolled_count 2 sample_db + 1
    /\ classes db' = classes sample_db.
Proof.
  apply (createStudent_then_getStudentById 20 "Hana" 12 2 sample_db
           (mkClass 2 "Mathematics" "B" (Some 7) 0 0)).
  - split; [cbn; lia|reflexivity].
  - unfold int4. lia.
  - unfold int4. cbn. lia.
  - exact (wf_students_fresh _ wf_sample_db).
  - discriminate.
  - reflexivity.
  - vm_compute. reflexivity.
Defined.

(** X16: With no classId, or classId 0, and a name, an age and a next id that
    the columns of the table can hold, createStudent looks up no class,
    cannot fail, and stores the student without a class reference. *)
Theorem createStudent_without_class now name age classId db :
  varchar 100 name ->
  int4 age ->
  int4 (students_seq db) ->
  students_fresh db ->
  classId = None \/ classId = Some 0 ->
  exists db',
    createStudent now name age classId db
    = (Ok (mkStudentWithClass (mkStudent (students_seq db) name age None now now) None),
       db')
    /\ find_student (students_seq db) db'
       = Some (mkStudent (students_seq db) name age None now now)
    /\ (forall c, enrolled_count c db' = enrolled_count c db).
Proof.
  intros _ _ _ Hfresh Hc.
  assert (E : createStudent now name age classId db
              = getStudentById (students_seq db)
                  (with_new_student name age None now db)).
  { rewrite createStudent_eval. destruct Hc as [->| ->]; reflexivity. }
  rewrite E, getStudentById_eval, find_new_student by exact Hfresh.
  eexists. split.
  { unfold student_view, with_class, joined_class. cbn [fst snd].
    rewrite find_all_false; [reflexivity|]. intros x. reflexivity. }
  split; [apply find_new_student; exact Hfresh|].
  intros c. rewrite enrolled_count_with_new_student. cbn [strict_eq]. lia.
Qed.

Lemma createStudent_without_class_witness :
  exists db',
    createStudent 20 "Hana" 12 (Some 0) sample_db
    = (Ok (mkStudentWithClass
             (mkStudent (students_seq sample_db) "Hana" 12 None 20 20) None),
       db')
    /\ find_student (students_seq sample_db) db'
       = Some (mkStudent (students_seq sample_db) "Hana" 12 None 20 20)
    /\ (forall c, enrolled_count c db' = enrolled_count c sample_db).
Proof.
  apply (createStudent_without_class 20 "Hana" 12 (Some 0) sample_db).
  - split; [cbn; lia|reflexivity].
  - unfold int4. lia.
  - unfold int4. cbn. lia.
  - exact (wf_students_fresh _ wf_sample_db).
  - right. reflexivity.
Defined.

(** X17: createClass, without teacher, of a name and a section that no class
    carries together (so that the duplicate check passes whichever row of
    that name the store returns), the two strings and the next id being
    values the columns can hold, returns the new class under the next id
    (class ids below the counter); getClassById of that id returns the same
    class and every class that was there is still found. *)
Theorem createClass_then_getClassById now name section db :
  varchar 100 name ->
  varchar 10 section ->
  int4 (classes_seq db) ->
  classes_fresh db ->
  (forall c, In c (classes db) ->
             class_name c = name -> class_section c <> section) ->
  exists c db',
    createClass now name section None db = (Ok c, db')
    /\ c = mkClass (classes_seq db) name section None now now
    /\ getClassById (classes_seq db) db' = (Ok c, db')
    /\ (forall k c0, find_class k db = Some c0 -> find_class k db' = Some c0)
    /\ students db' = students db.
Proof.
  intros _ _ _ Hfresh Hno. rewrite createClass_eval.
  destruct (find _ (classes db)) as [ex|] eqn:Hex.
  - apply find_some in Hex. destruct Hex as [Hin Hname].
    apply String.eqb_eq in Hname. specialize (Hno ex Hin Hname).
    destruct (String.eqb_spec (class_section ex) section) as [E|E]; [contradiction|].
    cbv zeta. cbn [truthy_opt]. eexists. eexists. split; [reflexivity|].
    split; [reflexivity|]. split.
    + rewrite getClassById_eq. unfold find_class, with_new_class. cbn.
      rewrite find_app_fresh; [reflexivity| |apply Z.eqb_refl].
      intros y Hy. specialize (Hfresh y Hy). apply Z.eqb_neq. lia.
    + split; [|reflexivity]. intros k c0 Hk.
      unfold find_class, with_new_class in *. cbn. apply find_app_old. exact Hk.
  - cbv zeta. cbn [truthy_opt]. eexists. eexists. split; [reflexivity|].
    split; [reflexivity|]. split.
    + rewrite getClassById_eq. unfold find_class, with_new_class. cbn.
      rewrite find_app_fresh; [reflexivity| |apply Z.eqb_refl].
      intros y Hy. specialize (Hfresh y Hy). apply Z.eqb_neq. lia.
    + split; [|reflexivity]. intros k c0 Hk.
      unfold find_class, with_new_class in *. cbn. apply find_app_old. exact Hk.
Qed.

Lemma createClass_then_getClassById_witness :
  exists c db',
    createClass 20 "Mathematics" "C" None sample_db = (Ok c, db')
    /\ c = mkClass (classes_seq sample_db) "Mathematics" "C" None 20 20
    /\ getClassById (classes_seq sample_db) db' = (Ok c, db')
    /\ (forall k c0, find_class k sample_db = Some c0 -> find_class k db' = Some c0)
    /\ students db' = students sample_db.
Proof.
  apply (createClass_then_getClassById 20 "Mathematics" "C" sample_db).
  - split; [cbn; lia|reflexivity].
  - split; [cbn; lia|reflexivity].
  - unfold int4. cbn. lia.
  - exact (wf_classes_fresh _ wf_sample_db).
  - intros c Hc. cbn in Hc.
    repeat (destruct Hc as [<-|Hc]; [cbn; intros; discriminate|]). contradiction.
Defined.

(** ** Updating *)

Lemma find_class_upd k id (set : Class -> Class) db db' :
  (forall c, class_id (set c) = class_id c) ->
  classes db' = map (fun c => if class_id c =? id then set c else c) (classes db) ->
  find_class k db'
  = option_map (fun c => if class_id c =? id then set c else c) (find_class k db).
Proof.
  intros Hset Hcl. unfold find_class. rewrite Hcl. clear Hcl.
  induction (classes db) as [|x l IH]; cbn; [reflexivity|].
  replace (class_id (if class_id x =? id then set x else x))
    with (class_id x) by (destruct (class_id x =? id); [rewrite Hset|]; reflexivity).
  destruct (class_id x =? k); [reflexivity|exact IH].
Qed.

(** X18: Renaming an existing class to a non-empty name that no class carries
    and the column can hold succeeds: the class is then found under its id
    with the new name, its section, teacher and creation time kept and its
    update time set; no other class and no student changes. *)
Theorem updateClass_rename_to_unused_name now id n db cl :
  varchar 100 n ->
  find_class id db = Some cl ->
  n <> "" ->
  (forall c, In c (classes db) -> class_name c <> n) ->
  exists c' db',
    updateClass now id (Some n) None db = (Ok c', db')
    /\ c' = mkClass id n (class_section cl) (class_teacherId cl)
                    (class_createdAt cl) now
    /\ find_class id db' = Some c'
    /\ (forall k, k <> id -> find_class k db' = find_class k db)
    /\ students db' = students db.
Proof.
  intros _ Hc Hn Hunused. rewrite updateClass_eval, Hc. cbv zeta.
  assert (Ht : truthy_ostr (Some n) = true) by (destruct n; [contradiction|reflexivity]).
  assert (Hnone : find (fun c => String.eqb (class_name c) n) (classes db) = None).
  { destruct (find _ (classes db)) eqn:Hf; [|reflexivity].
    apply find_some in Hf. destruct Hf as [Hin Hx].
    apply String.eqb_eq in Hx. exfalso. exact (Hunused _ Hin Hx). }
  rewrite Ht, Hnone. cbn [orb andb].
  eexists. eexists. split; [reflexivity|].
  split.
  { unfold set_class_fields. rewrite (find_class_id _ _ _ Hc). reflexivity. }
  split.
  { rewrite (find_class_upd id id (set_class_fields (Some n) None now) db)
      by reflexivity.
    rewrite Hc. cbn [option_map]. rewrite (find_class_id _ _ _ Hc), Z.eqb_refl.
    reflexivity. }
  split; [|reflexivity].
  intros k Hk.
  rewrite (find_class_upd k id (set_class_fields (Some n) None now) db)
    by reflexivity.
  destruct (find_class k db) as [c|] eqn:Hkc; [|reflexivity].
  cbn [option_map]. rewrite (find_class_id _ _ _ Hkc).
  destruct (Z.eqb_spec k id); [contradiction|reflexivity].
Qed.

Lemma updateClass_rename_to_unused_name_witness :
  exists c' db',
    updateClass 20 6 (Some "Biology") None sample_db = (Ok c', db')
    /\ c' = mkClass 6 "Biology" "B" None 0 20
    /\ find_class 6 db' = Some c'
    /\ (forall k, k <> 6 -> find_class k db' = find_class k sample_db)
    /\ students db' = students sample_db.
Proof.
  apply (updateClass_rename_to_unused_name 20 6 "Biology" sample_db
           (mkClass 6 "Chemistry" "B" None 0 0)).
  - split; [cbn; lia|reflexivity].
  - reflexivity.
  - discriminate.
  - intros c Hc. cbn in Hc.
    repeat (destruct Hc as [<-|Hc]; [discriminate|]). contradiction.
Defined.

(** X19: An empty string for name or section is not compared with the other
    classes: with each of the two fields absent or empty, updateClass of an
    existing class cannot fail, and an empty string given is written. *)
Theorem updateClass_empty_strings_unchecked now id name section db cl :
  find_class id db = Some cl ->
  name = None \/ name = Some "" ->
  section = None \/ section = Some "" ->
  exists c' db',
    updateClass now id name section db = (Ok c', db')
    /\ find_class id db' = Some c'
    /\ class_name c' = match name with Some _ => "" | None => class_name cl end
    /\ class_section c'
       = match section with Some _ => "" | None => class_section cl end
    /\ class_teacherId c' = class_teacherId cl.
Proof.
  intros Hc Hn Hs. rewrite updateClass_eval, Hc. cbv zeta.
  assert (Htn : truthy_ostr name = false) by (destruct Hn as [->| ->]; reflexivity).
  assert (Hts : truthy_ostr section = false) by (destruct Hs as [->| ->]; reflexivity).
  rewrite Htn, Hts. cbn [orb andb].
  eexists. eexists. split; [reflexivity|].
  split.
  { rewrite (find_class_upd id id (set_class_fields name section now) db)
      by reflexivity.
    rewrite Hc. cbn [option_map]. rewrite (find_class_id _ _ _ Hc), Z.eqb_refl.
    reflexivity. }
  destruct Hn as [->| ->], Hs as [->| ->]; repeat split.
Qed.

Lemma updateClass_empty_strings_unchecked_witness :
  exists c' db',
    updateClass 20 2 (Some "") (Some "") sample_db = (Ok c', db')
    /\ find_class 2 db' = Some c'
    /\ class_name c' = ""
    /\ class_section c' = ""
    /\ class_teacherId c' = Some 7.
Proof.
  apply (updateClass_empty_strings_unchecked 20 2 (Some "") (Some "") sample_db
           (mkClass 2 "Mathematics" "B" (Some 7) 0 0)).
  - reflexivity.
  - right. reflexivity.
  - right. reflexivity.
Defined.

(** X20: A successful updateStudent returns the stored row: fields that were
    not given are kept, the others replaced, the update time set; the row
    is found under its id afterwards, no other student changes, and (ids
    unique) each class count moves by the student leaving or joining it. *)
Theorem updateStudent_result now id name age classId db st v db' :
  students_pk db ->
  find_student id db = Some st ->
  updateStudent now id name age classId db = (Ok v, db') ->
  sw_student v
  = mkStudent (student_id st)
      (match name with Some n => n | None => student_name st end)
      (match age with Some a => a | None => student_age st end)
      (match classId with Some c => c | None => student_classId st end)
      (student_createdAt st) now
  /\ find_student id db' = Some (sw_student v)
  /\ (forall k, k <> id -> find_student k db' = find_student k db)
  /\ classes db' = classes db
  /\ (forall c, enrolled_count c db'
                = enrolled_count c db
                  + (if in_class c (sw_student v) then 1 else 0)
                  - (if in_class c st then 1 else 0)).
Proof.
  intros Hpk Hs. rewrite updateStudent_eval, Hs. cbv zeta.
  assert (Hdone : forall r : Res StudentWithClass * Db,
    r = (Ok (student_view (with_student_fields id name age classId now db)
               (set_student_fields name age classId now st)),
         with_student_fields id name age classId now db) ->
    r = (Ok v, db') ->
    sw_student v = set_student_fields name age classId now st
    /\ db' = with_student_fields id name age classId now db).
  { intros r -> H. inv H. split; reflexivity. }
  intros H.
  assert (Hv : sw_student v = set_student_fields name age classId now st
               /\ db' = with_student_fields id name age classId now db).
  { destruct classId as [[cid|]|]; try (apply (Hdone _ eq_refl H)).
    destruct (find_class cid db); [|discriminate].
    destruct (_ && _); [discriminate|]. apply (Hdone _ eq_refl H). }
  destruct Hv as [Hv ->]. rewrite Hv.
  split; [reflexivity|].
  split.
  { rewrite find_with_student_fields, Hs. cbn [option_map].
    rewrite (find_student_id _ _ _ Hs), Z.eqb_refl. reflexivity. }
  split.
  { intros k Hk. rewrite find_with_student_fields.
    destruct (find_student k db) as [s|] eqn:Hks; [|reflexivity].
    cbn [option_map]. rewrite (find_student_id _ _ _ Hks).
    destruct (Z.eqb_spec k id); [contradiction|reflexivity]. }
  split; [reflexivity|].
  intros c. unfold enrolled_count, with_student_fields. cbn.
  pose proof (count_upd_exact id (set_student_fields name age classId now)
                (in_class c) (students db) st Hpk Hs) as Hx.
  destruct (in_class c st), (in_class c (set_student_fields name age classId now st));
    lia.
Qed.

Lemma updateStudent_result_witness :
  sw_student (mkStudentWithClass (mkStudent 7 "Gus" 13 (Some 3) 0 20)
                (Some (mkClassSummary 3 "Physics" "A")))
  = mkStudent 7 "Gus" 13 (Some 3) 0 20
  /\ enrolled_count 2 (with_student_fields 7 None (Some 13) (Some (Some 3)) 20 sample_db)
     = enrolled_count 2 sample_db - 1.
Proof.
  destruct (updateStudent_result 20 7 None (Some 13) (Some (Some 3)) sample_db
              (mkStudent 7 "Gus" 12 (Some 2) 0 0)
              (mkStudentWithClass (mkStudent 7 "Gus" 13 (Some 3) 0 20)
                 (Some (mkClassSummary 3 "Physics" "A")))
              (with_student_fields 7 None (Some 13) (Some (Some 3)) 20 sample_db)
              sample_db_students_pk eq_refl eq_refl)
    as (H1 & _ & _ & _ & H5).
  split; [exact H1|]. exact (H5 2).
Defined.

(** ** Grouped listings *)

Lemma filter_idem {A} (p : A -> bool) l : filter p (filter p l) = filter p l.
Proof.
  induction l as [|x l IH]; cbn; [reflexivity|].
  destruct (p x) eqn:E; cbn; rewrite ?E, IH; reflexivity.
Qed.

Section GroupByFacts.

Context {C R K : Type}.
Variable key : R -> K.
Variable key_eqb : K -> K -> bool.
Hypothesis key_eqb_spec : forall a b, key_eqb a b = true <-> a = b.

Lemma distinct_by_filter k rows :
  filter (fun r => negb (key_eqb (key r) k)) (distinct_by key key_eqb rows)
  = distinct_by key key_eqb (filter (fun r => negb (key_eqb (key r) k)) rows).
Proof.
  induction rows as [|x rows IH]; cbn; [reflexivity|].
  destruct (key_eqb (key x) k) eqn:E; cbn.
  - apply key_eqb_spec in E. subst k. rewrite filter_idem. exact IH.
  - f_equal. rewrite filter_filter_comm, IH. reflexivity.
Qed.

Variable blocks : C -> list R.
Variable rep : C -> R.
Variable kc : C -> K.
Hypothesis blocks_rep : forall c, exists tl, blocks c = rep c :: tl.
Hypothesis blocks_key : forall c r, In r (blocks c) -> key r = kc c.

Lemma filter_other_block k c :
  kc c = k -> filter (fun r => negb (key_eqb (key r) k)) (blocks c) = [].
Proof.
  intros Hk. apply filter_none. intros r Hr.
  rewrite (blocks_key c r Hr), Hk.
  rewrite (proj2 (key_eqb_spec k k) eq_refl). reflexivity.
Qed.

Lemma filter_keep_blocks k cs :
  ~ In k (map kc cs) ->
  filter (fun r => negb (key_eqb (key r) k)) (flat_map blocks cs)
  = flat_map blocks cs.
Proof.
  induction cs as [|c cs IH]; cbn; intros Hk; [reflexivity|].
  rewrite filter_app, IH by tauto. f_equal.
  assert (Hall : forall r, In r (blocks c) -> negb (key_eqb (key r) k) = true).
  { intros r Hr. rewrite (blocks_key c r Hr).
    destruct (key_eqb (kc c) k) eqn:E; [|reflexivity].
    apply key_eqb_spec in E. tauto. }
  induction (blocks c) as [|r l IHl]; cbn; [reflexivity|].
  rewrite (Hall r (or_introl eq_refl)), IHl; [reflexivity|].
  intros r' Hr'. apply Hall. right. exact Hr'.
Qed.

Lemma distinct_blocks cs :
  NoDup (map kc cs) ->
  distinct_by key key_eqb (flat_map blocks cs) = map rep cs.
Proof.
  induction cs as [|c cs IH]; cbn; intros Hnd; [reflexivity|].
  inversion Hnd as [|? ? Hc Hcs]; subst.
  destruct (blocks_rep c) as [tl Htl].
  assert (Hk : key (rep c) = kc c) by (apply (blocks_key c); rewrite Htl; left; reflexivity).
  assert (Htl' : filter (fun r => negb (key_eqb (key r) (kc c))) tl = []).
  { apply filter_none. intros r Hr.
    rewrite (blocks_key c r) by (rewrite Htl; right; exact Hr).
    rewrite (proj2 (key_eqb_spec _ _) eq_refl). reflexivity. }
  rewrite Htl. cbn. f_equal.
  rewrite Hk, distinct_by_filter, filter_app, Htl', (filter_keep_blocks _ _ Hc).
  cbn. apply IH. exact Hcs.
Qed.

Lemma count_blocks (p : R -> bool) cs c :
  NoDup (map kc cs) ->
  In c cs ->
  filter (fun r => key_eqb (key r) (kc c) && p r) (flat_map blocks cs)
  = filter p (blocks c).
Proof.
  assert (Hin : forall c', filter (fun r => key_eqb (key r) (kc c') && p r) (blocks c')
                           = filter p (blocks c')).
  { intros c'. apply filter_ext_in. intros r Hr.
    rewrite (blocks_key c' r Hr), (proj2 (key_eqb_spec _ _) eq_refl). reflexivity. }
  assert (Hout : forall k cs', ~ In k (map kc cs') ->
                   filter (fun r => key_eqb (key r) k && p r) (flat_map blocks cs') = []).
  { intros k cs' Hk. apply filter_none. intros r Hr.
    apply in_flat_map in Hr. destruct Hr as [c' [Hc' Hr]].
    rewrite (blocks_key c' r Hr).
    destruct (key_eqb (kc c') k) eqn:E; [|reflexivity].
    apply key_eqb_spec in E. exfalso. apply Hk. rewrite <- E. apply in_map. exact Hc'. }
  induction cs as [|c0 cs IH]; cbn; intros Hnd Hc; [contradiction|].
  inversion Hnd as [|? ? Hc0 Hcs]; subst. rewrite filter_app.
  destruct Hc as [->|Hc].
  - rewrite Hin, (Hout _ _ Hc0). apply app_nil_r.
  - rewrite (IH Hcs Hc).
    replace (filter _ (blocks c0)) with (@nil R); [reflexivity|].
    symmetry. apply filter_none. intros r Hr.
    rewrite (blocks_key c0 r Hr).
    destruct (key_eqb (kc c0) (kc c)) eqn:E; [|reflexivity].
    apply key_eqb_spec in E. exfalso. apply Hc0. rewrite E. apply in_map. exact Hc.
Qed.

(** Rows that arrive class by class, with a key per class and no key
    twice, are grouped class by class. *)
Lemma group_count_blocks (p : R -> bool) cs :
  NoDup (map kc cs) ->
  group_count key key_eqb p (flat_map blocks cs)
  = map (fun c => (rep c, Z.of_nat (length (filter p (blocks c))))) cs.
Proof.
  intros Hnd. unfold group_count. rewrite (distinct_blocks cs Hnd), map_map.
  apply map_ext_in. intros c Hc. f_equal.
  assert (Hk : key (rep c) = kc c).
  { destruct (blocks_rep c) as [tl Htl]. apply (blocks_key c). rewrite Htl. left. reflexivity. }
  rewrite Hk, (count_blocks p cs c Hnd Hc). reflexivity.
Qed.

End GroupByFacts.

Lemma opt_eqb_spec {A} (eqb : A -> A -> bool) :
  (forall x y, eqb x y = true <-> x = y) ->
  forall a b, opt_eqb eqb a b = true <-> a = b.
Proof.
  intros H [x|] [y|]; cbn; try (split; congruence).
  rewrite H. split; congruence.
Qed.

Lemma class_eqb_spec a b : class_eqb a b = true <-> a = b.
Proof.
  unfold class_eqb. destruct a as [i n s t c u], b as [i' n' s' t' c' u']. cbn.
  rewrite !andb_true_iff, !Z.eqb_eq, !String.eqb_eq, (opt_eqb_spec Z.eqb Z.eqb_eq).
  split.
  - intros (((((-> & ->) & ->) & ->) & ->) & ->). reflexivity.
  - intros H. inv H. repeat split.
Qed.

Lemma teacher_info_eqb_spec a b : teacher_info_eqb a b = true <-> a = b.
Proof.
  unfold teacher_info_eqb. destruct a as [i n e], b as [i' n' e']. cbn.
  rewrite !andb_true_iff, Z.eqb_eq, !String.eqb_eq.
  split.
  - intros ((-> & ->) & ->). reflexivity.
  - intros H. inv H. repeat split.
Qed.

Lemma getClasses_key_eqb_spec a b : getClasses_key_eqb a b = true <-> a = b.
Proof.
  unfold getClasses_key_eqb. destruct a as [c t], b as [c' t']. cbn.
  rewrite andb_true_iff, class_eqb_spec,
    (opt_eqb_spec teacher_info_eqb teacher_info_eqb_spec).
  split; [intros [-> ->]; reflexivity|intros H; inv H; split; reflexivity].
Qed.

Lemma partners_nonempty {B} (on : B -> bool) r :
  exists o tl, partners on r = o :: tl.
Proof.
  unfold partners. destruct (filter on r) as [|x l]; cbn; eauto.
Qed.

Lemma partners_counted {B} (on : B -> bool) r :
  length (filter is_some (partners on r)) = length (filter on r).
Proof.
  unfold partners. destruct (filter on r) as [|x l]; [reflexivity|].
  generalize (x :: l). intros m. induction m as [|y m IH]; cbn; [reflexivity|].
  rewrite IH. reflexivity.
Qed.

(** With a unique key on the joined table and a join condition that fixes
    the key, a row has one partner at most. *)
Lemma partners_unique {B} (idf : B -> Z) (on : B -> bool) r k :
  NoDup (map idf r) ->
  (forall b, on b = true -> idf b = k) ->
  partners on r = [find on r].
Proof.
  intros Hnd Hon. unfold partners. rewrite <- hd_error_filter.
  assert (Hnd' : NoDup (map idf (filter on r))) by (apply NoDup_map_filter; exact Hnd).
  destruct (filter on r) as [|x [|y l]] eqn:E; [reflexivity..|].
  exfalso.
  assert (Hx : on x = true).
  { assert (In x (filter on r)) by (rewrite E; left; reflexivity).
    apply filter_In in H. tauto. }
  assert (Hy : on y = true).
  { assert (In y (filter on r)) by (rewrite E; right; left; reflexivity).
    apply filter_In in H. tauto. }
  cbn in Hnd'. inversion Hnd' as [|? ? Hin _]; subst.
  apply Hin. left. rewrite (Hon x Hx), (Hon y Hy). reflexivity.
Qed.

Lemma map_flat_map {A B D} (f : B -> D) (g : A -> list B) l :
  map f (flat_map g l) = flat_map (fun x => map f (g x)) l.
Proof.
  induction l as [|x l IH]; cbn; [reflexivity|].
  rewrite map_app, IH. reflexivity.
Qed.

Lemma flat_map_singleton {A B} (f : A -> B) l :
  flat_map (fun a => [f a]) l = map f l.
Proof.
  induction l as [|x l IH]; cbn; [reflexivity|]. rewrite IH. reflexivity.
Qed.

Lemma filter_flat_map_blocks {A B} (w : A -> bool) (proj : B -> A)
    (blocks : A -> list B) l :
  (forall a b, In b (blocks a) -> proj b = a) ->
  filter (fun b => w (proj b)) (flat_map blocks l) = flat_map blocks (filter w l).
Proof.
  intros Hp. induction l as [|x l IH]; cbn; [reflexivity|].
  rewrite filter_app, IH.
  assert (Hx : filter (fun b => w (proj b)) (blocks x)
               = if w x then blocks x else []).
  { destruct (w x) eqn:E.
    - assert (H : forall b, In b (blocks x) -> w (proj b) = true)
        by (intros b Hb; rewrite (Hp x b Hb); exact E).
      induction (blocks x) as [|b m IHm]; cbn; [reflexivity|].
      rewrite (H b (or_introl eq_refl)), IHm; [reflexivity|].
      intros b' Hb'. apply H. right. exact Hb'.
    - apply filter_none. intros b Hb. rewrite (Hp x b Hb). exact E. }
  rewrite Hx. destruct (w x); reflexivity.
Qed.

Lemma class_has_student_in_class c s :
  class_has_student c s = in_class (class_id c) s.
Proof.
  unfold class_has_student, in_class. destruct (student_classId s) as [k|]; cbn;
    [|reflexivity].
  rewrite (Z.eqb_sym (class_id c) k). reflexivity.
Qed.

(** The users table joined to the class rows, under unique user ids. *)
Lemma join_users_pk {A} (proj : A -> Class) (rows : list A) us :
  NoDup (map user_id us) ->
  left_join_on (fun a u => class_has_teacher (proj a) u) rows us
  = map (fun a => (a, find (class_has_teacher (proj a)) us)) rows.
Proof.
  intros Hnd. unfold left_join_on. rewrite <- flat_map_singleton.
  apply flat_map_ext. intros a.
  destruct (class_teacherId (proj a)) as [t|] eqn:Et.
  - rewrite (partners_unique user_id _ us t Hnd); [reflexivity|].
    intros u Hu. unfold class_has_teacher in Hu. rewrite Et in Hu. cbn in Hu.
    destruct (Z.eqb_spec t (user_id u)); [congruence|discriminate].
  - assert (Hnone : forall u, class_has_teacher (proj a) u = false).
    { intros u. unfold class_has_teacher. rewrite Et. reflexivity. }
    unfold partners.
    rewrite (filter_none (fun u => class_has_teacher (proj a) u) us)
      by (intros u _; apply Hnone).
    rewrite (find_all_false (class_has_teacher (proj a)) us Hnone). reflexivity.
Qed.

Lemma by_name_section_total str_le :
  (forall a b, str_le a b = true \/ str_le b a = true) ->
  forall a b, by_name_section str_le a b = true \/ by_name_section str_le b a = true.
Proof.
  intros Htot a b. unfold by_name_section.
  destruct (str_le (class_name a) (class_name b)) eqn:E1,
           (str_le (class_name b) (class_name a)) eqn:E2; try tauto.
  - apply Htot.
  - destruct (Htot (class_name a) (class_name b)); congruence.
Qed.

(** The rows of [getClasses] before sorting, under unique class and user
    ids: one per class that passes the filter, with the number of students
    whose class reference is that class and the first matching user. *)
Lemma getClasses_groups (w : Class -> bool) db :
  classes_pk db ->
  users_pk db ->
  group_count getClasses_key getClasses_key_eqb (fun r => is_some (snd (fst r)))
    (filter (fun r => w (fst (fst r)))
       (left_join_on (fun cs u => class_has_teacher (fst cs) u)
          (left_join_on class_has_student (classes db) (students db))
          (users db)))
  = map (fun c =>
           (((c, hd None (partners (class_has_student c) (students db))),
             find (class_has_teacher c) (users db)),
            enrolled_count (class_id c) db))
        (filter w (classes db)).
Proof.
  intros Hcpk Hupk.
  rewrite (join_users_pk fst _ _ Hupk).
  unfold left_join_on at 1. rewrite map_flat_map.
  set (blocks := fun c : Class =>
         map (fun a => (a, find (class_has_teacher (fst a)) (users db)))
           (map (fun b => (c, b)) (partners (class_has_student c) (students db)))).
  change (flat_map _ (classes db)) with (flat_map blocks (classes db)).
  assert (Hproj : forall c r, In r (blocks c) -> fst (fst r) = c).
  { intros c r Hr. unfold blocks in Hr. rewrite map_map in Hr.
    apply in_map_iff in Hr. destruct Hr as [o [<- _]]. reflexivity. }
  rewrite (filter_flat_map_blocks w (fun r => fst (fst r)) blocks _ Hproj).
  rewrite (group_count_blocks getClasses_key getClasses_key_eqb
             getClasses_key_eqb_spec blocks
             (fun c => ((c, hd None (partners (class_has_student c) (students db))),
                        find (class_has_teacher c) (users db)))
             (fun c => (c, option_map teacher_columns
                             (find (class_has_teacher c) (users db))))).
  - apply map_ext. intros c. f_equal. unfold blocks, enrolled_count.
    rewrite map_map.
    assert (Hlen : forall l : list (option Student),
      length (filter (fun r : Class * option Student * option User =>
                        is_some (snd (fst r)))
                (map (fun x => ((c, x), find (class_has_teacher c) (users db))) l))
      = length (filter is_some l)).
    { induction l as [|o l IH]; cbn; [reflexivity|].
      destruct (is_some o); cbn; rewrite IH; reflexivity. }
    rewrite Hlen, partners_counted.
    rewrite (filter_ext _ _ (class_has_student_in_class c)). reflexivity.
  - intros c. unfold blocks.
    destruct (partners_nonempty (class_has_student c) (students db)) as [o [tl E]].
    rewrite E. cbn. eauto.
  - intros c r Hr. unfold blocks in Hr. rewrite map_map in Hr.
    apply in_map_iff in Hr. destruct Hr as [o [<- _]]. reflexivity.
  - apply (NoDup_map_inv fst). rewrite map_map. cbn. rewrite map_id.
    apply NoDup_filter. apply (NoDup_map_inv class_id). exact Hcpk.
Qed.

Lemma teacher_of_class c us :
  match find (class_has_teacher c) us with
  | Some u => if truthy (user_id u) then Some (teacher_columns u) else None
  | None => None
  end
  = match class_teacherId c with
    | Some t =>
        if truthy t
        then option_map teacher_columns (find (fun u => user_id u =? t) us)
        else None
    | None => None
    end.
Proof.
  destruct (class_teacherId c) as [t|] eqn:Et.
  - assert (Hf : find (class_has_teacher c) us = find (fun u => user_id u =? t) us).
    { apply find_ext_eq. intros u. unfold class_has_teacher. rewrite Et. cbn.
      rewrite (Z.eqb_sym t). destruct (user_id u =? t); reflexivity. }
    rewrite Hf.
    destruct (find (fun u => user_id u =? t) us) as [u|] eqn:Hu; cbn [option_map].
    + apply find_some in Hu. destruct Hu as [_ Hu]. apply Z.eqb_eq in Hu.
      rewrite Hu. destruct (truthy t); reflexivity.
    + destruct (truthy t); reflexivity.
  - rewrite find_all_false; [reflexivity|].
    intros u. unfold class_has_teacher. rewrite Et. reflexivity.
Qed.

(** X21: getClasses (class and user ids unique) returns one entry per class
    that passes the teacher filter, in ascending order of name and then
    section; each entry carries the number of students enrolled in the
    class and the id, name and email of the user its teacherId names, or no
    teacher when that id is null, zero or names no user. *)
Theorem getClasses_reports_counts str_le teacherId db :
  (forall a b, str_le a b = true \/ str_le b a = true) ->
  classes_pk db ->
  users_pk db ->
  exists l,
    getClasses str_le teacherId db = (Ok l, db)
    /\ Permutation (map cwc_class l)
         (filter (fun c => match teacherId with
                           | Some t => if truthy t then taught_by t c else true
                           | None => true
                           end)
                 (classes db))
    /\ Sorted (fun a b => by_name_section str_le (cwc_class a) (cwc_class b) = true) l
    /\ (forall e, In e l ->
          cwc_studentCount e = enrolled_count (class_id (cwc_class e)) db
          /\ cwc_teacher e
             = match class_teacherId (cwc_class e) with
               | Some t =>
                   if truthy t
                   then option_map teacher_columns
                          (find (fun u => user_id u =? t) (users db))
                   else None
               | None => None
               end).
Proof.
  intros Htot Hcpk Hupk. unfold getClasses. unfold bind. cbv zeta.
  set (w := fun c : Class => match teacherId with
                             | Some t => if truthy t then taught_by t c else true
                             | None => true
                             end).
  change (filter (fun r : Class * option Student * option User =>
                    match teacherId with
                    | Some t => if truthy t then taught_by t (fst (fst r)) else true
                    | None => true
                    end))
    with (filter (fun r : Class * option Student * option User => w (fst (fst r)))).
  rewrite (getClasses_groups w db Hcpk Hupk). unfold ret.
  set (cmp := fun a b : Class * option Student * option User * Z =>
                by_name_section str_le (fst (fst (fst a))) (fst (fst (fst b)))).
  set (groups := map _ (filter w (classes db))).
  pose proof (sort_by_perm cmp groups) as Hperm.
  eexists. split; [reflexivity|]. split; [|split].
  - rewrite map_map. cbn [cwc_class].
    rewrite (Permutation_map (fun g => fst (fst (fst g))) Hperm).
    unfold groups. rewrite map_map. cbn. rewrite map_id. reflexivity.
  - apply (Sorted_map (fun a b => cmp a b = true)).
    + intros a b Hab. exact Hab.
    + apply sort_by_sorted. intros a b. apply by_name_section_total. exact Htot.
  - intros e He. apply in_map_iff in He. destruct He as [g [<- Hg]].
    apply (Permutation_in _ Hperm) in Hg. unfold groups in Hg.
    apply in_map_iff in Hg. destruct Hg as [c [<- Hc]].
    cbn [cwc_studentCount cwc_teacher cwc_class fst snd].
    split; [reflexivity|apply teacher_of_class].
Qed.

Lemma sample_db_users_pk : users_pk sample_db.
Proof.
  unfold users_pk. cbn.
  repeat (constructor; [cbn; intros H; intuition discriminate|]).
  constructor.
Defined.

Lemma getClasses_reports_counts_witness :
  exists l,
    getClasses String.leb (Some 7) sample_db = (Ok l, sample_db)
    /\ Permutation (map cwc_class l)
         (filter (fun c => if truthy 7 then taught_by 7 c else true)
                 (classes sample_db))
    /\ Sorted (fun a b => by_name_section String.leb (cwc_class a) (cwc_class b) = true) l
    /\ (forall e, In e l ->
          cwc_studentCount e = enrolled_count (class_id (cwc_class e)) sample_db
          /\ cwc_teacher e
             = match class_teacherId (cwc_class e) with
               | Some t =>
                   if truthy t
                   then option_map teacher_columns
                          (find (fun u => user_id u =? t) (users sample_db))
                   else None
               | None => None
               end).
Proof.
  apply (getClasses_reports_counts String.leb (Some 7) sample_db).
  - exact String.leb_total.
  - exact sample_db_classes_pk.
  - exact sample_db_users_pk.
Defined.

Example getClasses_sample :
  fst (getClasses String.leb None sample_db)
  = Ok [ mkClassWithStudentCount (mkClass 5 "Chemistry" "A" (Some 7) 0 0) 0
           (Some (mkTeacherInfo 7 "Tara" "tara@school.test"));
         mkClassWithStudentCount (mkClass 6 "Chemistry" "B" None 0 0) 0 None;
         mkClassWithStudentCount (mkClass 1 "Mathematics" "A" (Some 7) 0 0) 5
           (Some (mkTeacherInfo 7 "Tara" "tara@school.test"));
         mkClassWithStudentCount (mkClass 2 "Mathematics" "B" (Some 7) 0 0) 1
           (Some (mkTeacherInfo 7 "Tara" "tara@school.test"));
         mkClassWithStudentCount (mkClass 3 "Physics" "A" (Some 7) 0 0) 0
           (Some (mkTeacherInfo 7 "Tara" "tara@school.test"));
         mkClassWithStudentCount (mkClass 4 "Physics" "B" (Some 7) 0 0) 0
           (Some (mkTeacherInfo 7 "Tara" "tara@school.test")) ].
Proof. reflexivity. Qed.

(** ** The teacher's class list *)

Lemma class_columns_eqb_spec a b :
  TeacherService.class_columns_eqb a b = true <-> a = b.
Proof.
  destruct a as [[[[i n] s] c] u], b as [[[[i' n'] s'] c'] u']. cbn.
  rewrite !andb_true_iff, !Z.eqb_eq, !String.eqb_eq.
  split.
  - intros ((((-> & ->) & ->) & ->) & ->). reflexivity.
  - intros H. inv H. repeat split.
Qed.

Lemma getTeacherClasses_groups (w : Class -> bool) db :
  classes_pk db ->
  group_count (fun r : Class * option Student => TeacherService.class_columns (fst r))
    TeacherService.class_columns_eqb (fun r => is_some (snd r))
    (filter (fun r => w (fst r))
       (left_join_on class_has_student (classes db) (students db)))
  = map (fun c =>
           ((c, hd None (partners (class_has_student c) (students db))),
            enrolled_count (class_id c) db))
        (filter w (classes db)).
Proof.
  intros Hcpk. unfold left_join_on.
  set (blocks := fun c : Class =>
         map (fun b => (c, b)) (partners (class_has_student c) (students db))).
  change (flat_map _ (classes db)) with (flat_map blocks (classes db)).
  assert (Hproj : forall c r, In r (blocks c) -> fst r = c).
  { intros c r Hr. unfold blocks in Hr.
    apply in_map_iff in Hr. destruct Hr as [o [<- _]]. reflexivity. }
  rewrite (filter_flat_map_blocks w fst blocks _ Hproj).
  rewrite (group_count_blocks (fun r : Class * option Student =>
                                 TeacherService.class_columns (fst r))
             TeacherService.class_columns_eqb class_columns_eqb_spec blocks
             (fun c => (c, hd None (partners (class_has_student c) (students db))))
             TeacherService.class_columns).
  - apply map_ext. intros c. f_equal. unfold blocks, enrolled_count.
    assert (Hlen : forall l : list (option Student),
      length (filter (fun r : Class * option Student => is_some (snd r))
                (map (fun x => (c, x)) l))
      = length (filter is_some l)).
    { induction l as [|o l IH]; cbn; [reflexivity|].
      destruct (is_some o); cbn; rewrite IH; reflexivity. }
    rewrite Hlen, partners_counted.
    rewrite (filter_ext _ _ (class_has_student_in_class c)). reflexivity.
  - intros c. unfold blocks.
    destruct (partners_nonempty (class_has_student c) (students db)) as [o [tl E]].
    rewrite E. cbn. eauto.
  - intros c r Hr. rewrite (Hproj c r Hr). reflexivity.
  - apply (NoDup_map_inv (fun k => fst (fst (fst (fst k))))).
    rewrite map_map. cbn. apply NoDup_map_filter. exact Hcpk.
Qed.

Lemma Zsum_perm l l' :
  Permutation l l' -> fold_right Z.add 0 l = fold_right Z.add 0 l'.
Proof.
  induction 1; cbn; lia.
Qed.

Lemma Zsum_of_nat {A} (f : A -> nat) l :
  Z.of_nat (list_sum (map f l)) = fold_right Z.add 0 (map (fun x => Z.of_nat (f x)) l).
Proof.
  unfold list_sum. induction l as [|x l IH]; cbn [map fold_right]; [reflexivity|].
  rewrite <- IH. lia.
Qed.

(** X22: getTeacherClasses (class ids unique) lists the classes whose teacherId
    is the given id, each with its number of enrolled students, and agrees
    with the teacher dashboard: as many entries as totalClasses, and
    student counts that add up to totalStudents. *)
Theorem getTeacherClasses_agree_with_dashboard str_le teacherId db :
  classes_pk db ->
  exists l stats,
    TeacherService.getTeacherClasses str_le teacherId db = (Ok l, db)
    /\ TeacherService.getDashboardStats teacherId db = (Ok stats, db)
    /\ Permutation (map TeacherService.tc_id l)
         (map class_id (filter (taught_by teacherId) (classes db)))
    /\ (forall e, In e l ->
          TeacherService.tc_studentCount e
          = enrolled_count (TeacherService.tc_id e) db)
    /\ TeacherService.totalClasses stats = Z.of_nat (length l)
    /\ TeacherService.totalStudents stats
       = fold_right Z.add 0 (map TeacherService.tc_studentCount l).
Proof.
  intros Hcpk. unfold TeacherService.getTeacherClasses. cbv zeta.
  rewrite (getTeacherClasses_groups (taught_by teacherId) db Hcpk).
  set (cmp := fun a b : Class * option Student * Z =>
                by_name_section str_le (fst (fst a)) (fst (fst b))).
  set (groups := map _ (filter (taught_by teacherId) (classes db))).
  pose proof (sort_by_perm cmp groups) as Hperm.
  unfold TeacherService.getDashboardStats. unfold_m.
  eexists. eexists. split; [reflexivity|]. split; [reflexivity|].
  cbn [TeacherService.totalClasses TeacherService.totalStudents].
  split; [|split; [|split]].
  - rewrite map_map. cbn [TeacherService.tc_id].
    rewrite (Permutation_map (fun g => class_id (fst (fst g))) Hperm).
    unfold groups. rewrite map_map. reflexivity.
  - intros e He. apply in_map_iff in He. destruct He as [g [<- Hg]].
    apply (Permutation_in _ Hperm) in Hg. unfold groups in Hg.
    apply in_map_iff in Hg. destruct Hg as [c [<- Hc]]. reflexivity.
  - rewrite length_map, (Permutation_length Hperm). unfold groups.
    rewrite length_map. reflexivity.
  - transitivity (fold_right Z.add 0 (map snd (sort_by cmp groups))).
    + rewrite inner_join_count, Zsum_of_nat.
      rewrite (Zsum_perm _ _ (Permutation_map snd Hperm)).
      unfold groups. rewrite map_map. reflexivity.
    + f_equal. rewrite map_map. apply map_ext. intros g. reflexivity.
Qed.

Lemma getTeacherClasses_agree_with_dashboard_witness :
  exists l stats,
    TeacherService.getTeacherClasses String.leb 7 sample_db = (Ok l, sample_db)
    /\ TeacherService.getDashboardStats 7 sample_db = (Ok stats, sample_db)
    /\ Permutation (map TeacherService.tc_id l)
         (map class_id (filter (taught_by 7) (classes sample_db)))
    /\ (forall e, In e l ->
          TeacherService.tc_studentCount e
          = enrolled_count (TeacherService.tc_id e) sample_db)
    /\ TeacherService.totalClasses stats = Z.of_nat (length l)
    /\ TeacherService.totalStudents stats
       = fold_right Z.add 0 (map TeacherService.tc_studentCount l).
Proof.
  exact (getTeacherClasses_agree_with_dashboard String.leb 7 sample_db
           sample_db_classes_pk).
Defined.

Example getTeacherClasses_sample :
  option_map (map (fun e => (TeacherService.tc_name e, TeacherService.tc_section e,
                             TeacherService.tc_studentCount e)))
    (match fst (TeacherService.getTeacherClasses String.leb 7 sample_db) with
     | Ok l => Some l
     | Throw _ => None
     end)
  = Some [ ("Chemistry", "A", 0); ("Mathematics", "A", 5); ("Mathematics", "B", 1);
           ("Physics", "A", 0); ("Physics", "B", 0) ].
Proof. reflexivity. Qed.

(** ** The classes of a student account *)

Lemma insert_sorted_hd {A} (le : A -> A -> bool) x l :
  hd_error (insert_sorted le x l)
  = match hd_error l with
    | Some y => if le x y then Some x else Some y
    | None => Some x
    end.
Proof.
  destruct l as [|y l]; cbn; [reflexivity|]. destruct (le x y); reflexivity.
Qed.

(** The first row of a sorted list comes before every row. *)
Lemma sort_by_hd_least {A} (le : A -> A -> bool) l x :
  (forall a b, le a b = true \/ le b a = true) ->
  (forall a b c, le a b = true -> le b c = true -> le a c = true) ->
  hd_error (sort_by le l) = Some x ->
  In x l /\ forall y, In y l -> le x y = true.
Proof.
  intros Htot Htrans. revert x.
  induction l as [|a l IH]; cbn; intros x Hx; [discriminate|].
  rewrite insert_sorted_hd in Hx.
  assert (Haa : le a a = true) by (destruct (Htot a a); assumption).
  destruct (hd_error (sort_by le l)) as [m|] eqn:Hm.
  - destruct (IH m eq_refl) as [Hin Hleast].
    destruct (le a m) eqn:E; inversion Hx; subst x; clear Hx.
    + split; [left; reflexivity|]. intros y [Hy|Hy]; [subst y; exact Haa|].
      apply (Htrans _ m); [exact E|apply Hleast; exact Hy].
    + split; [right; exact Hin|]. intros y [Hy|Hy]; [subst y|apply Hleast; exact Hy].
      destruct (Htot m a); [assumption|congruence].
  - inversion Hx; subst x; clear Hx.
    split; [left; reflexivity|]. intros y [Hy|Hy]; [subst y; exact Haa|].
    assert (Hnil : sort_by le l = []) by (destruct (sort_by le l); [reflexivity|discriminate]).
    pose proof (Permutation_in y (Permutation_sym (sort_by_perm le l)) Hy) as Hy'.
    rewrite Hnil in Hy'. contradiction.
Qed.

Lemma filter_by_pk cid db cl :
  classes_pk db ->
  find_class cid db = Some cl ->
  filter (fun c => class_id c =? cid) (classes db) = [cl].
Proof.
  unfold classes_pk, find_class.
  induction (classes db) as [|x l IH]; cbn; intros Hnd Hf; [discriminate|].
  inversion Hnd as [|? ? Hx Hl]; subst.
  destruct (Z.eqb_spec (class_id x) cid) as [E|E].
  - inv Hf. f_equal. apply filter_none. intros y Hy.
    apply Z.eqb_neq. intros Ey. apply Hx. rewrite <- Ey. apply in_map. exact Hy.
  - apply IH; assumption.
Qed.

Lemma getStudentClasses_key_eqb_spec a b :
  getStudentClasses_key_eqb a b = true <-> a = b.
Proof.
  unfold getStudentClasses_key_eqb. destruct a as [i u], b as [i' u']. cbn.
  rewrite andb_true_iff, Z.eqb_eq, (opt_eqb_spec Z.eqb Z.eqb_eq).
  split; [intros [-> ->]; reflexivity|intros H; inv H; split; reflexivity].
Qed.

(** The grouped rows of [getStudentClasses] for one class id, under unique
    class and user ids. *)
Lemma getStudentClasses_groups cid db cl :
  classes_pk db ->
  users_pk db ->
  find_class cid db = Some cl ->
  group_count getStudentClasses_key getStudentClasses_key_eqb
    (fun r => is_some (snd r))
    (filter (fun r => sql_where (sql_eq (Some (class_id (fst (fst r)))) (Some cid)))
       (left_join_on (fun cu s => student_of_class (fst cu) s)
          (left_join_on class_has_teacher (classes db) (users db))
          (students db)))
  = [ (((cl, find (class_has_teacher cl) (users db)),
        hd None (partners (student_of_class cl) (students db))),
       enrolled_count cid db) ].
Proof.
  intros Hcpk Hupk Hc.
  assert (Hju : left_join_on class_has_teacher (classes db) (users db)
                = map (fun c => (c, find (class_has_teacher c) (users db))) (classes db)).
  { exact (join_users_pk (fun c => c) (classes db) (users db) Hupk). }
  rewrite Hju. unfold left_join_on. rewrite flat_map_concat_map, map_map.
  rewrite <- flat_map_concat_map.
  set (blocks := fun c : Class =>
         map (fun b => ((c, find (class_has_teacher c) (users db)), b))
           (partners (student_of_class c) (students db))).
  change (flat_map _ (classes db)) with (flat_map blocks (classes db)).
  assert (Hproj : forall c r, In r (blocks c) -> fst (fst r) = c).
  { intros c r Hr. unfold blocks in Hr.
    apply in_map_iff in Hr. destruct Hr as [o [<- _]]. reflexivity. }
  rewrite (filter_flat_map_blocks
             (fun c => sql_where (sql_eq (Some (class_id c)) (Some cid)))
             (fun r => fst (fst r)) blocks _ Hproj).
  assert (Hw : filter (fun c => sql_where (sql_eq (Some (class_id c)) (Some cid)))
                 (classes db) = [cl]).
  { rewrite <- (filter_by_pk cid db cl Hcpk Hc). apply filter_ext. intros c.
    cbn. destruct (class_id c =? cid); reflexivity. }
  rewrite Hw.
  rewrite (group_count_blocks getStudentClasses_key getStudentClasses_key_eqb
             getStudentClasses_key_eqb_spec blocks
             (fun c => ((c, find (class_has_teacher c) (users db)),
                        hd None (partners (student_of_class c) (students db))))
             (fun c => (class_id c,
                        option_map user_id (find (class_has_teacher c) (users db))))).
  - cbn [map]. f_equal. f_equal. unfold blocks, enrolled_count.
    assert (Hlen : forall l : list (option Student),
      length (filter (fun r : Class * option User * option Student => is_some (snd r))
                (map (fun x => ((cl, find (class_has_teacher cl) (users db)), x)) l))
      = length (filter is_some l)).
    { induction l as [|o l IH]; cbn; [reflexivity|].
      destruct (is_some o); cbn; rewrite IH; reflexivity. }
    rewrite Hlen, partners_counted. rewrite <- (find_class_id _ _ _ Hc). reflexivity.
  - intros c. unfold blocks.
    destruct (partners_nonempty (student_of_class c) (students db)) as [o [tl E]].
    rewrite E. cbn. eauto.
  - intros c r Hr. unfold blocks in Hr.
    apply in_map_iff in Hr. destruct Hr as [o [<- _]]. reflexivity.
  - cbn. constructor; [intros []|constructor].
Qed.

(** X23: getStudentClasses finds the student by the name of the user account:
    it throws when the user id is unknown; it returns nothing when no
    student carries the user's name; otherwise it takes the student with
    the greatest id among those of that name and returns nothing when that
    student has no class, and else exactly that class with its number of
    enrolled students and its teacher (ids unique). *)
Theorem getStudentClasses_matches_by_name userId db :
  students_pk db ->
  classes_pk db ->
  users_pk db ->
  match find (fun u => user_id u =? userId) (users db) with
  | None => getStudentClasses userId db = (ThrowUserNotFound, db)
  | Some user =>
      exists rows,
        getStudentClasses userId db = (StudentClasses rows, db)
        /\ ((forall s, In s (students db) -> student_name s <> user_name user) ->
            rows = [])
        /\ (forall st,
              In st (students db) ->
              student_name st = user_name user ->
              (forall s, In s (students db) -> student_name s = user_name user ->
                         student_id s <= student_id st) ->
              match student_classId st with
              | None => rows = []
              | Some c =>
                  c <> 0 ->
                  forall cl, find_class c db = Some cl ->
                    rows = [ mkStudentClassRow cl (enrolled_count c db)
                               (option_map teacher_columns
                                  (find (class_has_teacher cl) (users db))) ]
              end)
  end.
Proof.
  intros Hspk Hcpk Hupk. unfold getStudentClasses. cbv zeta.
  rewrite first_row_filter.
  destruct (find (fun u => user_id u =? userId) (users db)) as [user|]; [|reflexivity].
  set (le := fun a b : Student => student_id b <=? student_id a).
  set (named := filter (fun s => String.eqb (student_name s) (user_name user))
                  (students db)).
  assert (Hfr : first_row (sort_by le named) = hd_error (sort_by le named)).
  { unfold first_row. destruct (sort_by le named); reflexivity. }
  rewrite Hfr.
  assert (Htot : forall a b, le a b = true \/ le b a = true).
  { intros a b. unfold le. destruct (Z.leb_spec (student_id b) (student_id a));
      [left; reflexivity|right; apply Z.leb_le; lia]. }
  assert (Htrans : forall a b c, le a b = true -> le b c = true -> le a c = true).
  { intros a b c. unfold le. rewrite !Z.leb_le. lia. }
  assert (Hnamed : forall s, In s named <->
                     In s (students db) /\ student_name s = user_name user).
  { intros s. unfold named. rewrite filter_In, String.eqb_eq. tauto. }
  destruct (hd_error (sort_by le named)) as [rec|] eqn:Hhd.
  - destruct (sort_by_hd_least le named rec Htot Htrans Hhd) as [Hin Hleast].
    apply Hnamed in Hin. destruct Hin as [Hin Hname].
    assert (Hsame : forall st, In st (students db) ->
              student_name st = user_name user ->
              (forall s, In s (students db) -> student_name s = user_name user ->
                         student_id s <= student_id st) ->
              st = rec).
    { intros st Hst Hn Hmax.
      assert (Hid : student_id st = student_id rec).
      { pose proof (Hmax rec Hin Hname).
        pose proof (Hleast st (proj2 (Hnamed st) (conj Hst Hn))) as H1.
        unfold le in H1. apply Z.leb_le in H1. lia. }
      clear - Hspk Hst Hin Hid. unfold students_pk in Hspk.
      induction (students db) as [|x l IH]; [contradiction|].
      cbn in Hspk. inversion Hspk as [|? ? Hx Hl]; subst.
      destruct Hst as [->|Hst], Hin as [->|Hin]; try reflexivity.
      - exfalso. apply Hx. rewrite Hid. apply in_map. exact Hin.
      - exfalso. apply Hx. rewrite <- Hid. apply in_map. exact Hst.
      - apply IH; assumption. }
    destruct (student_classId rec) as [c|] eqn:Hrc; cbn [truthy_opt negb].
    + destruct (truthy c) eqn:Htc; cbn [negb].
      * destruct (find_class c db) as [cl|] eqn:Hc.
        -- rewrite (getStudentClasses_groups c db cl Hcpk Hupk Hc).
           eexists. split; [reflexivity|]. split.
           ++ intros Hnone. exfalso. exact (Hnone rec Hin Hname).
           ++ intros st Hst Hn Hmax. rewrite (Hsame st Hst Hn Hmax), Hrc.
              intros _ cl' Hcl'. rewrite Hc in Hcl'. inv Hcl'. reflexivity.
        -- eexists. split; [reflexivity|]. split.
           ++ intros Hnone. exfalso. exact (Hnone rec Hin Hname).
           ++ intros st Hst Hn Hmax. rewrite (Hsame st Hst Hn Hmax), Hrc.
              intros _ cl' Hcl'. congruence.
      * eexists. split; [reflexivity|]. split; [reflexivity|].
        intros st Hst Hn Hmax. rewrite (Hsame st Hst Hn Hmax), Hrc.
        intros Hnz. exfalso. unfold truthy in Htc.
        destruct (Z.eqb_spec c 0); [contradiction|discriminate].
    + eexists. split; [reflexivity|]. split; [reflexivity|].
      intros st Hst Hn Hmax. rewrite (Hsame st Hst Hn Hmax), Hrc. reflexivity.
  - eexists. split; [reflexivity|]. split; [reflexivity|].
    intros st Hst Hn _. exfalso.
    assert (Hnil : sort_by le named = [])
      by (destruct (sort_by le named); [reflexivity|discriminate]).
    assert (Hs : In st (sort_by le named)).
    { apply (Permutation_in _ (Permutation_sym (sort_by_perm le named))).
      apply Hnamed. tauto. }
    rewrite Hnil in Hs. contradiction.
Qed.

Lemma accounts_db_pk :
  students_pk accounts_db /\ classes_pk accounts_db /\ users_pk accounts_db.
Proof.
  unfold students_pk, classes_pk, users_pk. cbn.
  repeat split;
    repeat (constructor; [cbn; intros H; intuition discriminate|]); constructor.
Defined.

Lemma getStudentClasses_matches_by_name_witness :
  exists rows,
    getStudentClasses 10 accounts_db = (StudentClasses rows, accounts_db)
    /\ ((forall s, In s (students accounts_db) -> student_name s <> "Ava") ->
        rows = [])
    /\ (forall st,
          In st (students accounts_db) ->
          student_name st = "Ava" ->
          (forall s, In s (students accounts_db) -> student_name s = "Ava" ->
                     student_id s <= student_id st) ->
          match student_classId st with
          | None => rows = []
          | Some c =>
              c <> 0 ->
              forall cl, find_class c accounts_db = Some cl ->
                rows = [ mkStudentClassRow cl (enrolled_count c accounts_db)
                           (option_map teacher_columns
                              (find (class_has_teacher cl) (users accounts_db))) ]
          end).
Proof.
  exact (getStudentClasses_matches_by_name 10 accounts_db
           (proj1 accounts_db_pk) (proj1 (proj2 accounts_db_pk))
           (proj2 (proj2 accounts_db_pk))).
Defined.

(** User 10 (Ava) gets the class of student 1; user 9 (Gus) gets nothing,
    because the newest student called Gus has no class, although an older
    student of that name is enrolled; an unknown user id throws. *)
Example getStudentClasses_sample :
  fst (getStudentClasses 10 accounts_db)
  = StudentClasses
      [ mkStudentClassRow (mkClass 1 "Mathematics" "A" (Some 7) 0 0) 5
          (Some (mkTeacherInfo 7 "Tara" "tara@school.test")) ]
  /\ fst (getStudentClasses 9 accounts_db) = StudentClasses []
  /\ fst (getStudentClasses 99 accounts_db) = ThrowUserNotFound.
Proof. repeat split. Qed.

(** ** Teachers with their classes and students *)

Lemma getTeachersWithDetails_eval toISOString db :
  getTeachersWithDetails toISOString db =
  (Ok (map (fun teacher =>
              mkTeacherDetails (user_id teacher) (user_name teacher)
                (user_email teacher) (user_role teacher)
                (toISOString (user_createdAt teacher))
                (sections_of (user_id teacher) db) 5
                (map (fun c =>
                        mkClassDetails (class_id c) (class_name c) (class_section c)
                          (enrolled_count (class_id c) db)
                          (map (fun s => mkStudentBrief (student_id s)
                                           (student_name s) (student_age s))
                               (filter (in_class (class_id c)) (students db))))
                     (filter (taught_by (user_id teacher)) (classes db))))
         (filter (fun u => role_eqb (user_role u) RoleTeacher) (users db))),
   db).
Proof.
  unfold getTeachersWithDetails. unfold bind at 1. unfold select_users at 1.
  apply mapM_reads. intros teacher.
  unfold bind at 1. unfold select_classes at 1.
  unfold bind at 1.
  rewrite (mapM_reads _
             (fun c => mkClassDetails (class_id c) (class_name c) (class_section c)
                         (enrolled_count (class_id c) db)
                         (map (fun s => mkStudentBrief (student_id s)
                                          (student_name s) (student_age s))
                              (filter (in_class (class_id c)) (students db)))))
    by (intros c; reflexivity).
  reflexivity.
Qed.

(** X24: getTeachersWithDetails lists the teacher accounts in table order; each
    entry reports maxSections 5, a sectionCount equal to the number of its
    classes, and for every class a studentCount equal to the number of
    students listed for it, which is the number enrolled in that class.
    The teachers getAvailableTeachers lists are those whose sectionCount
    here is below maxSections. *)
Theorem getTeachersWithDetails_counts name_le toISOString db :
  exists l avail,
    getTeachersWithDetails toISOString db = (Ok l, db)
    /\ getAvailableTeachers name_le toISOString db = (Ok avail, db)
    /\ map td_id l
       = map user_id (filter (fun u => role_eqb (user_role u) RoleTeacher) (users db))
    /\ (forall d, In d l ->
          td_maxSections d = 5
          /\ td_sectionCount d = sections_of (td_id d) db
          /\ td_sectionCount d = Z.of_nat (length (td_classes d))
          /\ (forall c, In c (td_classes d) ->
                cd_studentCount c = enrolled_count (cd_id c) db
                /\ cd_studentCount c = Z.of_nat (length (cd_students c))))
    /\ (forall t, In t (map details_id avail)
                  <-> exists d, In d l /\ td_id d = t
                                /\ td_sectionCount d < td_maxSections d).
Proof.
  rewrite getTeachersWithDetails_eval, getAvailableTeachers_eval.
  eexists. eexists. split; [reflexivity|]. split; [reflexivity|].
  split; [rewrite map_map; reflexivity|]. split.
  - intros d Hd. apply in_map_iff in Hd. destruct Hd as [u [<- Hu]].
    cbn [td_maxSections td_sectionCount td_id td_classes].
    split; [reflexivity|]. split; [reflexivity|].
    split; [unfold sections_of; rewrite length_map; reflexivity|].
    intros c Hc. apply in_map_iff in Hc. destruct Hc as [cl [<- Hcl]].
    cbn [cd_studentCount cd_id cd_students].
    split; [reflexivity|]. unfold enrolled_count. rewrite length_map. reflexivity.
  - intros t. rewrite map_map. cbn [details_id]. rewrite in_map_iff. split.
    + intros [u [Hid Hu]]. apply filter_In in Hu. destruct Hu as [Hu Hn].
      apply (Permutation_in _ (sort_by_perm _ _)) in Hu.
      eexists. split; [apply in_map; exact Hu|].
      cbn [td_id td_sectionCount td_maxSections].
      split; [exact Hid|]. apply Z.ltb_lt. exact Hn.
    + intros [d [Hd [Hid Hn]]]. apply in_map_iff in Hd. destruct Hd as [u [<- Hu]].
      cbn [td_id td_sectionCount td_maxSections] in *.
      exists u. split; [exact Hid|]. apply filter_In. split.
      * apply (Permutation_in _ (Permutation_sym (sort_by_perm _ _))). exact Hu.
      * apply Z.ltb_lt. exact Hn.
Qed.

Example getTeachersWithDetails_sample :
  option_map (map (fun d => (td_name d, td_sectionCount d, td_maxSections d,
                             map (fun c => (cd_name c, cd_section c, cd_studentCount c))
                                 (td_classes d))))
    (match fst (getTeachersWithDetails (fun _ => "") sample_db) with
     | Ok l => Some l
     | Throw _ => None
     end)
  = Some [ ("Tara", 5, 5,
            [ ("Mathematics", "A", 5); ("Mathematics", "B", 1); ("Physics", "A", 0);
              ("Physics", "B", 0); ("Chemistry", "A", 0) ]) ].
Proof. reflexivity. Qed.
